(** * EventFlow dashboard: the simulation and analytics core

    A shallow embedding of
      - src/data/mockDataGenerator.js     (module [Generator])
      - src/services/realtimeSimulator.js (module [Simulator])
      - src/services/sessionAnalytics.js  (module [SessionAnalytics])
      - src/utils/dataTransformers.js and src/services/analyticsService.js
        (module [AnalyticsService])
    followed by the properties established about them.

    Conventions of the embedding.
    - A JavaScript number that the code keeps integral (counts, capacities,
      the results of [Math.floor] and [Math.round] on finite values) is a [Z].
      A number that can be fractional is a [Q]; IEEE rounding error is not
      modelled, so products such as [capacity * 0.3] are exact rationals.
      Where the code rounds a quotient ([Math.round((a / b) * 100)]) the
      double can fall on the other side of a half, so the model's value can
      differ from the code's by one; a sum can round up to its bound. The
      properties below therefore state bounds, inclusive where a double can
      reach them, and no exact value of a rounded fraction.
      A number that can be [NaN] or infinite is a [JS.num].
    - [Math.random()] reads the next value of an oracle ([Rand.rng]); every
      draw of the source is a draw of the model, in the source's order.
    - [Date.now()], [new Date()] are inputs of the operations that read them.
    - An object whose identity matters is paired with its reference. *)

From Stdlib Require Import ZArith QArith Qround Qminmax Lia Lqa.
From stdpp Require Import gmap strings pretty list sorting.

Open Scope Z_scope.

(** ** JavaScript numbers and array primitives *)
Module JS.

(** A double, up to rounding error: a finite rational, [NaN] or an infinity.
    Signed zeros are not distinguished: every divisor below is a sum of
    non-negative integers or a length, hence [+0] when it is zero. *)
Inductive num : Type :=
| Fin (q : Q)
| NaN
| PInf
| NInf.

Definition of_Z (z : Z) : num := Fin (inject_Z z).

Definition Qis0 (q : Q) : bool := Qeq_bool q 0.
Definition Qneg (q : Q) : bool := negb (Qle_bool 0 q).

(** [a / b] *)
Definition div (a b : num) : num :=
  match a, b with
  | NaN, _ | _, NaN => NaN
  | Fin x, Fin y =>
      if Qis0 y then (if Qis0 x then NaN else if Qneg x then NInf else PInf)
      else Fin (x / y)
  | Fin _, (PInf | NInf) => Fin 0
  | (PInf | NInf), (PInf | NInf) => NaN
  | PInf, Fin y => if Qneg y then NInf else PInf
  | NInf, Fin y => if Qneg y then PInf else NInf
  end.

(** [a * b] *)
Definition mul (a b : num) : num :=
  match a, b with
  | NaN, _ | _, NaN => NaN
  | Fin x, Fin y => Fin (x * y)
  | Fin x, PInf | PInf, Fin x =>
      if Qis0 x then NaN else if Qneg x then NInf else PInf
  | Fin x, NInf | NInf, Fin x =>
      if Qis0 x then NaN else if Qneg x then PInf else NInf
  | PInf, PInf | NInf, NInf => PInf
  | PInf, NInf | NInf, PInf => NInf
  end.

(** [Math.round]: the nearest integer, halves towards +infinity. *)
Definition Qround (q : Q) : Z := Qfloor (q + (1 # 2)).

Definition round (a : num) : num :=
  match a with
  | Fin x => of_Z (Qround x)
  | other => other
  end.

(** ToBoolean on a number: [0] and [NaN] are falsy. *)
Definition truthy (a : num) : bool :=
  match a with
  | Fin x => negb (Qis0 x)
  | NaN => false
  | PInf | NInf => true
  end.

(** [a || b] on numbers. *)
Definition or (a b : num) : num := if truthy a then a else b.

(** [x || 0] on an integral number. *)
Definition or0 (x : Z) : Z := if x =? 0 then 0 else x.

(** [a < b]: false as soon as an operand is [NaN]. *)
Definition lt (a b : num) : bool :=
  match a, b with
  | NaN, _ | _, NaN => false
  | Fin x, Fin y => negb (Qle_bool y x)
  | NInf, (Fin _ | PInf) => true
  | Fin _, PInf => true
  | _, _ => false
  end.

Definition is_finite (a : num) : bool :=
  match a with Fin _ => true | _ => false end.

(** [Math.floor(Math.random() * n)] for a drawn value [r]. *)
Definition floor_scaled (r : Q) (n : Z) : Z := Qfloor (r * inject_Z n).

(** The time value of [new Date(v)]: [v] truncated towards zero. *)
Definition time_clip (v : Q) : Z := Z.quot (Qnum v) (Zpos (Qden v)).

(** An object together with its reference; [===] compares references. *)
Record obj (A : Type) : Type := Obj { ref : nat; val : A }.
Arguments Obj {A} _ _.
Arguments ref {A} _.
Arguments val {A} _.

Definition same {A} (a b : obj A) : bool := Nat.eqb (ref a) (ref b).

(** [arr.indexOf(x)] on an array of objects: first position holding the
    same reference, [-1] when there is none. *)
Fixpoint indexOf_from {A} (i : Z) (arr : list (obj A)) (x : obj A) : Z :=
  match arr with
  | [] => -1
  | y :: rest => if same y x then i else indexOf_from (i + 1) rest x
  end.

Definition indexOf {A} (arr : list (obj A)) (x : obj A) : Z :=
  indexOf_from 0 arr x.

(** [arr.slice(0, e)]: a negative [e] counts from the end. *)
Definition slice0 {A} (e : Z) (arr : list A) : list A :=
  let len := Z.of_nat (length arr) in
  let k := if e <? 0 then Z.max (len + e) 0 else Z.min e len in
  take (Z.to_nat k) arr.

(** [arr.sort(cmp)] with a comparator into the finite numbers. ECMAScript requires
    the sort to be stable; for a comparator that is a total preorder the
    result is then unique, and it is the one insertion computes here:
    [x] goes before the first [y] with [cmp x y <= 0]. *)
Fixpoint insert_by {A} (cmp : A -> A -> Q) (x : A) (l : list A) : list A :=
  match l with
  | [] => [x]
  | y :: rest =>
      if Qle_bool (cmp x y) 0 then x :: y :: rest
      else y :: insert_by cmp x rest
  end.

Fixpoint sort_by {A} (cmp : A -> A -> Q) (l : list A) : list A :=
  match l with
  | [] => []
  | x :: rest => insert_by cmp x (sort_by cmp rest)
  end.

(** [arr.some(p)], [arr.includes(s)] on strings. *)
Definition some {A} (p : A -> bool) (l : list A) : bool := existsb p l.
Definition includes (l : list string) (s : string) : bool :=
  existsb (String.eqb s) l.

(** [arr[i]] for an index known to be in range at every call site; the
    default stands for [undefined]. *)
Definition at_ {A} (d : A) (l : list A) (i : Z) : A :=
  if i <? 0 then d else nth (Z.to_nat i) l d.

(** [a + b] *)
Definition add (a b : num) : num :=
  match a, b with
  | NaN, _ | _, NaN => NaN
  | Fin x, Fin y => Fin (x + y)
  | PInf, NInf | NInf, PInf => NaN
  | PInf, _ | _, PInf => PInf
  | NInf, _ | _, NInf => NInf
  end.

End JS.

(** ** [Math.random()] as an oracle *)
Module Rand.

(** The values [Math.random()] will return, and how many were drawn. *)
Record rng : Type := Rng { oracle : nat -> Q; drawn : nat }.

Definition M (A : Type) : Type := rng -> A * rng.

Definition ret {A} (a : A) : M A := fun g => (a, g).

Definition bind {A B} (c : M A) (k : A -> M B) : M B :=
  fun g => let (a, g') := c g in k a g'.

(** One call of [Math.random()]. *)
Definition random : M Q :=
  fun g => (oracle g (drawn g), Rng (oracle g) (S (drawn g))).

(** [Math.random()] returns a value in [[0, 1)]. *)
Definition in_range (g : rng) : Prop :=
  forall n, (0 <= oracle g n)%Q /\ (oracle g n < 1)%Q.

(** A loop over [l] threading the accumulator [s]. *)
Fixpoint foldM {A S} (f : S -> A -> M S) (l : list A) (s : S) : M S :=
  match l with
  | [] => ret s
  | a :: rest => bind (f s a) (foldM f rest)
  end.

(** [l.forEach] / [l.map] with a body that draws. *)
Fixpoint mapM {A B} (f : A -> M B) (l : list A) : M (list B) :=
  match l with
  | [] => ret []
  | a :: rest => bind (f a) (fun b => bind (mapM f rest) (fun bs => ret (b :: bs)))
  end.

End Rand.

Notation "'let*' x ':=' c 'in' k" := (Rand.bind c (fun x => k))
  (at level 10, x pattern, c at level 100, k at level 200).

(** ** The entities of the data model *)

Inductive status : Type := upcoming | active | completed.

Definition status_eqb (a b : status) : bool :=
  match a, b with
  | upcoming, upcoming | active, active | completed, completed => true
  | _, _ => false
  end.

Module Feedback.
Record ratings_t : Type := Ratings {
  content : Z; presentation : Z; relevance : Z; overall : Z }.

(** [id] is the pair interpolated into [`feedback-${Date.now()}-${Math.random()}`]. *)
Record t : Type := Make {
  id : Z * Q;
  sessionId : string;
  attendeeId : string;
  attendeeName : string;
  ratings : ratings_t;
  comment : string;
  timestamp : Z;
  helpful : Z;
  verified : bool }.
End Feedback.

Module Session.
(** The fields of a session object. [time] and [description] (display
    strings computed from the other fields) are left out. [averageRating]
    is a field the analytics service reads and the generator never
    writes: [None] is the absent property. *)
Record t : Type := Make {
  id : string;
  title : string;
  speaker : string;
  speakerId : string;
  room : string;
  startHour : Z;
  startMinute : Z;
  duration : Z;
  capacity : Z;
  currentAttendance : Z;
  attendanceRate : JS.num;
  engagement : Z;
  status_ : status;
  tags : list string;
  rating : Q;
  feedback : list Feedback.t;
  averageRating : option Q }.

(** In-place assignment to the fields the simulator mutates. *)
Definition assign (s : t) (cur : Z) (rate : JS.num) (eng : Z) (st : status)
    (fb : list Feedback.t) : t :=
  Make (id s) (title s) (speaker s) (speakerId s) (room s) (startHour s)
    (startMinute s) (duration s) (capacity s) cur rate eng st (tags s)
    (rating s) fb (averageRating s).

Definition set_currentAttendance (v : Z) (s : t) : t :=
  assign s v (attendanceRate s) (engagement s) (status_ s) (feedback s).
Definition set_attendanceRate (v : JS.num) (s : t) : t :=
  assign s (currentAttendance s) v (engagement s) (status_ s) (feedback s).
Definition set_engagement (v : Z) (s : t) : t :=
  assign s (currentAttendance s) (attendanceRate s) v (status_ s) (feedback s).
Definition set_status (v : status) (s : t) : t :=
  assign s (currentAttendance s) (attendanceRate s) (engagement s) v (feedback s).
Definition set_feedback (v : list Feedback.t) (s : t) : t :=
  assign s (currentAttendance s) (attendanceRate s) (engagement s) (status_ s) v.

Definition has_status (st : status) (s : t) : bool := status_eqb (status_ s) st.

(** [Math.round((currentAttendance / capacity) * 100)] *)
Definition rate_of (cur cap : Z) : JS.num :=
  JS.round (JS.mul (JS.div (JS.of_Z cur) (JS.of_Z cap)) (JS.of_Z 100)).
End Session.

Module Speaker.
(** [bio], [imageUrl] and [social] (display strings) are left out. *)
Record t : Type := Make {
  id : string;
  name : string;
  title : string;
  company : string;
  sessions : Z;
  totalAttendees : Z;
  avgEngagement : Z;
  rating : Q;
  expertise : list string }.
End Speaker.

Module Attendee.
(** [email] (a display string) is left out. *)
Record t : Type := Make {
  id : string;
  name : string;
  company : string;
  role : string;
  registeredSessions : list string;
  attendedSessions : list string;
  engagementScore : Z;
  joinedAt : Z }.
End Attendee.

Module Metrics.
Record t : Type := Make {
  totalSessions : Z;
  activeSessions : Z;
  totalAttendees : Z;
  avgEngagement : JS.num;
  totalFeedback : Z;
  avgRating : JS.num }.
End Metrics.

(** The arrays and the metrics object that [generateInitialData] creates.
    They are created together and never reassigned one by one, so every
    shallow copy of the data object shares all of them. *)
Module Dataset.
Record t : Type := Make {
  sessions : list Session.t;
  speakers : list Speaker.t;
  attendees : list Attendee.t;
  feedback : list Feedback.t;
  metrics : Metrics.t }.
End Dataset.

Definition sumZ {A} (f : A -> Z) (l : list A) : Z :=
  fold_left (fun sum a => sum + f a) l 0.

Definition lengthZ {A} (l : list A) : Z := Z.of_nat (length l).

(** [Math.round((sum of overall ratings / feedback.length) * 10) / 10] *)
Definition avgRating_of (fb : list Feedback.t) : JS.num :=
  JS.div
    (JS.round
       (JS.mul
          (JS.div (JS.of_Z (sumZ (fun f => Feedback.overall (Feedback.ratings f)) fb))
                  (JS.of_Z (lengthZ fb)))
          (JS.of_Z 10)))
    (JS.of_Z 10).

(** ** src/data/mockDataGenerator.js *)
Module Generator.
Import Rand.

Definition SESSION_TOPICS : list string :=
  [ "Keynote: Future of Web Development"; "React Performance Optimization";
    "Building Scalable Microservices"; "Cloud Native Architecture";
    "Machine Learning in JavaScript"; "DevOps Best Practices";
    "Accessibility in Modern Web Apps"; "State Management Patterns";
    "GraphQL vs REST APIs"; "Security in Web Applications";
    "Progressive Web Apps"; "Testing Strategies"; "CI/CD Pipeline Design";
    "Kubernetes for Developers"; "Serverless Architecture" ]%string.

Definition SPEAKER_NAMES : list string :=
  [ "Dr. Sarah Chen"; "Michael Rodriguez"; "Emily Johnson"; "James Wilson";
    "Maria Garcia"; "David Kim"; "Lisa Anderson"; "Robert Taylor";
    "Jennifer Martinez"; "Christopher Lee"; "Amanda White"; "Daniel Brown";
    "Jessica Davis"; "Matthew Miller"; "Sophia Thompson" ]%string.

Definition ROOM_NAMES : list string :=
  [ "Main Auditorium"; "Conference Room A"; "Conference Room B";
    "Innovation Lab"; "Workshop Space"; "Tech Hub"; "Collaboration Zone";
    "Virtual Studio" ]%string.

Definition COMPANIES : list string :=
  [ "TechCorp"; "InnovateLabs"; "CloudSystems"; "DataDynamics"; "WebWorks";
    "AppForge"; "CodeCraft"; "DigitalHub"; "FutureTech"; "SmartSoft" ]%string.

(** [list[Math.floor(Math.random() * list.length)]] *)
Definition pick (l : list string) : M string :=
  let* r := random in
  ret (JS.at_ ""%string l (JS.floor_scaled r (lengthZ l))).

(** [generateTimeSlot]: the [startHour] and [startMinute] of the slot. *)
Definition generateTimeSlot (index : Z) : Z * Z :=
  (9 + Qfloor (inject_Z index * (3 # 2)), (index mod 2) * 30).

Definition status_of_index (index : Z) : status :=
  if index <? 4 then completed else if index <? 8 then active else upcoming.

Definition generateSession (id index : Z) : M Session.t :=
  let timeSlot := generateTimeSlot index in
  let* r := random in
  let capacity := 50 + JS.floor_scaled r 150 in
  let* r := random in
  let currentAttendance :=
    Qfloor (inject_Z capacity * ((1 # 2) + r * (1 # 2))) in
  let* r := random in
  let speakerIndex := JS.floor_scaled r (lengthZ SPEAKER_NAMES) in
  let* room := pick ROOM_NAMES in
  let* r := random in
  let engagement := 60 + JS.floor_scaled r 35 in
  let* r := random in
  let tags :=
    JS.slice0 (1 + JS.floor_scaled r 2)
      ["Technology"; "Innovation"; "Workshop"]%string in
  let* r := random in
  let rating := ((7 # 2) + r * (3 # 2))%Q in
  ret {| Session.id := "session-" +:+ pretty id;
         Session.title :=
           JS.at_ ""%string SESSION_TOPICS (index mod lengthZ SESSION_TOPICS);
         Session.speaker := JS.at_ ""%string SPEAKER_NAMES speakerIndex;
         Session.speakerId := "speaker-" +:+ pretty speakerIndex;
         Session.room := room;
         Session.startHour := fst timeSlot;
         Session.startMinute := snd timeSlot;
         Session.duration := 60;
         Session.capacity := capacity;
         Session.currentAttendance := currentAttendance;
         Session.attendanceRate := Session.rate_of currentAttendance capacity;
         Session.engagement := engagement;
         Session.status_ := status_of_index index;
         Session.tags := tags;
         Session.rating := rating;
         Session.feedback := [];
         Session.averageRating := None |}.

Definition generateSpeaker (id : Z) (name : string) : M Speaker.t :=
  let* r := random in
  let totalSessions := 2 + JS.floor_scaled r 3 in
  let* r := random in
  let totalAttendees := 100 + JS.floor_scaled r 400 in
  let* r := random in
  let avgEngagement := 65 + JS.floor_scaled r 30 in
  let* r := random in
  let rating := ((7 # 2) + r * (3 # 2))%Q in
  let* title :=
    pick ["Senior Developer"; "Tech Lead"; "Chief Architect";
          "VP Engineering"; "CTO"]%string in
  let* company := pick COMPANIES in
  let* r := random in
  let expertise :=
    JS.slice0 (2 + JS.floor_scaled r 2)
      ["React"; "Node.js"; "Cloud"; "DevOps"; "Architecture"]%string in
  ret {| Speaker.id := "speaker-" +:+ pretty id;
         Speaker.name := name;
         Speaker.title := title;
         Speaker.company := company;
         Speaker.sessions := totalSessions;
         Speaker.totalAttendees := totalAttendees;
         Speaker.avgEngagement := avgEngagement;
         Speaker.rating := rating;
         Speaker.expertise := expertise |}.

Definition generateAttendee (now : Z) (id : Z) : M Attendee.t :=
  let* firstName :=
    pick ["John"; "Jane"; "Mike"; "Sarah"; "David"; "Emily"; "Chris";
          "Lisa"]%string in
  let* lastName :=
    pick ["Smith"; "Johnson"; "Williams"; "Brown"; "Jones"; "Garcia";
          "Miller"; "Davis"]%string in
  let* company := pick COMPANIES in
  let* role :=
    pick ["Developer"; "Manager"; "Architect"; "Designer"; "Analyst"]%string in
  let* r := random in
  let engagementScore := 50 + JS.floor_scaled r 50 in
  let* r := random in
  ret {| Attendee.id := "attendee-" +:+ pretty id;
         Attendee.name := firstName +:+ " " +:+ lastName;
         Attendee.company := company;
         Attendee.role := role;
         Attendee.registeredSessions := [];
         Attendee.attendedSessions := [];
         Attendee.engagementScore := engagementScore;
         Attendee.joinedAt := JS.time_clip (inject_Z now - r * 7200000) |}.

(** [3 + Math.floor(Math.random() * 3)] *)
Definition sub_rating : M Z :=
  let* r := random in ret (3 + JS.floor_scaled r 3).

Definition generateFeedback (now : Z) (sessionId attendeeId attendeeName : string)
    : M Feedback.t :=
  let* content := sub_rating in
  let* presentation := sub_rating in
  let* relevance := sub_rating in
  let* overall := sub_rating in
  let* idr := random in
  let* comment :=
    pick ["Great presentation! Very informative.";
          "Excellent content and delivery.";
          "Good session, could use more examples.";
          "Very engaging speaker."; "Helpful and practical information.";
          "Well organized and clear."; "Inspiring talk!";
          "Learned a lot of new concepts."]%string in
  let* r := random in
  let helpful := JS.floor_scaled r 20 in
  let* r := random in
  ret {| Feedback.id := (now, idr);
         Feedback.sessionId := sessionId;
         Feedback.attendeeId := attendeeId;
         Feedback.attendeeName := attendeeName;
         Feedback.ratings :=
           Feedback.Ratings content presentation relevance overall;
         Feedback.comment := comment;
         Feedback.timestamp := now;
         Feedback.helpful := helpful;
         Feedback.verified := negb (Qle_bool r (1 # 5)) |}.

(** What one pass of the registration loop of an attendee updates:
    [selectedSessions], the attendee's [registeredSessions] and
    [attendedSessions], and the global [feedback] array. *)
Record reg_state : Type := RegState {
  selectedSessions : list string;
  registered : list string;
  attended : list string;
  feedback_acc : list Feedback.t }.

(** The body of [for (let j = 0; j < sessionCount; j++)]. An index
    outside [sessions] cannot be drawn from a value below 1. *)
Definition register_one (now : Z) (sessions : list Session.t)
    (attendeeId attendeeName : string) (st : reg_state) (j : nat)
    : M reg_state :=
  let* r := random in
  match sessions !! Z.to_nat (JS.floor_scaled r (lengthZ sessions)) with
  | None => ret st
  | Some session =>
      if negb (JS.includes (selectedSessions st) (Session.id session)) then
        let sel := selectedSessions st ++ [Session.id session] in
        let reg := registered st ++ [Session.id session] in
        if Session.has_status completed session then
          let* r := random in
          if negb (Qle_bool r (1 # 5)) then
            let att := attended st ++ [Session.id session] in
            let* r := random in
            if negb (Qle_bool r (3 # 5)) then
              let* f :=
                generateFeedback now (Session.id session) attendeeId
                  attendeeName in
              ret (RegState sel reg att (feedback_acc st ++ [f]))
            else ret (RegState sel reg att (feedback_acc st))
          else ret (RegState sel reg (attended st) (feedback_acc st))
        else ret (RegState sel reg (attended st) (feedback_acc st))
      else ret st
  end.

(** The body of [for (let i = 0; i < 847; i++)]. *)
Definition generate_registered_attendee (now : Z) (sessions : list Session.t)
    (acc : list Attendee.t * list Feedback.t) (i : nat)
    : M (list Attendee.t * list Feedback.t) :=
  let* attendee := generateAttendee now (Z.of_nat i + 1) in
  let* r := random in
  let sessionCount := 2 + JS.floor_scaled r 4 in
  let* st :=
    foldM
      (register_one now sessions (Attendee.id attendee) (Attendee.name attendee))
      (seq 0 (Z.to_nat sessionCount))
      (RegState [] (Attendee.registeredSessions attendee)
         (Attendee.attendedSessions attendee) (snd acc)) in
  let attendee' :=
    {| Attendee.id := Attendee.id attendee;
       Attendee.name := Attendee.name attendee;
       Attendee.company := Attendee.company attendee;
       Attendee.role := Attendee.role attendee;
       Attendee.registeredSessions := registered st;
       Attendee.attendedSessions := attended st;
       Attendee.engagementScore := Attendee.engagementScore attendee;
       Attendee.joinedAt := Attendee.joinedAt attendee |} in
  ret (fst acc ++ [attendee'], feedback_acc st).

Definition attendee_count : nat := 847.

Definition generateInitialData (now : Z) : M Dataset.t :=
  let* sessions :=
    mapM (fun i => generateSession (Z.of_nat i + 1) (Z.of_nat i)) (seq 0 15) in
  let* speakers :=
    mapM (fun p => generateSpeaker (Z.of_nat (fst p)) (snd p))
      (imap (fun i name => (i, name)) SPEAKER_NAMES) in
  let* (attendees, feedback) :=
    foldM (generate_registered_attendee now sessions) (seq 0 attendee_count)
      ([], []) in
  let sessions :=
    map (fun session =>
           Session.set_feedback
             (JS.slice0 5
                (List.filter
                   (fun f => String.eqb (Feedback.sessionId f) (Session.id session))
                   feedback))
             session)
      sessions in
  ret {| Dataset.sessions := sessions;
         Dataset.speakers := speakers;
         Dataset.attendees := attendees;
         Dataset.feedback := feedback;
         Dataset.metrics :=
           {| Metrics.totalSessions := lengthZ sessions;
              Metrics.activeSessions :=
                lengthZ (List.filter (Session.has_status active) sessions);
              Metrics.totalAttendees := lengthZ attendees;
              Metrics.avgEngagement :=
                JS.round
                  (JS.div (JS.of_Z (sumZ Session.engagement sessions))
                     (JS.of_Z (lengthZ sessions)));
              Metrics.totalFeedback := lengthZ feedback;
              Metrics.avgRating := avgRating_of feedback |} |}.

(** [getTopSessions], exported next to the generator. *)
Definition getTopSessions (sessions : list Session.t) (limit : Z)
    : list Session.t :=
  JS.slice0 limit
    (JS.sort_by
       (fun a b =>
          inject_Z (Session.currentAttendance b - Session.currentAttendance a))
       sessions).

End Generator.

Definition Qltb (a b : Q) : bool := negb (Qle_bool b a).

(** ** src/services/realtimeSimulator.js *)
Module Simulator.
Import Rand.

(** A subscriber callback, identified as [Set] identifies it: by the
    identity of the function. *)
Definition callback : Type := nat.

(** The object [this.data] refers to, or a snapshot passed to a
    subscriber. [oid] is the identity of the object itself; [body] is the
    identity of the arrays and metrics object it points to, which a
    shallow copy shares with its source. [updateCount] is [None] when the
    object has no such property. *)
Module DataObj.
Record t : Type := Make {
  oid : nat;
  body : nat;
  lastUpdated : Z;
  updateCount : option Z }.
End DataObj.

(** What the clock returns during one operation: [getHours()],
    [getMinutes()], and the instant of [Date.now()] / [toISOString()]. *)
Record clock : Type := Clock { hour : Z; minute : Z; now : Z }.

(** The simulator instance. [content] holds the arrays and the metrics
    object that [data] points to; [next_ref] is the next unused object
    identity; [calls] records every invocation of a callback with the
    object it received, oldest first; [console] records the messages
    written to the console. *)
Record t : Type := Make {
  data : DataObj.t;
  content : Dataset.t;
  next_ref : nat;
  subscribers : list callback;
  updateInterval : option Z;
  isRunning : bool;
  updateCount : Z;
  calls : list (callback * DataObj.t);
  console : list string }.

Definition set_content (c : Dataset.t) (s : t) : t :=
  Make (data s) c (next_ref s) (subscribers s) (updateInterval s)
    (isRunning s) (updateCount s) (calls s) (console s).

Definition set_subscribers (l : list callback) (s : t) : t :=
  Make (data s) (content s) (next_ref s) l (updateInterval s)
    (isRunning s) (updateCount s) (calls s) (console s).

(** *** The five mutation passes, on the arrays [this.data] points to *)

Definition with_sessions (l : list Session.t) (d : Dataset.t) : Dataset.t :=
  Dataset.Make l (Dataset.speakers d) (Dataset.attendees d)
    (Dataset.feedback d) (Dataset.metrics d).

Definition with_metrics (m : Metrics.t) (d : Dataset.t) : Dataset.t :=
  Dataset.Make (Dataset.sessions d) (Dataset.speakers d) (Dataset.attendees d)
    (Dataset.feedback d) m.

Definition attendance_step (session : Session.t) : M Session.t :=
  let* changeType := random in
  let cap := Session.capacity session in
  let cur := Session.currentAttendance session in
  let* cur' :=
    if Qltb changeType (3 # 5) then
      let maxIncrease := Z.min 5 (cap - cur) in
      let* r := random in
      let change := JS.floor_scaled r maxIncrease in
      ret (Z.min cap (cur + change))
    else if Qltb changeType (4 # 5) then
      let maxDecrease := Z.min 3 cur in
      let* r := random in
      let change := JS.floor_scaled r maxDecrease in
      ret (Z.max 0 (cur - change))
    else ret cur in
  ret (Session.set_attendanceRate (Session.rate_of cur' cap)
         (Session.set_currentAttendance cur' session)).

(** [activeSessions.forEach(...)]: the active sessions are visited in
    array order and mutated in place. *)
Definition simulateAttendanceChange (d : Dataset.t) : M Dataset.t :=
  let* l :=
    mapM (fun session =>
            if Session.has_status active session
            then attendance_step session else ret session)
      (Dataset.sessions d) in
  ret (with_sessions l d).

Definition engagement_step (session : Session.t) : M Session.t :=
  if Session.has_status active session then
    let* r := random in
    let fluctuation := ((r - (1 # 2)) * 10)%Q in
    let e :=
      Qmax 0 (Qmin 100 (inject_Z (Session.engagement session) + fluctuation)) in
    ret (Session.set_engagement (JS.Qround e) session)
  else ret session.

(** [Math.round(sum / count || 1)]: the division binds tighter than [||]. *)
Definition avgEngagement_of (l : list Session.t) : JS.num :=
  let act := List.filter (Session.has_status active) l in
  JS.round
    (JS.or
       (JS.div (JS.of_Z (sumZ Session.engagement act)) (JS.of_Z (lengthZ act)))
       (JS.of_Z 1)).

Definition simulateEngagementFluctuation (d : Dataset.t) : M Dataset.t :=
  let* l := mapM engagement_step (Dataset.sessions d) in
  let m := Dataset.metrics d in
  ret (with_metrics
         {| Metrics.totalSessions := Metrics.totalSessions m;
            Metrics.activeSessions := Metrics.activeSessions m;
            Metrics.totalAttendees := Metrics.totalAttendees m;
            Metrics.avgEngagement := avgEngagement_of l;
            Metrics.totalFeedback := Metrics.totalFeedback m;
            Metrics.avgRating := Metrics.avgRating m |}
         (with_sessions l d)).

(** Mutation of the [k]-th element of [l] that satisfies [p]: the object
    [l.filter(p)[k]] is an element of [l] itself. *)
Fixpoint update_kth {A} (p : A -> bool) (k : nat) (f : A -> A) (l : list A)
    : list A :=
  match l with
  | [] => []
  | x :: rest =>
      if p x then
        match k with
        | O => f x :: rest
        | S k' => x :: update_kth p k' f rest
        end
      else x :: update_kth p k f rest
  end.

Definition simulateNewFeedback (now : Z) (d : Dataset.t) : M Dataset.t :=
  let* r := random in
  if Qltb r (3 # 10) then
    let completedSessions :=
      List.filter (Session.has_status completed) (Dataset.sessions d) in
    if 0 <? lengthZ completedSessions then
      let* r := random in
      let k := Z.to_nat (JS.floor_scaled r (lengthZ completedSessions)) in
      match completedSessions !! k with
      | None => ret d
      | Some session =>
          let* r := random in
          let attendeeIndex := JS.floor_scaled r 100 in
          let* idr := random in
          let* content := Generator.sub_rating in
          let* presentation := Generator.sub_rating in
          let* relevance := Generator.sub_rating in
          let* overall := Generator.sub_rating in
          let* comment :=
            Generator.pick
              ["Excellent presentation!"; "Very informative session.";
               "Great insights shared."; "Well structured content.";
               "Engaging speaker!"]%string in
          let* r := random in
          let feedback :=
            {| Feedback.id := (now, idr);
               Feedback.sessionId := Session.id session;
               Feedback.attendeeId := "attendee-" +:+ pretty attendeeIndex;
               Feedback.attendeeName := "User " +:+ pretty attendeeIndex;
               Feedback.ratings :=
                 Feedback.Ratings content presentation relevance overall;
               Feedback.comment := comment;
               Feedback.timestamp := now;
               Feedback.helpful := JS.floor_scaled r 10;
               Feedback.verified := true |} in
          let all := Dataset.feedback d ++ [feedback] in
          let sessions :=
            update_kth (Session.has_status completed) k
              (fun s =>
                 Session.set_feedback
                   (JS.slice0 5 (feedback :: Session.feedback s)) s)
              (Dataset.sessions d) in
          let m := Dataset.metrics d in
          ret {| Dataset.sessions := sessions;
                 Dataset.speakers := Dataset.speakers d;
                 Dataset.attendees := Dataset.attendees d;
                 Dataset.feedback := all;
                 Dataset.metrics :=
                   {| Metrics.totalSessions := Metrics.totalSessions m;
                      Metrics.activeSessions := Metrics.activeSessions m;
                      Metrics.totalAttendees := Metrics.totalAttendees m;
                      Metrics.avgEngagement := Metrics.avgEngagement m;
                      Metrics.totalFeedback := lengthZ all;
                      Metrics.avgRating := avgRating_of all |} |}
      end
    else ret d
  else ret d.

Definition status_step (currentHour currentMinute : Z) (session : Session.t)
    : Session.t :=
  let sessionTime := (inject_Z currentHour + inject_Z currentMinute / 60)%Q in
  match Session.status_ session with
  | upcoming =>
      let sessionStart :=
        (inject_Z (Session.startHour session)
         + inject_Z (Session.startMinute session) / 60)%Q in
      if Qle_bool sessionStart sessionTime then
        let cur := Qfloor (inject_Z (Session.capacity session) * (3 # 10)) in
        Session.set_attendanceRate
          (Session.rate_of cur (Session.capacity session))
          (Session.set_currentAttendance cur
             (Session.set_status active session))
      else session
  | active =>
      let sessionEnd :=
        (inject_Z (Session.startHour session) + 1
         + inject_Z (Session.startMinute session) / 60)%Q in
      if Qle_bool sessionEnd sessionTime
      then Session.set_status completed session
      else session
  | completed => session
  end.

Definition simulateSessionStatusChange (c : clock) (d : Dataset.t) : Dataset.t :=
  let l := map (status_step (hour c) (minute c)) (Dataset.sessions d) in
  let m := Dataset.metrics d in
  with_metrics
    {| Metrics.totalSessions := Metrics.totalSessions m;
       Metrics.activeSessions :=
         lengthZ (List.filter (Session.has_status active) l);
       Metrics.totalAttendees := Metrics.totalAttendees m;
       Metrics.avgEngagement := Metrics.avgEngagement m;
       Metrics.totalFeedback := Metrics.totalFeedback m;
       Metrics.avgRating := Metrics.avgRating m |}
    (with_sessions l d).

Definition simulateNewAttendee (now : Z) (d : Dataset.t) : M Dataset.t :=
  let* r := random in
  if Qltb r (1 # 10) then
    let n := lengthZ (Dataset.attendees d) + 1 in
    let* r := random in
    let engagementScore := 50 + JS.floor_scaled r 50 in
    let upcomingSessions :=
      List.filter (Session.has_status upcoming) (Dataset.sessions d) in
    let* registeredSessions :=
      if 0 <? lengthZ upcomingSessions then
        let* r := random in
        match upcomingSessions
              !! Z.to_nat (JS.floor_scaled r (lengthZ upcomingSessions)) with
        | Some session => ret [Session.id session]
        | None => ret []
        end
      else ret [] in
    let newAttendee :=
      {| Attendee.id := "attendee-" +:+ pretty n;
         Attendee.name := "New User " +:+ pretty n;
         Attendee.company := "TechCorp";
         Attendee.role := "Developer";
         Attendee.registeredSessions := registeredSessions;
         Attendee.attendedSessions := [];
         Attendee.engagementScore := engagementScore;
         Attendee.joinedAt := now |} in
    let all := Dataset.attendees d ++ [newAttendee] in
    let m := Dataset.metrics d in
    ret {| Dataset.sessions := Dataset.sessions d;
           Dataset.speakers := Dataset.speakers d;
           Dataset.attendees := all;
           Dataset.feedback := Dataset.feedback d;
           Dataset.metrics :=
             {| Metrics.totalSessions := Metrics.totalSessions m;
                Metrics.activeSessions := Metrics.activeSessions m;
                Metrics.totalAttendees := lengthZ all;
                Metrics.avgEngagement := Metrics.avgEngagement m;
                Metrics.totalFeedback := Metrics.totalFeedback m;
                Metrics.avgRating := Metrics.avgRating m |} |}
  else ret d.

(** The passes of one tick, in the order [performUpdate] runs them. *)
Definition mutate (c : clock) (d : Dataset.t) : M Dataset.t :=
  let* d := simulateAttendanceChange d in
  let* d := simulateEngagementFluctuation d in
  let* d := simulateNewFeedback (now c) d in
  let d := simulateSessionStatusChange c d in
  simulateNewAttendee (now c) d.

(** *** Subscribers and the timer *)

(** [Set.prototype.add] and [delete], in insertion order. *)
Definition set_add (cb : callback) (l : list callback) : list callback :=
  if existsb (Nat.eqb cb) l then l else l ++ [cb].

Definition set_delete (cb : callback) (l : list callback) : list callback :=
  List.filter (fun x => negb (Nat.eqb cb x)) l.

(** How a call of a function ended. *)
Inductive completion (A : Type) : Type :=
| Returned (a : A)
| Thrown.
Arguments Returned {A} _.
Arguments Thrown {A}.

Section Callbacks.

(** Whether a given callback throws when called with a given object.
    A callback does not call back into the simulator. *)
Variable raises : callback -> DataObj.t -> bool.

(** [callback(x)]: the call is recorded, then it returns or throws. *)
Definition invoke (cb : callback) (x : DataObj.t) (s : t) : t * completion unit :=
  let s' :=
    Make (data s) (content s) (next_ref s) (subscribers s)
      (updateInterval s) (isRunning s) (updateCount s)
      (calls s ++ [(cb, x)]) (console s) in
  (s', if raises cb x then Thrown else Returned tt).

(** The closure [() => { this.subscribers.delete(callback); }]. *)
Definition unsubscribe (cb : callback) (s : t) : t :=
  set_subscribers (set_delete cb (subscribers s)) s.

(** [subscribe(callback)]: an exception of the callback leaves
    [subscribe] before the closure is returned. *)
Definition subscribe (cb : callback) (s : t) : t * completion (t -> t) :=
  let s1 := set_subscribers (set_add cb (subscribers s)) s in
  match invoke cb (data s1) s1 with
  | (s2, Returned _) => (s2, Returned (unsubscribe cb))
  | (s2, Thrown) => (s2, Thrown)
  end.

(** The body of [this.subscribers.forEach]: [try { callback(x) }
    catch (error) { console.error(...) }]. *)
Definition notify_one (x : DataObj.t) (s : t) (cb : callback) : t :=
  match invoke cb x s with
  | (s', Returned _) => s'
  | (s', Thrown) =>
      Make (data s') (content s') (next_ref s') (subscribers s')
        (updateInterval s') (isRunning s') (updateCount s') (calls s')
        (console s' ++ ["Error notifying subscriber:"%string])
  end.

(** [{ ...this.data, lastUpdated: ..., updateCount: this.updateCount }]:
    a new object that points to the same arrays. *)
Definition dataWithTimestamp (timestamp : Z) (s : t) : DataObj.t :=
  {| DataObj.oid := next_ref s;
     DataObj.body := DataObj.body (data s);
     DataObj.lastUpdated := timestamp;
     DataObj.updateCount := Some (updateCount s) |}.

Definition notifySubscribers (timestamp : Z) (s : t) : t :=
  let dataWithTimestamp := dataWithTimestamp timestamp s in
  let s1 :=
    Make (data s) (content s) (S (next_ref s)) (subscribers s)
      (updateInterval s) (isRunning s) (updateCount s) (calls s)
      (console s) in
  fold_left (notify_one dataWithTimestamp) (subscribers s1) s1.

Definition performUpdate (c : clock) (s : t) : M t :=
  let s1 :=
    Make (data s) (content s) (next_ref s) (subscribers s)
      (updateInterval s) (isRunning s) (updateCount s + 1) (calls s)
      (console s) in
  let* d := mutate c (content s1) in
  ret (notifySubscribers (now c) (set_content d s1)).

Definition start (intervalMs : Z) (s : t) : t :=
  if isRunning s then
    Make (data s) (content s) (next_ref s) (subscribers s)
      (updateInterval s) (isRunning s) (updateCount s) (calls s)
      (console s ++ ["Realtime simulator is already running"%string])
  else
    Make (data s) (content s) (next_ref s) (subscribers s)
      (Some intervalMs) true (updateCount s) (calls s)
      (console s
       ++ ["Realtime simulator started with " +:+ pretty intervalMs
           +:+ "ms interval"]).

Definition stop (s : t) : t :=
  if negb (isRunning s) then
    Make (data s) (content s) (next_ref s) (subscribers s)
      (updateInterval s) (isRunning s) (updateCount s) (calls s)
      (console s ++ ["Realtime simulator is not running"%string])
  else
    Make (data s) (content s) (next_ref s) (subscribers s)
      None false (updateCount s) (calls s)
      (console s ++ ["Realtime simulator stopped"%string]).

(** [generateInitialData()] returns a new object with new arrays. *)
Definition fresh_data (timestamp : Z) (s : t) : M t :=
  let* d := Generator.generateInitialData timestamp in
  ret (Make
         {| DataObj.oid := next_ref s;
            DataObj.body := S (next_ref s);
            DataObj.lastUpdated := timestamp;
            DataObj.updateCount := None |}
         d (S (S (next_ref s))) (subscribers s) (updateInterval s)
         (isRunning s) (updateCount s) (calls s) (console s)).

Definition reset (c : clock) (s : t) : M t :=
  let s1 := stop s in
  let* s2 := fresh_data (now c) s1 in
  let s3 :=
    Make (data s2) (content s2) (next_ref s2) (subscribers s2)
      (updateInterval s2) (isRunning s2) 0 (calls s2) (console s2) in
  ret (notifySubscribers (now c) s3).

(** [new RealtimeSimulator()] *)
Definition constructor (timestamp : Z) : M t :=
  let* d := Generator.generateInitialData timestamp in
  ret (Make
         {| DataObj.oid := 0;
            DataObj.body := 1;
            DataObj.lastUpdated := timestamp;
            DataObj.updateCount := None |}
         d 2 [] None false 0 [] []).

(** [getData()]: [{ ...this.data }], a new object. *)
Definition getData (s : t) : t * DataObj.t :=
  (Make (data s) (content s) (S (next_ref s)) (subscribers s)
     (updateInterval s) (isRunning s) (updateCount s) (calls s)
     (console s),
   {| DataObj.oid := next_ref s;
      DataObj.body := DataObj.body (data s);
      DataObj.lastUpdated := DataObj.lastUpdated (data s);
      DataObj.updateCount := DataObj.updateCount (data s) |}).

(** What can happen to the instance: the calls of its public methods
    and the firing of the interval timer. *)
Inductive op : Type :=
| Subscribe (cb : callback)
| Unsubscribe (cb : callback)
| Start (intervalMs : Z)
| Stop
| Reset (c : clock)
| Tick (c : clock).

(** The timer fires only between [start] and [stop]. *)
Definition step (o : op) (s : t) : M t :=
  match o with
  | Subscribe cb => ret (fst (subscribe cb s))
  | Unsubscribe cb => ret (unsubscribe cb s)
  | Start ms => ret (start ms s)
  | Stop => ret (stop s)
  | Reset c => reset c s
  | Tick c =>
      match updateInterval s with
      | Some _ => performUpdate c s
      | None => ret s
      end
  end.

Definition run_ops (ops : list op) (s : t) : M t :=
  foldM (fun s o => step o s) ops s.

End Callbacks.

End Simulator.

(** ** src/services/sessionAnalytics.js *)
Module SessionAnalytics.

(** The array a caller passes: references to session objects. *)
Definition sessions_t : Type := list (JS.obj Session.t).

(** [{ ...session, rank, percentile }] *)
Record ranked : Type := Ranked {
  base : Session.t;
  rank : Z;
  percentile : JS.num }.

Inductive severity_t : Type := high | medium | low.
Inductive problem_type : Type := low_attendance | low_engagement | low_rating.

Record problem : Type := Problem {
  type : problem_type;
  severity : severity_t;
  message : string }.

Record issue : Type := Issue {
  session : JS.obj Session.t;
  problems : list problem;
  overallSeverity : severity_t;
  recommendedActions : list string }.

(** The values the methods below put in the cache. *)
Inductive cval : Type :=
| TopSessions (l : list ranked)
| NeedingAttention (l : list issue).

Record entry : Type := Entry { value : cval; timestamp : Z }.

Record t : Type := Make {
  cache : gmap string entry;
  cacheTimeout : Z }.

Definition constructor : t := Make ∅ 5000.

Definition clearCache (key : option string) (self : t) : t :=
  match key with
  | Some k => if String.eqb k "" then Make ∅ (cacheTimeout self)
              else Make (delete k (cache self)) (cacheTimeout self)
  | None => Make ∅ (cacheTimeout self)
  end.

(** [t_check] and [t_set] are the two readings of [Date.now()]. *)
Definition getCachedOrCompute {D : Type} (key : string) (computeFn : D -> cval)
    (data : D) (t_check t_set : Z) (self : t) : cval * t :=
  let miss :=
    let value := computeFn data in
    (value, Make (<[key := Entry value t_set]> (cache self)) (cacheTimeout self)) in
  match cache self !! key with
  | Some cached =>
      if t_check - timestamp cached <? cacheTimeout self
      then (value cached, self)
      else miss
  | None => miss
  end.

Definition severity_eqb (a b : severity_t) : bool :=
  match a, b with
  | high, high | medium, medium | low, low => true
  | _, _ => false
  end.

Definition type_eqb (a b : problem_type) : bool :=
  match a, b with
  | low_attendance, low_attendance | low_engagement, low_engagement
  | low_rating, low_rating => true
  | _, _ => false
  end.

(** [(x.averageRating || 0)] *)
Definition averageRating_or0 (s : Session.t) : Q :=
  match Session.averageRating s with
  | Some q => if JS.Qis0 q then 0%Q else q
  | None => 0%Q
  end.

(** The comparator of [getTopSessions] for [metric]. *)
Definition compare_by (metric : string) (a b : JS.obj Session.t) : Q :=
  let a := JS.val a in
  let b := JS.val b in
  if String.eqb metric "engagement" then
    inject_Z (JS.or0 (Session.engagement b) - JS.or0 (Session.engagement a))
  else if String.eqb metric "capacity" then
    inject_Z (JS.or0 (Session.capacity b) - JS.or0 (Session.capacity a))
  else if String.eqb metric "rating" then
    (averageRating_or0 b - averageRating_or0 a)%Q
  else
    inject_Z (JS.or0 (Session.currentAttendance b)
              - JS.or0 (Session.currentAttendance a)).

Definition topSessions (metric : string) (limit : Z) (data : sessions_t)
    : list ranked :=
  if (length data =? 0)%nat then []
  else
    let sorted := JS.sort_by (compare_by metric) data in
    map (fun session =>
           {| base := JS.val session;
              rank := JS.indexOf sorted session + 1;
              percentile :=
                JS.round
                  (JS.mul
                     (JS.div
                        (JS.of_Z (lengthZ data - JS.indexOf sorted session))
                        (JS.of_Z (lengthZ data)))
                     (JS.of_Z 100)) |})
      (JS.slice0 limit sorted).

(** [`topSessions_${metric}_${limit}`] *)
Definition topSessions_key (metric : string) (limit : Z) : string :=
  "topSessions_" +:+ metric +:+ "_" +:+ pretty limit.

Definition getTopSessions (sessions : sessions_t) (metric : string) (limit : Z)
    (t_check t_set : Z) (self : t) : cval * t :=
  let cacheKey := topSessions_key metric limit in
  getCachedOrCompute cacheKey
    (fun data => TopSessions (topSessions metric limit data))
    sessions t_check t_set self.

Definition getRecommendedActions (problems : list problem) : list string :=
  (if JS.some (fun p => type_eqb (type p) low_attendance) problems then
     ["Send reminder notifications to registered attendees";
      "Consider room change or schedule adjustment"]%string
   else [])
  ++ (if JS.some (fun p => type_eqb (type p) low_engagement) problems then
        ["Encourage speaker to increase interactivity";
         "Review session format and content"]%string
      else [])
  ++ (if JS.some (fun p => type_eqb (type p) low_rating) problems then
        ["Collect detailed feedback from attendees";
         "Schedule follow-up with speaker"]%string
      else []).

Definition problems_of (s : Session.t) : list problem :=
  (if JS.lt (Session.attendanceRate s) (JS.of_Z 30) then
     [Problem low_attendance high "Very low attendance"]
   else if JS.lt (Session.attendanceRate s) (JS.of_Z 50) then
     [Problem low_attendance medium "Below average attendance"]
   else [])
  ++ (if Session.engagement s <? 40 then
        [Problem low_engagement high "Poor engagement level"]
      else if Session.engagement s <? 60 then
        [Problem low_engagement medium "Moderate engagement"]
      else [])
  ++ (match Session.averageRating s with
      | Some r =>
          if negb (JS.Qis0 r) && Qltb r 3 then
            [Problem low_rating high "Low audience rating"]
          else []
      | None => []
      end).

Definition severityOrder (s : severity_t) : Z :=
  match s with high => 0 | medium => 1 | low => 2 end.

(** The issues pushed by [data.forEach], before the final sort. *)
Definition collect_issues (data : sessions_t) : list issue :=
  flat_map
    (fun session =>
       let problems := problems_of (JS.val session) in
       if (0 <? length problems)%nat then
         [{| session := session;
             problems := problems;
             overallSeverity :=
               if JS.some (fun p => severity_eqb (severity p) high) problems
               then high else medium;
             recommendedActions := getRecommendedActions problems |}]
       else [])
    data.

Definition sessionsNeedingAttention (data : sessions_t) : list issue :=
  JS.sort_by
    (fun a b =>
       inject_Z (severityOrder (overallSeverity a)
                 - severityOrder (overallSeverity b)))
    (collect_issues data).

Definition getSessionsNeedingAttention (sessions : sessions_t)
    (t_check t_set : Z) (self : t) : cval * t :=
  getCachedOrCompute "sessionsNeedingAttention"
    (fun data => NeedingAttention (sessionsNeedingAttention data))
    sessions t_check t_set self.

(** The accumulator of the [reduce] in [calculateSessionStats], and the
    object it is turned into. *)
Record stats_acc : Type := StatsAcc {
  acc_total : Z;
  acc_active : Z;
  acc_upcoming : Z;
  acc_completed : Z;
  acc_totalCapacity : Z;
  acc_totalAttendees : Z;
  acc_totalEngagement : Z }.

Record stats : Type := Stats {
  total : Z;
  active_ : Z;
  upcoming_ : Z;
  completed_ : Z;
  averageAttendance : Z;
  averageEngagement : Z;
  totalCapacity : Z;
  totalAttendees : Z }.

Definition stats_step (acc : stats_acc) (session : Session.t) : stats_acc :=
  let bump (st : status) (n : Z) :=
    if Session.has_status st session then n + 1 else n in
  {| acc_total := acc_total acc + 1;
     acc_active := bump active (acc_active acc);
     acc_upcoming := bump upcoming (acc_upcoming acc);
     acc_completed := bump completed (acc_completed acc);
     acc_totalCapacity :=
       acc_totalCapacity acc + JS.or0 (Session.capacity session);
     acc_totalAttendees :=
       acc_totalAttendees acc + JS.or0 (Session.currentAttendance session);
     acc_totalEngagement :=
       acc_totalEngagement acc + JS.or0 (Session.engagement session) |}.

(** The function [calculateSessionStats] computes under the key
    ['sessionStats']. Both averages are guarded by [stats.total > 0]. *)
Definition sessionStats (data : list Session.t) : stats :=
  if (length data =? 0)%nat then Stats 0 0 0 0 0 0 0 0
  else
    let acc := fold_left stats_step data (StatsAcc 0 0 0 0 0 0 0) in
    {| total := acc_total acc;
       active_ := acc_active acc;
       upcoming_ := acc_upcoming acc;
       completed_ := acc_completed acc;
       averageAttendance :=
         if 0 <? acc_total acc
         then JS.Qround (inject_Z (acc_totalAttendees acc)
                         / inject_Z (acc_total acc))
         else 0;
       averageEngagement :=
         if 0 <? acc_total acc
         then JS.Qround (inject_Z (acc_totalEngagement acc)
                         / inject_Z (acc_total acc))
         else 0;
       totalCapacity := acc_totalCapacity acc;
       totalAttendees := acc_totalAttendees acc |}.

End SessionAnalytics.

(** ** src/utils/dataTransformers.js *)
Module DataTransformers.

Record aggregate : Type := Aggregate {
  totalSessions : Z;
  activeSessions : Z;
  completedSessions : Z;
  upcomingSessions : Z;
  totalAttendees : Z;
  totalCapacity : Z;
  totalAttendance : Z;
  overallAttendanceRate : JS.num;
  avgEngagement : JS.num;
  totalFeedback : Z;
  avgRating : JS.num;
  satisfactionRate : JS.num }.

Definition overall_of (f : Feedback.t) : Z := Feedback.overall (Feedback.ratings f).

Definition aggregateMetrics (sessions : list Session.t)
    (attendees : list Attendee.t) (feedback : list Feedback.t) : aggregate :=
  let activeSessions := List.filter (Session.has_status active) sessions in
  let completedSessions := List.filter (Session.has_status completed) sessions in
  let totalCapacity := sumZ Session.capacity sessions in
  let totalAttendance := sumZ Session.currentAttendance sessions in
  let avgEngagement :=
    if 0 <? lengthZ activeSessions then
      JS.round
        (JS.div (JS.of_Z (sumZ Session.engagement activeSessions))
           (JS.of_Z (lengthZ activeSessions)))
    else JS.of_Z 0 in
  let avgRating :=
    if 0 <? lengthZ feedback then avgRating_of feedback else JS.of_Z 0 in
  {| totalSessions := lengthZ sessions;
     activeSessions := lengthZ activeSessions;
     completedSessions := lengthZ completedSessions;
     upcomingSessions :=
       lengthZ (List.filter (Session.has_status upcoming) sessions);
     totalAttendees := lengthZ attendees;
     totalCapacity := totalCapacity;
     totalAttendance := totalAttendance;
     overallAttendanceRate :=
       JS.round
         (JS.mul (JS.div (JS.of_Z totalAttendance) (JS.of_Z totalCapacity))
            (JS.of_Z 100));
     avgEngagement := avgEngagement;
     totalFeedback := lengthZ feedback;
     avgRating := avgRating;
     satisfactionRate :=
       JS.or
         (JS.round
            (JS.mul
               (JS.div
                  (JS.of_Z
                     (lengthZ (List.filter (fun f => 4 <=? overall_of f) feedback)))
                  (JS.of_Z (lengthZ feedback)))
               (JS.of_Z 100)))
         (JS.of_Z 0) |}.

(** [calculatePerformanceScore(engagement, rating, attendance)] on finite
    numbers. *)
Definition calculatePerformanceScore (engagement rating attendance : Q) : Z :=
  let normalizedEngagement := (engagement / 100)%Q in
  let normalizedRating := (rating / 5)%Q in
  let normalizedAttendance := Qmin (attendance / 500) 1 in
  JS.Qround
    ((normalizedEngagement * (2 # 5) + normalizedRating * (2 # 5)
      + normalizedAttendance * (1 # 5)) * 100)%Q.

Record timeSlots : Type := TimeSlots {
  morning : list Session.t;
  afternoon : list Session.t;
  evening : list Session.t }.

Definition getSessionsByTimeSlot (sessions : list Session.t) : timeSlots :=
  fold_left
    (fun slots session =>
       if Session.startHour session <? 12 then
         TimeSlots (morning slots ++ [session]) (afternoon slots) (evening slots)
       else if Session.startHour session <? 17 then
         TimeSlots (morning slots) (afternoon slots ++ [session]) (evening slots)
       else
         TimeSlots (morning slots) (afternoon slots) (evening slots ++ [session]))
    sessions (TimeSlots [] [] []).

End DataTransformers.

(** ** src/services/analyticsService.js *)
Module AnalyticsService.

Record entry : Type := Entry {
  data : DataTransformers.aggregate;
  timestamp : Z }.

Record t : Type := Make {
  cache : gmap string entry;
  cacheTimeout : Z }.

Definition constructor : t := Make ∅ 10000.

(** [JSON.stringify] of an array of integers. *)
Fixpoint join_commas (l : list string) : string :=
  match l with
  | [] => ""
  | [x] => x
  | x :: rest => x +:+ "," +:+ join_commas rest
  end.

Definition JSON_stringify (args : list Z) : string :=
  "[" +:+ join_commas (map pretty args) +:+ "]".

Definition getCacheKey (method : string) (args : list Z) : string :=
  method +:+ "-" +:+ JSON_stringify args.

Definition getFromCache (key : string) (t_now : Z) (self : t)
    : option DataTransformers.aggregate * t :=
  match cache self !! key with
  | Some cached =>
      if t_now - timestamp cached <? cacheTimeout self
      then (Some (data cached), self)
      else (None, Make (delete key (cache self)) (cacheTimeout self))
  | None => (None, Make (delete key (cache self)) (cacheTimeout self))
  end.

Definition setCache (key : string) (d : DataTransformers.aggregate) (t_now : Z)
    (self : t) : t :=
  Make (<[key := Entry d t_now]> (cache self)) (cacheTimeout self).

Definition clearCache (self : t) : t := Make ∅ (cacheTimeout self).

(** [this.getCacheKey('overallMetrics', sessions.length, attendees.length,
    feedback.length)] *)
Definition overallMetrics_key (sessions : list Session.t)
    (attendees : list Attendee.t) (feedback : list Feedback.t) : string :=
  getCacheKey "overallMetrics"
    [lengthZ sessions; lengthZ attendees; lengthZ feedback].

Definition getOverallMetrics (sessions : list Session.t)
    (attendees : list Attendee.t) (feedback : list Feedback.t)
    (t_check t_set : Z) (self : t) : DataTransformers.aggregate * t :=
  let key := overallMetrics_key sessions attendees feedback in
  match getFromCache key t_check self with
  | (Some cached, self') => (cached, self')
  | (None, self') =>
      let metrics := DataTransformers.aggregateMetrics sessions attendees feedback in
      (metrics, setCache key metrics t_set self')
  end.

Record roi : Type := Roi {
  score : JS.num;
  totalAttendance : Z;
  avgSatisfaction : JS.num;
  engagementScore : JS.num }.

Definition calculateROI (sessions : list Session.t) (feedback : list Feedback.t)
    : roi :=
  let totalAttendance := sumZ Session.currentAttendance sessions in
  let avgSatisfaction :=
    if 0 <? lengthZ feedback then
      JS.div (JS.of_Z (sumZ DataTransformers.overall_of feedback))
        (JS.of_Z (lengthZ feedback))
    else JS.of_Z 0 in
  let engagementScore :=
    JS.div (JS.of_Z (sumZ Session.engagement sessions))
      (JS.of_Z (lengthZ sessions)) in
  let roi_ :=
    JS.div
      (JS.mul (JS.mul (JS.of_Z totalAttendance) avgSatisfaction) engagementScore)
      (JS.of_Z 100) in
  {| score := JS.round roi_;
     totalAttendance := totalAttendance;
     avgSatisfaction :=
       JS.div (JS.round (JS.mul avgSatisfaction (JS.of_Z 10))) (JS.of_Z 10);
     engagementScore := JS.round engagementScore |}.

Record averages : Type := Averages {
  avg_content : JS.num;
  avg_presentation : JS.num;
  avg_relevance : JS.num;
  avg_overall : JS.num }.

(** [Math.round((total / feedback.length) * 10) / 10] *)
Definition round1 (total len : Z) : JS.num :=
  JS.div
    (JS.round (JS.mul (JS.div (JS.of_Z total) (JS.of_Z len)) (JS.of_Z 10)))
    (JS.of_Z 10).

Definition calculateAverageRatings (feedback : list Feedback.t) : averages :=
  if lengthZ feedback =? 0 then
    Averages (JS.of_Z 0) (JS.of_Z 0) (JS.of_Z 0) (JS.of_Z 0)
  else
    let totals :=
      fold_left
        (fun acc item =>
           {| Feedback.content :=
                Feedback.content acc + Feedback.content (Feedback.ratings item);
              Feedback.presentation :=
                Feedback.presentation acc
                + Feedback.presentation (Feedback.ratings item);
              Feedback.relevance :=
                Feedback.relevance acc
                + Feedback.relevance (Feedback.ratings item);
              Feedback.overall :=
                Feedback.overall acc + Feedback.overall (Feedback.ratings item) |})
        feedback (Feedback.Ratings 0 0 0 0) in
    {| avg_content := round1 (Feedback.content totals) (lengthZ feedback);
       avg_presentation :=
         round1 (Feedback.presentation totals) (lengthZ feedback);
       avg_relevance := round1 (Feedback.relevance totals) (lengthZ feedback);
       avg_overall := round1 (Feedback.overall totals) (lengthZ feedback) |}.

Record sentiment : Type := Sentiment {
  positive : JS.num;
  neutral : JS.num;
  negative : JS.num }.

Definition analyzeSentiment (feedback : list Feedback.t) : sentiment :=
  let positive :=
    lengthZ (List.filter (fun f => 4 <=? DataTransformers.overall_of f) feedback) in
  let neutral :=
    lengthZ (List.filter (fun f => DataTransformers.overall_of f =? 3) feedback) in
  let negative :=
    lengthZ (List.filter (fun f => DataTransformers.overall_of f <=? 2) feedback) in
  let total := if lengthZ feedback =? 0 then 1 else lengthZ feedback in
  let percent (n : Z) :=
    JS.round (JS.mul (JS.div (JS.of_Z n) (JS.of_Z total)) (JS.of_Z 100)) in
  {| positive := percent positive;
     neutral := percent neutral;
     negative := percent negative |}.

(** [s.speaker === session.speaker ||
     s.tags?.some(tag => session.tags?.includes(tag))] *)
Definition similar (session s : Session.t) : bool :=
  String.eqb (Session.speaker s) (Session.speaker session)
  || JS.some (fun tag => JS.includes (Session.tags session) tag) (Session.tags s).

Definition predictAttendance (session : Session.t)
    (historicalData : list Session.t) : JS.num :=
  let similarSessions := List.filter (similar session) historicalData in
  if lengthZ similarSessions =? 0 then
    JS.round (JS.mul (JS.of_Z (Session.capacity session)) (JS.Fin (7 # 10)))
  else
    let avgAttendanceRate :=
      JS.div
        (fold_left
           (fun sum s =>
              JS.add sum
                (JS.div (JS.of_Z (Session.currentAttendance s))
                   (JS.of_Z (Session.capacity s))))
           similarSessions (JS.of_Z 0))
        (JS.of_Z (lengthZ similarSessions)) in
    JS.round (JS.mul (JS.of_Z (Session.capacity session)) avgAttendanceRate).

End AnalyticsService.

(** ** Concrete inputs used by the examples below *)
Module Sample.

(** A session object with the given mutable fields, otherwise blank. *)
Definition session (id : string) (capacity currentAttendance : Z)
    (attendanceRate : JS.num) (engagement : Z) (st : status)
    (rating : Q) (averageRating : option Q) : Session.t :=
  {| Session.id := id; Session.title := ""; Session.speaker := "";
     Session.speakerId := ""; Session.room := ""; Session.startHour := 9;
     Session.startMinute := 0; Session.duration := 60;
     Session.capacity := capacity;
     Session.currentAttendance := currentAttendance;
     Session.attendanceRate := attendanceRate;
     Session.engagement := engagement; Session.status_ := st;
     Session.tags := []; Session.rating := rating; Session.feedback := [];
     Session.averageRating := averageRating |}.

(** [Math.random()] returning the same value at every call. *)
Definition constant (q : Q) : Rand.rng := Rand.Rng (fun _ => q) 0.

(** A dataset whose only session is over. *)
Definition finished : Dataset.t :=
  {| Dataset.sessions :=
       [session "session-1" 100 80 (JS.of_Z 80) 75 completed (4 # 1) None];
     Dataset.speakers := []; Dataset.attendees := []; Dataset.feedback := [];
     Dataset.metrics := Metrics.Make 1 0 0 (JS.of_Z 75) 0 JS.NaN |}.

(** The session of the scenario, its rating held by [rating], the
    property the generator writes. *)
Definition rated_two : Session.t :=
  session "session-9" 100 20 (JS.of_Z 20) 35 active (2 # 1) None.

(** The same session, its rating held by [averageRating], the property
    the analytics service reads. *)
Definition troubled : Session.t :=
  session "session-9" 100 20 (JS.of_Z 20) 35 active (2 # 1) (Some (2 # 1)).

Definition room_a : SessionAnalytics.sessions_t :=
  [JS.Obj 0 (session "session-1" 100 80 (JS.of_Z 80) 75 active (4 # 1) None)].

Definition room_b : SessionAnalytics.sessions_t :=
  [JS.Obj 1 (session "session-2" 100 90 (JS.of_Z 90) 75 active (4 # 1) None)].

(** A simulator instance over [finished], nobody subscribed, not running. *)
Definition idle : Simulator.t :=
  Simulator.Make (Simulator.DataObj.Make 0 1 0 None) finished 2 [] None false
    0 [] [].

Definition three_rooms : SessionAnalytics.sessions_t :=
  [JS.Obj 0 (session "session-1" 100 40 (JS.of_Z 40) 75 active (4 # 1) None);
   JS.Obj 1 (session "session-2" 100 90 (JS.of_Z 90) 75 active (4 # 1) None);
   JS.Obj 2 (session "session-3" 100 40 (JS.of_Z 40) 75 active (4 # 1) None)].

(** A timer started and fired once, at 10:30. *)
Definition one_tick : list Simulator.op :=
  [Simulator.Start 5000; Simulator.Tick (Simulator.Clock 10 30 1000)].

(** The first attendee generated when every draw returns 0. *)
Definition john : Attendee.t :=
  {| Attendee.id := "attendee-1"; Attendee.name := "John Smith";
     Attendee.company := "TechCorp"; Attendee.role := "Developer";
     Attendee.registeredSessions := ["session-1"]%string;
     Attendee.attendedSessions := []; Attendee.engagementScore := 50;
     Attendee.joinedAt := 0 |}.

(** Two feedback items as [generateFeedback] makes them. *)
Definition praise : Feedback.t :=
  {| Feedback.id := (0, 0%Q); Feedback.sessionId := "session-1";
     Feedback.attendeeId := "attendee-1"; Feedback.attendeeName := "John Smith";
     Feedback.ratings := Feedback.Ratings 5 4 4 5; Feedback.comment := "";
     Feedback.timestamp := 0; Feedback.helpful := 0; Feedback.verified := true |}.

Definition fair : Feedback.t :=
  {| Feedback.id := (0, 0%Q); Feedback.sessionId := "session-2";
     Feedback.attendeeId := "attendee-2"; Feedback.attendeeName := "Jane Brown";
     Feedback.ratings := Feedback.Ratings 3 3 4 3; Feedback.comment := "";
     Feedback.timestamp := 0; Feedback.helpful := 0; Feedback.verified := true |}.

End Sample.

(** ** Vocabulary of the statements *)

(** The actions [getRecommendedActions] templates for one problem type. *)
Definition actions_for (ty : SessionAnalytics.problem_type) : list string :=
  SessionAnalytics.getRecommendedActions [SessionAnalytics.Problem ty SessionAnalytics.high ""].

(** The issue carries at least one action of the category [ty]. *)
Definition covers (ty : SessionAnalytics.problem_type) (i : SessionAnalytics.issue) : Prop :=
  exists a, In a (SessionAnalytics.recommendedActions i) /\ In a (actions_for ty).

(** The thresholds of [getSessionsNeedingAttention] as the code applies
    them: the rating it reads is the [averageRating] property, and only a
    present, non-zero one is compared. *)
Definition needs_attention (s : Session.t) : bool :=
  JS.lt (Session.attendanceRate s) (JS.of_Z 50)
  || (Session.engagement s <? 60)
  || match Session.averageRating s with
     | Some r => negb (JS.Qis0 r) && Qltb r 3
     | None => false
     end.

(** The sort key of the final sort of [getSessionsNeedingAttention]. *)
Definition severity_key (i : SessionAnalytics.issue) : Z :=
  SessionAnalytics.severityOrder (SessionAnalytics.overallSeverity i).

(** Every computation leaves the oracle itself unchanged, so what holds of
    all its values holds after any number of draws. *)
Definition keeps_oracle {A} (c : Rand.M A) : Prop :=
  forall g, Rand.oracle (snd (c g)) = Rand.oracle g.

(** At the instant [t] the cache holds nothing usable under a key whose
    entry, if any, was stored at [ts]. *)
Definition stale_or_absent (ts : option Z) (timeout t : Z) : Prop :=
  match ts with
  | Some t0 => timeout <= t - t0
  | None => True
  end.

(** The simulator instance without its two logs. *)
Definition core (s : Simulator.t)
    : Simulator.DataObj.t * Dataset.t * list Simulator.callback * option Z
      * bool * Z :=
  (Simulator.data s, Simulator.content s, Simulator.subscribers s,
   Simulator.updateInterval s, Simulator.isRunning s, Simulator.updateCount s).

(** How many of the recorded calls went to [cb]. *)
Definition calls_to (cb : Simulator.callback)
    (l : list (Simulator.callback * Simulator.DataObj.t)) : nat :=
  length (List.filter (fun c => Nat.eqb (fst c) cb) l).

(** No callback that throws. *)
Definition quiet : Simulator.callback -> Simulator.DataObj.t -> bool :=
  fun _ _ => false.

(** The sort key of [getTopSessions] for the attendance metric: larger
    attendance first. *)
Definition attendance_key (o : JS.obj Session.t) : Z :=
  - Session.currentAttendance (JS.val o).

(** Descending by [currentAttendance]. *)
Definition descending (a b : Session.t) : Prop :=
  Session.currentAttendance b <= Session.currentAttendance a.

(** The invariant of a session's attendance. *)
Definition attendance_ok (s : Session.t) : Prop :=
  0 <= Session.currentAttendance s <= Session.capacity s.

(** The order of the session lifecycle. *)
Definition status_rank (st : status) : Z :=
  match st with upcoming => 0 | active => 1 | completed => 2 end.

(** The same session, its status unchanged or further along. *)
Definition forward (a b : Session.t) : Prop :=
  Session.id b = Session.id a
  /\ status_rank (Session.status_ a) <= status_rank (Session.status_ b).

Definition is_reset (o : Simulator.op) : bool :=
  match o with Simulator.Reset _ => true | _ => false end.

(** The registrations of an attendee, as the generator leaves them. *)
Definition registrations_ok (a : Attendee.t) : Prop :=
  (1 <= length (Attendee.registeredSessions a) <= 5)%nat
  /\ List.NoDup (Attendee.registeredSessions a).

(** ** Vocabulary of the further properties *)

(** A simulator created at [t] and taken through [ops]. *)
Definition after_ops (raises : Simulator.callback -> Simulator.DataObj.t -> bool)
    (t : Z) (ops : list Simulator.op) (g : Rand.rng) : Simulator.t :=
  fst (Rand.bind (Simulator.constructor t) (Simulator.run_ops raises ops) g).

Definition count_status (st : status) (l : list Session.t) : Z :=
  lengthZ (List.filter (Session.has_status st) l).

(** The counters of the metrics object agree with the arrays. *)
Definition counters_ok (d : Dataset.t) : Prop :=
  Metrics.totalSessions (Dataset.metrics d) = lengthZ (Dataset.sessions d)
  /\ Metrics.activeSessions (Dataset.metrics d)
     = count_status active (Dataset.sessions d)
  /\ Metrics.totalAttendees (Dataset.metrics d) = lengthZ (Dataset.attendees d)
  /\ Metrics.totalFeedback (Dataset.metrics d) = lengthZ (Dataset.feedback d).

Definition engagement_ok (s : Session.t) : Prop :=
  0 <= Session.engagement s <= 100.

Definition sub_rating_ok (z : Z) : Prop := 3 <= z <= 5.

Definition ratings_ok (f : Feedback.t) : Prop :=
  sub_rating_ok (Feedback.content (Feedback.ratings f))
  /\ sub_rating_ok (Feedback.presentation (Feedback.ratings f))
  /\ sub_rating_ok (Feedback.relevance (Feedback.ratings f))
  /\ sub_rating_ok (Feedback.overall (Feedback.ratings f)).

(** [f] is feedback on a session of [l] that is over. *)
Definition on_completed (l : list Session.t) (f : Feedback.t) : Prop :=
  exists s, In s l /\ Session.id s = Feedback.sessionId f
            /\ Session.status_ s = completed.

(** The feedback a session keeps is a bounded view of the global list. *)
Definition cache_ok (all : list Feedback.t) (s : Session.t) : Prop :=
  (length (Session.feedback s) <= 5)%nat
  /\ forall f, In f (Session.feedback s) ->
       Feedback.sessionId f = Session.id s /\ In f all.

Definition attended_ok (a : Attendee.t) : Prop :=
  incl (Attendee.attendedSessions a) (Attendee.registeredSessions a).

(** [l'] is [l] with elements added at the end. *)
Definition extends {A} (l l' : list A) : Prop := exists more, l' = l ++ more.

Definition same_status (a b : Session.t) : Prop :=
  Session.status_ b = Session.status_ a.

(** The ranges [generateSession] draws from. The upper bound of the rating
    is included: [3.5 + Math.random() * 1.5] is below 5 as a real number
    but rounds to 5 in double arithmetic for draws next to 1. *)
Definition generated_ranges (s : Session.t) : Prop :=
  50 <= Session.capacity s < 200
  /\ 60 <= Session.engagement s < 95
  /\ ((7 # 2) <= Session.rating s)%Q /\ (Session.rating s <= 5)%Q
  /\ (1 <= length (Session.tags s) <= 2)%nat
  /\ Session.duration s = 60
  /\ Session.averageRating s = None.

(** [x] is the id of a session of [l] that is over. *)
Definition completed_id (l : list Session.t) (x : string) : Prop :=
  exists s, In s l /\ Session.id s = x /\ Session.status_ s = completed.

(** Every feedback of the data set is rated 3 to 5 and is about one of
    its sessions that is over. *)
Definition feedback_sound (d : Dataset.t) : Prop :=
  Forall (fun f => ratings_ok f /\ on_completed (Dataset.sessions d) f)
    (Dataset.feedback d).

(** Every session's own feedback is a bounded view of the global list. *)
Definition caches_ok (d : Dataset.t) : Prop :=
  Forall (cache_ok (Dataset.feedback d)) (Dataset.sessions d).

(** The same session with the same feedback of its own. *)
Definition same_cache (a b : Session.t) : Prop :=
  Session.id b = Session.id a /\ Session.feedback b = Session.feedback a.

(** [isRunning] and the interval handle agree. *)
Definition timer_ok (s : Simulator.t) : Prop :=
  Simulator.isRunning s = true <-> Simulator.updateInterval s <> None.

(** Every object the simulator has made is older than the next one. *)
Definition refs_ok (s : Simulator.t) : Prop :=
  (Simulator.DataObj.oid (Simulator.data s) < Simulator.next_ref s)%nat
  /\ Forall (fun c => (Simulator.DataObj.oid (snd c) < Simulator.next_ref s)%nat)
       (Simulator.calls s).

(** What the simulator never changes in a session, with the bounds the
    generator and the passes keep. *)
Definition session_ok (s : Session.t) : Prop :=
  50 <= Session.capacity s < 200
  /\ 0 <= Session.currentAttendance s <= Session.capacity s
  /\ ((7 # 2) <= Session.rating s)%Q /\ (Session.rating s <= 5)%Q
  /\ (1 <= length (Session.tags s) <= 2)%nat
  /\ Session.duration s = 60
  /\ Session.averageRating s = None.

(** The sizes of the arrays. *)
Definition sizes_ok (d : Dataset.t) : Prop :=
  length (Dataset.sessions d) = 15%nat
  /\ length (Dataset.speakers d) = 15%nat
  /\ (847 <= length (Dataset.attendees d))%nat.

(** What a tick leaves of a session's status. *)
Definition status_moves (a b : Session.t) : Prop :=
  Session.status_ b = Session.status_ a
  \/ (Session.status_ a = upcoming /\ Session.status_ b = active
      /\ Session.currentAttendance b
         = Qfloor (inject_Z (Session.capacity a) * (3 # 10)))
  \/ (Session.status_ a = active /\ Session.status_ b = completed).

(** [aggregateMetrics] on the arrays of [d] agrees with the counters the
    simulator keeps, and its attendance rate is a percentage. *)
Definition aggregate_agrees (d : Dataset.t) : Prop :=
  let a :=
    DataTransformers.aggregateMetrics (Dataset.sessions d)
      (Dataset.attendees d) (Dataset.feedback d) in
  DataTransformers.totalSessions a = Metrics.totalSessions (Dataset.metrics d)
  /\ DataTransformers.activeSessions a
     = Metrics.activeSessions (Dataset.metrics d)
  /\ DataTransformers.totalAttendees a
     = Metrics.totalAttendees (Dataset.metrics d)
  /\ DataTransformers.totalFeedback a
     = Metrics.totalFeedback (Dataset.metrics d)
  /\ exists z, DataTransformers.overallAttendanceRate a = JS.of_Z z
               /\ 0 <= z <= 100.

(** The sizes of a fresh data set, by array, by status and in its metrics. *)
Definition generated_sizes (d : Dataset.t) : Prop :=
  length (Dataset.sessions d) = 15%nat
  /\ length (Dataset.speakers d) = 15%nat
  /\ length (Dataset.attendees d) = 847%nat
  /\ count_status completed (Dataset.sessions d) = 4
  /\ count_status active (Dataset.sessions d) = 4
  /\ count_status upcoming (Dataset.sessions d) = 7
  /\ Metrics.totalSessions (Dataset.metrics d) = 15
  /\ Metrics.activeSessions (Dataset.metrics d) = 4
  /\ Metrics.totalAttendees (Dataset.metrics d) = 847.

(** Every problem reported for [s] is one of attendance. *)
Definition only_attendance_problems (s : Session.t) : Prop :=
  Forall (fun p => SessionAnalytics.type p = SessionAnalytics.low_attendance)
    (SessionAnalytics.problems_of s).

Definition no_rating_problem (s : Session.t) : Prop :=
  Forall (fun p => SessionAnalytics.type p <> SessionAnalytics.low_rating)
    (SessionAnalytics.problems_of s).

(** The fields of a session no pass assigns, within the generator's ranges. *)
Definition session_static (s : Session.t) : Prop :=
  50 <= Session.capacity s < 200
  /\ ((7 # 2) <= Session.rating s)%Q /\ (Session.rating s <= 5)%Q
  /\ (1 <= length (Session.tags s) <= 2)%nat
  /\ Session.duration s = 60
  /\ Session.averageRating s = None.

(** The attendees' histories refer to sessions of [d] that are over. *)
Definition histories_ok (d : Dataset.t) : Prop :=
  Forall (fun a => attended_ok a
                   /\ Forall (completed_id (Dataset.sessions d))
                        (Attendee.attendedSessions a))
    (Dataset.attendees d).

(** Every feedback of [d] is rated 3 to 5 and comes from an attendee of [d]
    who attended the session. *)
Definition provenance_ok (d : Dataset.t) : Prop :=
  Forall (fun f => ratings_ok f
                   /\ exists a, In a (Dataset.attendees d)
                        /\ Attendee.id a = Feedback.attendeeId f
                        /\ In (Feedback.sessionId f)
                             (Attendee.attendedSessions a))
    (Dataset.feedback d).

(** [x] is an object distinct from [this.data] and from every object a
    subscriber was called with, which shares the arrays of [this.data]. *)
Definition snapshot_fresh (s : Simulator.t) (x : Simulator.DataObj.t) : Prop :=
  Simulator.DataObj.oid x <> Simulator.DataObj.oid (Simulator.data s)
  /\ Simulator.DataObj.body x = Simulator.DataObj.body (Simulator.data s)
  /\ Forall (fun c => Simulator.DataObj.oid (snd c) <> Simulator.DataObj.oid x)
       (Simulator.calls s).

(** What [reset] makes of [s]. *)
Definition reset_effect (s s' : Simulator.t) : Prop :=
  Simulator.isRunning s' = false
  /\ Simulator.updateInterval s' = None
  /\ Simulator.updateCount s' = 0
  /\ Simulator.subscribers s' = Simulator.subscribers s
  /\ Simulator.DataObj.oid (Simulator.data s')
     <> Simulator.DataObj.oid (Simulator.data s)
  /\ Simulator.DataObj.updateCount (Simulator.data s') = None
  /\ (exists x,
        Simulator.calls s'
        = Simulator.calls s ++ map (fun cb => (cb, x)) (Simulator.subscribers s)
        /\ Simulator.DataObj.updateCount x = Some 0
        /\ Simulator.DataObj.oid x
           <> Simulator.DataObj.oid (Simulator.data s')
        /\ Simulator.DataObj.body x
           = Simulator.DataObj.body (Simulator.data s'))
  /\ forall cb, In cb (Simulator.subscribers s) ->
       calls_to cb (Simulator.calls s') = S (calls_to cb (Simulator.calls s)).

(** A number that is an integer between [lo] and [hi]. *)
Definition integer_in (lo hi : Z) (x : JS.num) : Prop :=
  exists z, x = JS.of_Z z /\ lo <= z <= hi.

(** A finite number between [lo] and [hi]. *)
Definition finite_in (lo hi : Q) (x : JS.num) : Prop :=
  exists q, x = JS.Fin q /\ (lo <= q)%Q /\ (q <= hi)%Q.

(** A reading of [getHours()] and [getMinutes()]. *)
Definition clock_ok (c : Simulator.clock) : Prop :=
  0 <= Simulator.hour c <= 23 /\ 0 <= Simulator.minute c <= 59.

Definition op_clock_ok (o : Simulator.op) : Prop :=
  match o with
  | Simulator.Tick c => clock_ok c
  | _ => True
  end.

(** A session due to start at hour 24 or later is upcoming. *)
Definition late_ok (s : Session.t) : Prop :=
  0 <= Session.startMinute s
  /\ (24 <= Session.startHour s -> Session.status_ s = upcoming).

(** The start hours [generateTimeSlot] gives the fifteen sessions. *)
Definition generated_hours : list Z :=
  [9; 10; 12; 13; 15; 16; 18; 19; 21; 22; 24; 25; 27; 28; 30].

(** The attendee at position [i] (from 0) has the id [attendee-(i+1)]. *)
Definition numbered (l : list Attendee.t) : Prop :=
  forall i a, l !! i = Some a ->
    Attendee.id a = "attendee-" +:+ pretty (Z.of_nat i + 1).

(** * Properties *)

(** The generator and the mutation passes are unfolded only on request. *)
Arguments Generator.generateInitialData : simpl never.
Arguments Simulator.mutate : simpl never.


(** ** The oracle *)

Lemma in_range_random g :
  Rand.in_range g -> Rand.in_range (snd (Rand.random g)).
Proof. intros H n. exact (H n). Qed.

Lemma random_in_range g :
  Rand.in_range g ->
  (0 <= fst (Rand.random g))%Q /\ (fst (Rand.random g) < 1)%Q.
Proof. intros H. exact (H (Rand.drawn g)). Qed.

Lemma oracle_random g : Rand.oracle (snd (Rand.random g)) = Rand.oracle g.
Proof. reflexivity. Qed.

Lemma in_range_oracle g g' :
  Rand.oracle g' = Rand.oracle g -> Rand.in_range g -> Rand.in_range g'.
Proof. unfold Rand.in_range. intros ->. auto. Qed.

(** ** Division guards *)

Lemma engagement_step_status s g :
  Session.status_ (fst (Simulator.engagement_step s g)) = Session.status_ s.
Proof.
  unfold Simulator.engagement_step.
  destruct (Session.has_status active s); reflexivity.
Qed.

Lemma mapM_engagement_no_active l : forall g,
  List.filter (Session.has_status active) l = [] ->
  fst (Rand.mapM Simulator.engagement_step l g) = l.
Proof.
  induction l as [|s l IH]; intros g H; [reflexivity|].
  simpl in H. unfold Rand.mapM; fold (@Rand.mapM Session.t Session.t).
  unfold Rand.bind. unfold Simulator.engagement_step at 1.
  destruct (Session.has_status active s) eqn:E; [discriminate|].
  unfold Rand.ret at 1. specialize (IH g H).
  destruct (Rand.mapM Simulator.engagement_step l g) as [l' g'].
  simpl in *. now subst.
Qed.

(** With no active session the quotient is [0 / 0], which is falsy, and
    [|| 1] makes the average 1. *)
Lemma avgEngagement_no_active l :
  List.filter (Session.has_status active) l = [] ->
  Simulator.avgEngagement_of l = JS.of_Z 1.
Proof. unfold Simulator.avgEngagement_of. intros ->. reflexivity. Qed.

Lemma engagement_pass_no_active d g :
  List.filter (Session.has_status active) (Dataset.sessions d) = [] ->
  Metrics.avgEngagement
    (Dataset.metrics (fst (Simulator.simulateEngagementFluctuation d g)))
  = JS.of_Z 1.
Proof.
  intros H. unfold Simulator.simulateEngagementFluctuation, Rand.bind.
  pose proof (mapM_engagement_no_active _ g H) as E.
  destruct (Rand.mapM Simulator.engagement_step (Dataset.sessions d) g) as [l g'].
  simpl in E. subst l. simpl. now apply avgEngagement_no_active.
Qed.

Lemma mul_NaN_r a : JS.mul a JS.NaN = JS.NaN.
Proof. destruct a; reflexivity. Qed.

(** [calculateROI] divides the engagement sum by [sessions.length] unguarded. *)
Lemma calculateROI_empty feedback :
  AnalyticsService.engagementScore (AnalyticsService.calculateROI [] feedback)
    = JS.NaN
  /\ AnalyticsService.score (AnalyticsService.calculateROI [] feedback) = JS.NaN.
Proof.
  unfold AnalyticsService.calculateROI. split; [reflexivity|].
  cbn [AnalyticsService.score].
  change (JS.div (JS.of_Z (sumZ Session.engagement []))
            (JS.of_Z (lengthZ (@nil Session.t)))) with JS.NaN.
  now rewrite mul_NaN_r.
Qed.

(** C1 (as the code behaves): the three computations named by the claim are
    not guarded. After an engagement-drift pass over a dataset without active
    sessions [metrics.avgEngagement] is 1, not 0; [aggregateMetrics] on no
    sessions (total capacity 0) yields [NaN] as [overallAttendanceRate], and
    [Infinity] when a session of capacity 0 has attendees; [calculateROI] on
    an empty sessions array yields [NaN] as [engagementScore] and [score]. *)
Theorem C1_unguarded_divisions :
  Metrics.avgEngagement
    (Dataset.metrics
       (fst (Simulator.simulateEngagementFluctuation Sample.finished
               (Sample.constant 0))))
  = JS.of_Z 1
  /\ DataTransformers.overallAttendanceRate
       (DataTransformers.aggregateMetrics [] [] []) = JS.NaN
  /\ DataTransformers.overallAttendanceRate
       (DataTransformers.aggregateMetrics
          [Sample.session "session-1" 0 3 JS.NaN 70 active (4 # 1) None] [] [])
     = JS.PInf
  /\ AnalyticsService.engagementScore (AnalyticsService.calculateROI [] [])
     = JS.NaN
  /\ AnalyticsService.score (AnalyticsService.calculateROI [] []) = JS.NaN.
Proof.
  split; [apply engagement_pass_no_active; reflexivity|].
  split; [reflexivity|]. split; [reflexivity|].
  apply calculateROI_empty.
Qed.

(** ** Stable sorting by a key *)

Lemma insert_by_perm {A} (cmp : A -> A -> Q) x l :
  Permutation (JS.insert_by cmp x l) (x :: l).
Proof.
  induction l as [|y l IH]; simpl; [reflexivity|].
  destruct (Qle_bool (cmp x y) 0); [reflexivity|].
  rewrite IH. apply perm_swap.
Qed.

Lemma sort_by_perm {A} (cmp : A -> A -> Q) l :
  Permutation (JS.sort_by cmp l) l.
Proof.
  induction l as [|x l IH]; simpl; [reflexivity|].
  rewrite insert_by_perm. now constructor.
Qed.

Section KeyedSort.
Context {A : Type} (cmp : A -> A -> Q) (key : A -> Z).

(** The comparator orders by [key]. *)
Hypothesis cmp_key : forall a b, Qle_bool (cmp a b) 0 = (key a <=? key b).

Let R (a b : A) : Prop := key a <= key b.

Lemma insert_by_sorted x l :
  StronglySorted R l -> StronglySorted R (JS.insert_by cmp x l).
Proof.
  induction 1 as [|y l Hs IH Hy]; simpl.
  - repeat constructor.
  - rewrite cmp_key. destruct (Z.leb_spec (key x) (key y)) as [Hle|Hgt].
    + constructor; [now constructor|].
      constructor; [exact Hle|].
      eapply Forall_impl; [exact Hy|]. unfold R. intros; simpl in *; lia.
    + constructor; [exact IH|].
      apply (Permutation_Forall (Permutation_sym (insert_by_perm cmp x l))).
      constructor; [unfold R; lia | exact Hy].
Qed.

Lemma sort_by_sorted l : StronglySorted R (JS.sort_by cmp l).
Proof.
  induction l; simpl; [constructor | now apply insert_by_sorted].
Qed.

Lemma insert_by_stable k x l :
  List.filter (fun a => key a =? k) (JS.insert_by cmp x l)
  = List.filter (fun a => key a =? k) (x :: l).
Proof.
  induction l as [|y l IH]; [reflexivity|].
  cbn [JS.insert_by]. rewrite cmp_key.
  destruct (Z.leb_spec (key x) (key y)) as [Hle|Hgt]; [reflexivity|].
  cbn [List.filter] in *. rewrite IH.
  destruct (Z.eqb_spec (key y) k), (Z.eqb_spec (key x) k);
    try reflexivity; lia.
Qed.

(** Elements of equal key keep the order they had in the input. *)
Lemma sort_by_stable k l :
  List.filter (fun a => key a =? k) (JS.sort_by cmp l)
  = List.filter (fun a => key a =? k) l.
Proof.
  induction l as [|x l IH]; [reflexivity|].
  cbn [JS.sort_by]. rewrite insert_by_stable.
  cbn [List.filter]. now rewrite IH.
Qed.

Lemma filter_key_all k l :
  Forall (fun a => key a = k) l ->
  List.filter (fun a => key a =? k) l = l.
Proof.
  induction 1 as [|x l Hx _ IH]; [reflexivity|].
  cbn [List.filter]. rewrite IH. now rewrite (proj2 (Z.eqb_eq _ _) Hx).
Qed.

Lemma filter_key_none k l :
  Forall (fun a => key a <> k) l ->
  List.filter (fun a => key a =? k) l = [].
Proof.
  induction 1 as [|x l Hx _ IH]; [reflexivity|].
  cbn [List.filter]. rewrite IH. now rewrite (proj2 (Z.eqb_neq _ _) Hx).
Qed.

(** A sorted list over two keys is the block of the smaller key followed
    by the block of the larger one. *)
Lemma sorted_two_keys l :
  StronglySorted R l ->
  Forall (fun a => key a = 0 \/ key a = 1) l ->
  l = List.filter (fun a => key a =? 0) l
      ++ List.filter (fun a => key a =? 1) l.
Proof.
  induction 1 as [|x l Hs IH Hx]; intros Hk; [reflexivity|].
  inversion Hk as [|? ? Hx01 Hl]; subst.
  cbn [List.filter]. destruct Hx01 as [E|E]; rewrite E; simpl.
  - f_equal. now apply IH.
  - assert (Hall : Forall (fun a => key a = 1) l).
    { rewrite List.Forall_forall in *. intros a Ha.
      specialize (Hx a Ha). specialize (Hl a Ha). unfold R in Hx. lia. }
    rewrite (filter_key_all 1 l Hall).
    rewrite filter_key_none; [reflexivity|].
    eapply Forall_impl; [exact Hall|]. simpl. intros; lia.
Qed.

End KeyedSort.

(** ** Sessions needing attention *)

Lemma Qle_bool_diff a b : Qle_bool (inject_Z (a - b)) 0 = (a <=? b).
Proof.
  unfold Qle_bool; simpl. rewrite Z.mul_1_r.
  destruct (Z.leb_spec (a - b) 0), (Z.leb_spec a b); try reflexivity; lia.
Qed.

Lemma lt_30_50 a :
  JS.lt a (JS.of_Z 30) = true -> JS.lt a (JS.of_Z 50) = true.
Proof.
  destruct a as [q| | |]; simpl; try discriminate; try reflexivity.
  rewrite !negb_true_iff. intros H.
  destruct (Qle_bool (inject_Z 50) q) eqn:E; [|reflexivity].
  apply Qle_bool_iff in E.
  assert (H' : Qle_bool (inject_Z 30) q = true).
  { apply Qle_bool_iff. eapply Qle_trans; [|exact E]. discriminate. }
  congruence.
Qed.

Lemma problems_of_flagged s :
  (0 <? length (SessionAnalytics.problems_of s))%nat = needs_attention s.
Proof.
  unfold SessionAnalytics.problems_of, needs_attention.
  pose proof (lt_30_50 (Session.attendanceRate s)) as H30.
  destruct (JS.lt (Session.attendanceRate s) (JS.of_Z 30)).
  - rewrite H30 by reflexivity. reflexivity.
  - clear H30. destruct (JS.lt (Session.attendanceRate s) (JS.of_Z 50));
      [reflexivity|].
    destruct (Z.ltb_spec (Session.engagement s) 40) as [H40|H40].
    + destruct (Z.ltb_spec (Session.engagement s) 60); [reflexivity|lia].
    + destruct (Session.engagement s <? 60); [reflexivity|].
      destruct (Session.averageRating s) as [r|]; [|reflexivity].
      destruct (negb (JS.Qis0 r) && Qltb r 3); reflexivity.
Qed.

Lemma problems_of_severity s p :
  In p (SessionAnalytics.problems_of s) ->
  SessionAnalytics.severity p = SessionAnalytics.high
  \/ SessionAnalytics.severity p = SessionAnalytics.medium.
Proof.
  unfold SessionAnalytics.problems_of. rewrite !in_app_iff.
  destruct (JS.lt (Session.attendanceRate s) (JS.of_Z 30)),
    (JS.lt (Session.attendanceRate s) (JS.of_Z 50)),
    (Session.engagement s <? 40), (Session.engagement s <? 60),
    (Session.averageRating s) as [r|];
    try destruct (negb (JS.Qis0 r) && Qltb r 3);
    simpl; intuition (subst; simpl; auto).
Qed.

Lemma in_collect_issues data i :
  In i (SessionAnalytics.collect_issues data) <->
  exists o,
    In o data /\ needs_attention (JS.val o) = true
    /\ i = {| SessionAnalytics.session := o;
              SessionAnalytics.problems := SessionAnalytics.problems_of (JS.val o);
              SessionAnalytics.overallSeverity :=
                if JS.some
                     (fun p => SessionAnalytics.severity_eqb
                                 (SessionAnalytics.severity p) SessionAnalytics.high)
                     (SessionAnalytics.problems_of (JS.val o))
                then SessionAnalytics.high else SessionAnalytics.medium;
              SessionAnalytics.recommendedActions :=
                SessionAnalytics.getRecommendedActions
                  (SessionAnalytics.problems_of (JS.val o)) |}.
Proof.
  unfold SessionAnalytics.collect_issues. rewrite in_flat_map.
  split; intros [o [Ho H]]; exists o; (split; [exact Ho|]).
  - rewrite problems_of_flagged in H.
    destruct (needs_attention (JS.val o)); simpl in H; [|contradiction].
    destruct H as [<-|[]]. now split.
  - destruct H as [Hn ->]. rewrite problems_of_flagged, Hn. now left.
Qed.

Lemma collect_issues_keys data :
  Forall (fun i => severity_key i = 0 \/ severity_key i = 1)
    (SessionAnalytics.collect_issues data).
Proof.
  apply List.Forall_forall. intros i Hi. apply in_collect_issues in Hi.
  destruct Hi as [o [_ [_ ->]]]. unfold severity_key. simpl.
  destruct (JS.some _ _); auto.
Qed.

(** ** The caches *)

Lemma session_cache_miss {D} key (f : D -> SessionAnalytics.cval) d t0 t0' self :
  stale_or_absent
    (SessionAnalytics.timestamp <$> SessionAnalytics.cache self !! key)
    (SessionAnalytics.cacheTimeout self) t0 ->
  SessionAnalytics.getCachedOrCompute key f d t0 t0' self
  = (f d,
     SessionAnalytics.Make
       (<[key := SessionAnalytics.Entry (f d) t0']> (SessionAnalytics.cache self))
       (SessionAnalytics.cacheTimeout self)).
Proof.
  unfold SessionAnalytics.getCachedOrCompute, stale_or_absent.
  destruct (SessionAnalytics.cache self !! key) as [e|]; simpl; [|reflexivity].
  intros H. destruct (Z.ltb_spec (t0 - SessionAnalytics.timestamp e)
                        (SessionAnalytics.cacheTimeout self)); [lia|reflexivity].
Qed.

Lemma session_cache_hit {D} key (f : D -> SessionAnalytics.cval) d t1 t1' self e :
  SessionAnalytics.cache self !! key = Some e ->
  t1 - SessionAnalytics.timestamp e < SessionAnalytics.cacheTimeout self ->
  SessionAnalytics.getCachedOrCompute key f d t1 t1' self
  = (SessionAnalytics.value e, self).
Proof.
  unfold SessionAnalytics.getCachedOrCompute. intros -> H.
  now rewrite (proj2 (Z.ltb_lt _ _) H).
Qed.

Lemma needing_attention_computed data t1 t2 self :
  stale_or_absent
    (SessionAnalytics.timestamp
       <$> SessionAnalytics.cache self !! "sessionsNeedingAttention"%string)
    (SessionAnalytics.cacheTimeout self) t1 ->
  fst (SessionAnalytics.getSessionsNeedingAttention data t1 t2 self)
  = SessionAnalytics.NeedingAttention
      (SessionAnalytics.sessionsNeedingAttention data).
Proof.
  intros H. unfold SessionAnalytics.getSessionsNeedingAttention.
  now rewrite session_cache_miss.
Qed.

(** C2 (as the code behaves): a call of [getSessionsNeedingAttention] that
    computes - on a service whose cache holds nothing younger than the TTL
    under the key ['sessionsNeedingAttention'] - flags exactly the sessions
    whose attendanceRate is below 50, whose engagement is below 60, or whose
    [averageRating] property is present, non-zero and below 3; every problem
    has severity high or medium, and the issues of overall severity high
    come first. The rating check does not read the [rating] property: for
    the claim's session, with attendanceRate 20, engagement 35 and rating 2,
    the one issue returned has overall severity high and actions for low
    attendance and low engagement, but no problem of low rating and no
    action of that category. The same session with its rating supplied as
    [averageRating] gets all three. *)
Theorem C2_low_rating_missed
    (data : SessionAnalytics.sessions_t) (t1 t2 : Z) (self : SessionAnalytics.t) :
  stale_or_absent
    (SessionAnalytics.timestamp
       <$> SessionAnalytics.cache self !! "sessionsNeedingAttention"%string)
    (SessionAnalytics.cacheTimeout self) t1 ->
  let result := SessionAnalytics.sessionsNeedingAttention data in
  fst (SessionAnalytics.getSessionsNeedingAttention data t1 t2 self)
    = SessionAnalytics.NeedingAttention result
  /\ (forall o, In o data -> needs_attention (JS.val o) = true ->
        exists i, In i result /\ SessionAnalytics.session i = o)
  /\ (forall i, In i result ->
        In (SessionAnalytics.session i) data
        /\ needs_attention (JS.val (SessionAnalytics.session i)) = true
        /\ forall p, In p (SessionAnalytics.problems i) ->
             SessionAnalytics.severity p = SessionAnalytics.high
             \/ SessionAnalytics.severity p = SessionAnalytics.medium)
  /\ (exists hi me,
        result = hi ++ me
        /\ Forall (fun i => SessionAnalytics.overallSeverity i = SessionAnalytics.high) hi
        /\ Forall (fun i => SessionAnalytics.overallSeverity i = SessionAnalytics.medium) me)
  /\ (exists i,
        fst (SessionAnalytics.getSessionsNeedingAttention
               [JS.Obj 0 Sample.rated_two] t1 t2 self)
        = SessionAnalytics.NeedingAttention [i]
        /\ SessionAnalytics.session i = JS.Obj 0 Sample.rated_two
        /\ SessionAnalytics.overallSeverity i = SessionAnalytics.high
        /\ covers SessionAnalytics.low_attendance i
        /\ covers SessionAnalytics.low_engagement i
        /\ ~ covers SessionAnalytics.low_rating i
        /\ Forall (fun p => SessionAnalytics.type p <> SessionAnalytics.low_rating)
             (SessionAnalytics.problems i))
  /\ (exists i,
        fst (SessionAnalytics.getSessionsNeedingAttention
               [JS.Obj 0 Sample.troubled] t1 t2 self)
        = SessionAnalytics.NeedingAttention [i]
        /\ SessionAnalytics.overallSeverity i = SessionAnalytics.high
        /\ covers SessionAnalytics.low_attendance i
        /\ covers SessionAnalytics.low_engagement i
        /\ covers SessionAnalytics.low_rating i).
Proof.
  intros Hcache result.
  assert (Hin : forall i, In i result <-> In i (SessionAnalytics.collect_issues data)).
  { intros i. unfold result, SessionAnalytics.sessionsNeedingAttention.
    split; apply Permutation_in;
      [|symmetry]; apply sort_by_perm. }
  split; [now apply needing_attention_computed|].
  split.
  { intros o Ho Hn. eexists. split.
    - apply Hin, in_collect_issues. exists o. repeat split; eauto.
    - reflexivity. }
  split.
  { intros i Hi. apply Hin, in_collect_issues in Hi.
    destruct Hi as [o [Ho [Hn ->]]]. simpl.
    repeat split; auto. apply problems_of_severity. }
  split.
  { exists (List.filter (fun i => severity_key i =? 0) result),
           (List.filter (fun i => severity_key i =? 1) result).
    split.
    - apply (sorted_two_keys severity_key).
      + apply (sort_by_sorted _ severity_key). intros a b. apply Qle_bool_diff.
      + apply List.Forall_forall. intros i Hi. apply Hin in Hi.
        pose proof (collect_issues_keys data) as Hk.
        rewrite List.Forall_forall in Hk. now apply Hk.
    - split; apply List.Forall_forall; intros i Hi; apply filter_In in Hi;
        destruct Hi as [_ Hk]; unfold severity_key in Hk;
        destruct (SessionAnalytics.overallSeverity i); simpl in Hk;
        congruence. }
  split.
  { rewrite needing_attention_computed by exact Hcache.
    eexists. split; [reflexivity|]. split; [reflexivity|].
    split; [reflexivity|]. split; [|split; [|split]].
    - exists "Send reminder notifications to registered attendees"%string.
      split; simpl; auto.
    - exists "Encourage speaker to increase interactivity"%string.
      split; simpl; auto 10.
    - intros [a [Ha Hb]]. vm_compute in Ha, Hb.
      repeat (destruct Ha as [<-|Ha]; [intuition discriminate|]).
      exact Ha.
    - vm_compute. repeat constructor; discriminate. }
  rewrite needing_attention_computed by exact Hcache.
  eexists. split; [reflexivity|]. split; [reflexivity|].
  split; [|split].
  - exists "Send reminder notifications to registered attendees"%string.
    split; simpl; auto.
  - exists "Encourage speaker to increase interactivity"%string.
    split; simpl; auto 10.
  - exists "Collect detailed feedback from attendees"%string.
    split; simpl; auto 10.
Qed.

Lemma C2_low_rating_missed_witness :
  exists i,
    fst (SessionAnalytics.getSessionsNeedingAttention
           [JS.Obj 0 Sample.rated_two] 0 0 SessionAnalytics.constructor)
    = SessionAnalytics.NeedingAttention [i]
    /\ SessionAnalytics.session i = JS.Obj 0 Sample.rated_two
    /\ SessionAnalytics.overallSeverity i = SessionAnalytics.high
    /\ covers SessionAnalytics.low_attendance i
    /\ covers SessionAnalytics.low_engagement i
    /\ ~ covers SessionAnalytics.low_rating i
    /\ Forall (fun p => SessionAnalytics.type p <> SessionAnalytics.low_rating)
         (SessionAnalytics.problems i).
Proof.
  refine (proj1 (proj2 (proj2 (proj2 (proj2
    (C2_low_rating_missed [] 0 0 SessionAnalytics.constructor _)))))).
  exact I.
Defined.

(** A call under one key does not change what a call under another key
    returns. *)
Lemma session_cache_other_key {D D'} k k'
    (f : D -> SessionAnalytics.cval) (f' : D' -> SessionAnalytics.cval)
    d d' t0 t0' t1 t1' self :
  k <> k' ->
  fst (SessionAnalytics.getCachedOrCompute k' f' d' t1 t1'
         (snd (SessionAnalytics.getCachedOrCompute k f d t0 t0' self)))
  = fst (SessionAnalytics.getCachedOrCompute k' f' d' t1 t1' self).
Proof.
  intros Hne.
  assert (E : SessionAnalytics.cache
                (snd (SessionAnalytics.getCachedOrCompute k f d t0 t0' self)) !! k'
              = SessionAnalytics.cache self !! k'
              /\ SessionAnalytics.cacheTimeout
                   (snd (SessionAnalytics.getCachedOrCompute k f d t0 t0' self))
                 = SessionAnalytics.cacheTimeout self).
  { unfold SessionAnalytics.getCachedOrCompute.
    destruct (SessionAnalytics.cache self !! k) as [e|];
      [destruct (_ <? _)|]; simpl; split; try reflexivity;
      now apply lookup_insert_ne. }
  destruct E as [E1 E2].
  unfold SessionAnalytics.getCachedOrCompute at 1 3. rewrite E1, E2.
  destruct (SessionAnalytics.cache self !! k') as [e|];
    [destruct (_ <? _)|]; reflexivity.
Qed.

Lemma aggregate_cache_miss key t0 self :
  stale_or_absent
    (AnalyticsService.timestamp <$> AnalyticsService.cache self !! key)
    (AnalyticsService.cacheTimeout self) t0 ->
  AnalyticsService.getFromCache key t0 self
  = (None,
     AnalyticsService.Make (delete key (AnalyticsService.cache self))
       (AnalyticsService.cacheTimeout self)).
Proof.
  unfold AnalyticsService.getFromCache, stale_or_absent.
  destruct (AnalyticsService.cache self !! key) as [e|]; simpl; [|reflexivity].
  intros H. destruct (Z.ltb_spec (t0 - AnalyticsService.timestamp e)
                        (AnalyticsService.cacheTimeout self)); [lia|reflexivity].
Qed.

Lemma aggregate_cache_hit key t1 self e :
  AnalyticsService.cache self !! key = Some e ->
  t1 - AnalyticsService.timestamp e < AnalyticsService.cacheTimeout self ->
  AnalyticsService.getFromCache key t1 self = (Some (AnalyticsService.data e), self).
Proof.
  unfold AnalyticsService.getFromCache. intros -> H.
  now rewrite (proj2 (Z.ltb_lt _ _) H).
Qed.

Lemma overallMetrics_key_lengths x1 x2 a1 a2 f1 f2 :
  length x1 = length x2 -> length a1 = length a2 -> length f1 = length f2 ->
  AnalyticsService.overallMetrics_key x1 a1 f1
  = AnalyticsService.overallMetrics_key x2 a2 f2.
Proof.
  unfold AnalyticsService.overallMetrics_key, lengthZ. now intros -> -> ->.
Qed.

Lemma aggregate_other_key x1 a1 f1 x2 a2 f2 t0 t0' t1 t1' self :
  AnalyticsService.overallMetrics_key x1 a1 f1
    <> AnalyticsService.overallMetrics_key x2 a2 f2 ->
  fst (AnalyticsService.getOverallMetrics x2 a2 f2 t1 t1'
         (snd (AnalyticsService.getOverallMetrics x1 a1 f1 t0 t0' self)))
  = fst (AnalyticsService.getOverallMetrics x2 a2 f2 t1 t1' self).
Proof.
  intros Hne.
  set (k := AnalyticsService.overallMetrics_key x1 a1 f1) in *.
  set (k' := AnalyticsService.overallMetrics_key x2 a2 f2) in *.
  set (self1 := snd (AnalyticsService.getOverallMetrics x1 a1 f1 t0 t0' self)).
  assert (E : AnalyticsService.cache self1 !! k' = AnalyticsService.cache self !! k'
              /\ AnalyticsService.cacheTimeout self1
                 = AnalyticsService.cacheTimeout self).
  { unfold self1, AnalyticsService.getOverallMetrics,
      AnalyticsService.getFromCache, AnalyticsService.setCache. fold k.
    destruct (AnalyticsService.cache self !! k) as [e|];
      [destruct (_ <? _)|]; simpl; split; try reflexivity;
      rewrite ?lookup_insert_ne, ?lookup_delete_ne by exact Hne; reflexivity. }
  destruct E as [E1 E2].
  unfold AnalyticsService.getOverallMetrics, AnalyticsService.getFromCache.
  fold k'. rewrite E1, E2.
  destruct (AnalyticsService.cache self !! k') as [e|];
    [destruct (_ <? _)|]; reflexivity.
Qed.

Lemma getTopSessions_first_call s1 metric limit t0 t0' sa :
  stale_or_absent
    (SessionAnalytics.timestamp
       <$> SessionAnalytics.cache sa !! SessionAnalytics.topSessions_key metric limit)
    (SessionAnalytics.cacheTimeout sa) t0 ->
  SessionAnalytics.getTopSessions s1 metric limit t0 t0' sa
  = (SessionAnalytics.TopSessions (SessionAnalytics.topSessions metric limit s1),
     SessionAnalytics.Make
       (<[SessionAnalytics.topSessions_key metric limit :=
            SessionAnalytics.Entry
              (SessionAnalytics.TopSessions
                 (SessionAnalytics.topSessions metric limit s1)) t0']>
          (SessionAnalytics.cache sa))
       (SessionAnalytics.cacheTimeout sa)).
Proof.
  intros H. unfold SessionAnalytics.getTopSessions.
  exact (session_cache_miss _
           (fun data => SessionAnalytics.TopSessions
                          (SessionAnalytics.topSessions metric limit data))
           s1 t0 t0' sa H).
Qed.

Lemma getTopSessions_same_key s1 s2 metric limit t0 t0' t1 t1' sa :
  stale_or_absent
    (SessionAnalytics.timestamp
       <$> SessionAnalytics.cache sa !! SessionAnalytics.topSessions_key metric limit)
    (SessionAnalytics.cacheTimeout sa) t0 ->
  t1 - t0' < SessionAnalytics.cacheTimeout sa ->
  SessionAnalytics.getTopSessions s2 metric limit t1 t1'
    (snd (SessionAnalytics.getTopSessions s1 metric limit t0 t0' sa))
  = SessionAnalytics.getTopSessions s1 metric limit t0 t0' sa.
Proof.
  intros Hm Ht. rewrite (getTopSessions_first_call s1) by exact Hm.
  cbn [snd]. unfold SessionAnalytics.getTopSessions.
  rewrite session_cache_hit
    with (e := SessionAnalytics.Entry
                 (SessionAnalytics.TopSessions
                    (SessionAnalytics.topSessions metric limit s1)) t0').
  - reflexivity.
  - apply lookup_insert_eq.
  - simpl. lia.
Qed.

(** C3 (amended): the key of a cached computation is the method name plus
    only part of the arguments: for [getTopSessions] the metric and the
    limit, never the sessions array; for [getOverallMetrics] the lengths of
    the three arrays. After a call that computed its value, any call of the
    same method under the same key within the TTL (5 seconds for Session
    Analytics, 10 for Aggregate Analytics) returns that value and leaves the
    cache as it was, whether or not its arguments are the same; a call under
    a different key gets what it would have got without the first call. *)
Theorem C3_cache_keys
    (sa : SessionAnalytics.t) (ag : AnalyticsService.t)
    (s1 s2 : SessionAnalytics.sessions_t) (metric : string) (limit : Z)
    (x1 x2 : list Session.t) (a1 a2 : list Attendee.t)
    (f1 f2 : list Feedback.t) (t0 t0' t1 t1' : Z) :
  SessionAnalytics.cacheTimeout sa = 5000 ->
  AnalyticsService.cacheTimeout ag = 10000 ->
  stale_or_absent
    (SessionAnalytics.timestamp
       <$> SessionAnalytics.cache sa !! SessionAnalytics.topSessions_key metric limit)
    5000 t0 ->
  stale_or_absent
    (AnalyticsService.timestamp
       <$> AnalyticsService.cache ag !! AnalyticsService.overallMetrics_key x1 a1 f1)
    10000 t0 ->
  length x1 = length x2 -> length a1 = length a2 -> length f1 = length f2 ->
  let r := SessionAnalytics.getTopSessions s1 metric limit t0 t0' sa in
  let q := AnalyticsService.getOverallMetrics x1 a1 f1 t0 t0' ag in
  fst r = SessionAnalytics.TopSessions (SessionAnalytics.topSessions metric limit s1)
  /\ (t1 - t0' < 5000 ->
      SessionAnalytics.getTopSessions s2 metric limit t1 t1' (snd r) = r)
  /\ fst q = DataTransformers.aggregateMetrics x1 a1 f1
  /\ (t1 - t0' < 10000 ->
      AnalyticsService.getOverallMetrics x2 a2 f2 t1 t1' (snd q) = q)
  /\ (forall metric' limit',
        SessionAnalytics.topSessions_key metric limit
          <> SessionAnalytics.topSessions_key metric' limit' ->
        fst (SessionAnalytics.getTopSessions s2 metric' limit' t1 t1' (snd r))
        = fst (SessionAnalytics.getTopSessions s2 metric' limit' t1 t1' sa))
  /\ (forall x3 a3 f3,
        AnalyticsService.overallMetrics_key x1 a1 f1
          <> AnalyticsService.overallMetrics_key x3 a3 f3 ->
        fst (AnalyticsService.getOverallMetrics x3 a3 f3 t1 t1' (snd q))
        = fst (AnalyticsService.getOverallMetrics x3 a3 f3 t1 t1' ag)).
Proof.
  intros Hsa Hag Ms Ma Lx La Lf r q.
  rewrite <- Hsa in Ms.
  assert (Eq : q = (DataTransformers.aggregateMetrics x1 a1 f1,
                    AnalyticsService.Make
                      (<[AnalyticsService.overallMetrics_key x1 a1 f1 :=
                           AnalyticsService.Entry
                             (DataTransformers.aggregateMetrics x1 a1 f1) t0']>
                         (delete (AnalyticsService.overallMetrics_key x1 a1 f1)
                            (AnalyticsService.cache ag)))
                      (AnalyticsService.cacheTimeout ag))).
  { unfold q, AnalyticsService.getOverallMetrics.
    rewrite aggregate_cache_miss by now rewrite Hag. reflexivity. }
  split; [unfold r; now rewrite getTopSessions_first_call|].
  split.
  { intros Ht. apply getTopSessions_same_key; [exact Ms|lia]. }
  split; [now rewrite Eq|].
  split.
  { intros Ht. rewrite Eq at 1. unfold AnalyticsService.getOverallMetrics.
    rewrite <- (overallMetrics_key_lengths x1 x2 a1 a2 f1 f2 Lx La Lf).
    cbn [snd].
    rewrite aggregate_cache_hit
      with (e := AnalyticsService.Entry
                   (DataTransformers.aggregateMetrics x1 a1 f1) t0').
    - rewrite Eq. reflexivity.
    - simpl. apply lookup_insert_eq.
    - simpl. lia. }
  split.
  - intros metric' limit' Hne. unfold r, SessionAnalytics.getTopSessions.
    now apply session_cache_other_key.
  - intros x3 a3 f3 Hne. unfold q. now apply aggregate_other_key.
Qed.

Lemma C3_cache_keys_witness :
  let r :=
    SessionAnalytics.getTopSessions Sample.room_a "attendance" 5 0 0
      SessionAnalytics.constructor in
  SessionAnalytics.getTopSessions Sample.room_b "attendance" 5 1000 1000 (snd r) = r.
Proof.
  intros r.
  refine (proj1 (proj2
    (C3_cache_keys SessionAnalytics.constructor AnalyticsService.constructor
       Sample.room_a Sample.room_b "attendance" 5 [] [] [] [] [] [] 0 0 1000 1000
       eq_refl eq_refl I I eq_refl eq_refl eq_refl)) _).
  lia.
Defined.

(** C3 (as stated) fails: within the TTL a call of [getTopSessions] on a
    different sessions array is served the ranking computed for the first
    array. *)
Lemma C3_served_other_arguments :
  ~ (forall s1 s2 : SessionAnalytics.sessions_t,
       s1 <> s2 ->
       fst (SessionAnalytics.getTopSessions s2 "attendance" 5 1000 1000
              (snd (SessionAnalytics.getTopSessions s1 "attendance" 5 0 0
                      SessionAnalytics.constructor)))
       = SessionAnalytics.TopSessions
           (SessionAnalytics.topSessions "attendance" 5 s2)).
Proof.
  intros H.
  specialize (H Sample.room_a Sample.room_b ltac:(discriminate)).
  rewrite getTopSessions_same_key in H by (simpl; lia || exact I).
  rewrite getTopSessions_first_call in H by exact I.
  vm_compute in H. discriminate H.
Qed.

(** ** Subscribers *)

Section Notification.
Variable raises : Simulator.callback -> Simulator.DataObj.t -> bool.

Lemma notify_all x l : forall s,
  let s' := fold_left (Simulator.notify_one raises x) l s in
  Simulator.calls s' = Simulator.calls s ++ map (fun cb => (cb, x)) l
  /\ core s' = core s
  /\ Simulator.next_ref s' = Simulator.next_ref s.
Proof.
  induction l as [|cb l IH]; intros s; simpl.
  - now rewrite app_nil_r.
  - destruct (IH (Simulator.notify_one raises x s cb)) as [Hc [Hk Hn]].
    rewrite Hc, Hk, Hn. unfold Simulator.notify_one, Simulator.invoke.
    destruct (raises cb x); simpl; rewrite <- app_assoc; auto.
Qed.

Lemma notifySubscribers_spec timestamp s :
  let s' := Simulator.notifySubscribers raises timestamp s in
  Simulator.calls s'
  = Simulator.calls s
    ++ map (fun cb => (cb, Simulator.dataWithTimestamp timestamp s))
         (Simulator.subscribers s)
  /\ core s' = core s
  /\ Simulator.next_ref s' = S (Simulator.next_ref s).
Proof.
  unfold Simulator.notifySubscribers.
  match goal with
  | |- context [fold_left ?f ?l ?s1] =>
      destruct (notify_all (Simulator.dataWithTimestamp timestamp s) l s1)
        as [Hc [Hk Hn]]
  end.
  simpl in *. auto.
Qed.

Lemma performUpdate_spec c s g :
  let s' := fst (Simulator.performUpdate raises c s g) in
  let x :=
    {| Simulator.DataObj.oid := Simulator.next_ref s;
       Simulator.DataObj.body := Simulator.DataObj.body (Simulator.data s);
       Simulator.DataObj.lastUpdated := Simulator.now c;
       Simulator.DataObj.updateCount := Some (Simulator.updateCount s + 1) |} in
  Simulator.calls s'
  = Simulator.calls s ++ map (fun cb => (cb, x)) (Simulator.subscribers s)
  /\ core s'
     = (Simulator.data s,
        fst (Simulator.mutate c (Simulator.content s) g),
        Simulator.subscribers s, Simulator.updateInterval s,
        Simulator.isRunning s, Simulator.updateCount s + 1)
  /\ Simulator.next_ref s' = S (Simulator.next_ref s)
  /\ snd (Simulator.performUpdate raises c s g)
     = snd (Simulator.mutate c (Simulator.content s) g).
Proof.
  unfold Simulator.performUpdate, Rand.bind. cbn [Simulator.content].
  destruct (Simulator.mutate c (Simulator.content s) g) as [d g'].
  unfold Rand.ret. cbn [fst snd].
  match goal with
  | |- context [Simulator.notifySubscribers raises ?t ?s1] =>
      destruct (notifySubscribers_spec t s1) as [Hc [Hk Hn]]
  end.
  rewrite Hc, Hk, Hn. auto.
Qed.

End Notification.

Lemma constructor_data t g :
  Simulator.data (fst (Simulator.constructor t g))
  = {| Simulator.DataObj.oid := 0; Simulator.DataObj.body := 1;
       Simulator.DataObj.lastUpdated := t;
       Simulator.DataObj.updateCount := None |}
  /\ Simulator.calls (fst (Simulator.constructor t g)) = []
  /\ Simulator.subscribers (fst (Simulator.constructor t g)) = []
  /\ Simulator.next_ref (fst (Simulator.constructor t g)) = 2%nat
  /\ Simulator.updateCount (fst (Simulator.constructor t g)) = 0.
Proof.
  unfold Simulator.constructor, Rand.bind.
  destruct (Generator.generateInitialData t g). simpl. auto.
Qed.

(** C4 (as the code behaves): [subscribe] calls the callback with
    [this.data] itself. On a new simulator the one object delivered has the
    identity of the live object and no [updateCount] property, whereas the
    object a tick delivers is a new one that has it. *)
Theorem C4_subscribe_passes_live_object
    (raises : Simulator.callback -> Simulator.DataObj.t -> bool)
    (cb : Simulator.callback) (t : Z) (g : Rand.rng) :
  let s0 := fst (Simulator.constructor t g) in
  let s1 := fst (Simulator.subscribe raises cb s0) in
  Simulator.calls s1 = [(cb, Simulator.data s0)]
  /\ Simulator.data s1 = Simulator.data s0
  /\ Simulator.DataObj.updateCount (Simulator.data s0) = None
  /\ forall ts,
       Simulator.calls (Simulator.notifySubscribers raises ts s1)
       = [(cb, Simulator.data s0); (cb, Simulator.dataWithTimestamp ts s1)]
       /\ Simulator.DataObj.oid (Simulator.dataWithTimestamp ts s1)
          <> Simulator.DataObj.oid (Simulator.data s1)
       /\ Simulator.DataObj.updateCount (Simulator.dataWithTimestamp ts s1)
          = Some 0.
Proof.
  intros s0 s1.
  destruct (constructor_data t g) as [Hd [Hc [Hs [Hn Hu]]]].
  fold s0 in Hd, Hc, Hs, Hn, Hu. clearbody s0.
  assert (E1 : Simulator.calls s1 = [(cb, Simulator.data s0)]
               /\ Simulator.data s1 = Simulator.data s0
               /\ Simulator.subscribers s1 = [cb]
               /\ Simulator.next_ref s1 = Simulator.next_ref s0
               /\ Simulator.updateCount s1 = Simulator.updateCount s0).
  { unfold s1, Simulator.subscribe, Simulator.invoke. simpl.
    rewrite Hc, Hs. destruct (raises cb (Simulator.data s0)); simpl; auto. }
  clearbody s1.
  destruct E1 as [E1 [E2 [E3 [E4 E5]]]].
  split; [exact E1|]. split; [exact E2|]. split; [now rewrite Hd|].
  intros ts. destruct (notifySubscribers_spec raises ts s1) as [Hk _].
  rewrite Hk, E1, E3. split; [reflexivity|].
  unfold Simulator.dataWithTimestamp. simpl. rewrite E2, E4, E5, Hd, Hn, Hu.
  simpl. split; [lia|reflexivity].
Qed.

(** C9: in the notification of a tick every subscriber is called with the
    snapshot of that tick, whichever subscribers throw; the tick returns, and
    it leaves the simulator in the state it reaches when no subscriber
    throws (its data, subscribers, timer and counters), the calls made being
    the same. *)
Theorem C9_throwing_subscriber_is_isolated
    (raises : Simulator.callback -> Simulator.DataObj.t -> bool)
    (c : Simulator.clock) (s : Simulator.t) (g : Rand.rng) :
  let s' := fst (Simulator.performUpdate raises c s g) in
  let s0 := fst (Simulator.performUpdate quiet c s g) in
  (exists x,
     Simulator.DataObj.updateCount x = Some (Simulator.updateCount s + 1)
     /\ Simulator.calls s'
        = Simulator.calls s ++ map (fun cb => (cb, x)) (Simulator.subscribers s))
  /\ Simulator.calls s' = Simulator.calls s0
  /\ core s' = core s0
  /\ Simulator.subscribers s' = Simulator.subscribers s
  /\ Simulator.isRunning s' = Simulator.isRunning s
  /\ Simulator.updateInterval s' = Simulator.updateInterval s.
Proof.
  intros s' s0.
  destruct (performUpdate_spec raises c s g) as [Hc [Hk _]].
  destruct (performUpdate_spec quiet c s g) as [Hc0 [Hk0 _]].
  fold s' in Hc, Hk. fold s0 in Hc0, Hk0.
  split; [eexists; split; [|exact Hc]; reflexivity|].
  split; [now rewrite Hc, Hc0|].
  split; [now rewrite Hk, Hk0|].
  unfold core in Hk. now inversion Hk.
Qed.

Lemma set_add_In cb l : In cb (Simulator.set_add cb l).
Proof.
  unfold Simulator.set_add. destruct (existsb (Nat.eqb cb) l) eqn:E.
  - apply existsb_exists in E. destruct E as [x [Hx E]].
    apply Nat.eqb_eq in E. now subst.
  - apply in_or_app. right. now left.
Qed.

Lemma set_add_idem cb l :
  Simulator.set_add cb (Simulator.set_add cb l) = Simulator.set_add cb l.
Proof.
  unfold Simulator.set_add at 1.
  replace (existsb (Nat.eqb cb) (Simulator.set_add cb l)) with true;
    [reflexivity|].
  symmetry. apply existsb_exists. exists cb.
  split; [apply set_add_In | apply Nat.eqb_refl].
Qed.

Lemma set_add_NoDup cb l : List.NoDup l -> List.NoDup (Simulator.set_add cb l).
Proof.
  intros H. unfold Simulator.set_add. destruct (existsb (Nat.eqb cb) l) eqn:E;
    [exact H|].
  apply List.NoDup_app; [exact H | repeat constructor; intros [] |].
  intros x Hx [Ex|[]].
  assert (existsb (Nat.eqb cb) l = true); [|congruence].
  apply existsb_exists. exists x. split; [exact Hx | now apply Nat.eqb_eq].
Qed.

Lemma set_delete_In cb cb' l :
  In cb' (Simulator.set_delete cb l) <-> In cb' l /\ cb <> cb'.
Proof.
  unfold Simulator.set_delete. rewrite filter_In, negb_true_iff, Nat.eqb_neq.
  reflexivity.
Qed.

Lemma set_delete_idem cb l :
  Simulator.set_delete cb (Simulator.set_delete cb l) = Simulator.set_delete cb l.
Proof.
  unfold Simulator.set_delete. induction l as [|x l IH]; [reflexivity|].
  simpl. destruct (negb (cb =? x)%nat) eqn:E; simpl; rewrite ?E, IH; reflexivity.
Qed.

Lemma calls_to_app cb l1 l2 :
  calls_to cb (l1 ++ l2) = (calls_to cb l1 + calls_to cb l2)%nat.
Proof. unfold calls_to. now rewrite List.filter_app, length_app. Qed.

(** A notification over a duplicate-free set calls a member once. *)
Lemma calls_to_once cb (x : Simulator.DataObj.t) l :
  List.NoDup l -> In cb l ->
  calls_to cb (map (fun c => (c, x)) l) = 1%nat.
Proof.
  unfold calls_to. induction 1 as [|y l Hy Hl IH]; intros Hin; [destruct Hin|].
  simpl. destruct (Nat.eqb_spec y cb) as [->|Hne].
  - simpl. f_equal. clear IH Hin Hl.
    induction l as [|z l IH]; [reflexivity|].
    simpl. destruct (Nat.eqb_spec z cb) as [->|_].
    + exfalso. apply Hy. now left.
    + apply IH. intros H. apply Hy. now right.
  - destruct Hin as [E|Hin]; [congruence|]. now apply IH.
Qed.

Lemma subscribe_subscribers raises cb s :
  Simulator.subscribers (fst (Simulator.subscribe raises cb s))
  = Simulator.set_add cb (Simulator.subscribers s).
Proof.
  unfold Simulator.subscribe, Simulator.invoke. simpl.
  destruct (raises cb (Simulator.data s)); reflexivity.
Qed.

Lemma unsubscribe_iter cb s n :
  Nat.iter (S n) (Simulator.unsubscribe cb) s = Simulator.unsubscribe cb s.
Proof.
  induction n as [|n IH]; [reflexivity|].
  change (Simulator.unsubscribe cb (Nat.iter (S n) (Simulator.unsubscribe cb) s)
          = Simulator.unsubscribe cb s).
  rewrite IH. unfold Simulator.unsubscribe, Simulator.set_subscribers. simpl.
  now rewrite set_delete_idem.
Qed.

(** C10: the subscribers form a set under function identity. Subscribing a
    callback a second time leaves the set as it was, so a notification calls
    it once; the function [subscribe] returns removes that callback, calling
    it again changes nothing more, and every other subscriber stays
    registered, in the same order. *)
Theorem C10_subscriber_set
    (raises : Simulator.callback -> Simulator.DataObj.t -> bool)
    (cb : Simulator.callback) (s : Simulator.t) :
  List.NoDup (Simulator.subscribers s) ->
  let s1 := fst (Simulator.subscribe raises cb s) in
  let s2 := fst (Simulator.subscribe raises cb s1) in
  Simulator.subscribers s2 = Simulator.subscribers s1
  /\ List.NoDup (Simulator.subscribers s2)
  /\ In cb (Simulator.subscribers s2)
  /\ (forall ts,
        calls_to cb (Simulator.calls (Simulator.notifySubscribers raises ts s2))
        = S (calls_to cb (Simulator.calls s2)))
  /\ (forall u, snd (Simulator.subscribe raises cb s) = Simulator.Returned u ->
        u = Simulator.unsubscribe cb)
  /\ (forall n,
        Nat.iter (S n) (Simulator.unsubscribe cb) s2 = Simulator.unsubscribe cb s2)
  /\ ~ In cb (Simulator.subscribers (Simulator.unsubscribe cb s2))
  /\ (forall cb', cb' <> cb ->
        (In cb' (Simulator.subscribers (Simulator.unsubscribe cb s2))
         <-> In cb' (Simulator.subscribers s2)))
  /\ Simulator.subscribers (Simulator.unsubscribe cb s2)
     = List.filter (fun x => negb (Nat.eqb cb x)) (Simulator.subscribers s2).
Proof.
  intros Hnd s1 s2.
  assert (E1 : Simulator.subscribers s1 = Simulator.set_add cb (Simulator.subscribers s))
    by apply subscribe_subscribers.
  assert (E2 : Simulator.subscribers s2 = Simulator.subscribers s1).
  { unfold s2. rewrite subscribe_subscribers, E1. apply set_add_idem. }
  assert (Hnd2 : List.NoDup (Simulator.subscribers s2)).
  { rewrite E2, E1. now apply set_add_NoDup. }
  assert (Hin2 : In cb (Simulator.subscribers s2)).
  { rewrite E2, E1. apply set_add_In. }
  split; [exact E2|]. split; [exact Hnd2|]. split; [exact Hin2|].
  split.
  { intros ts. destruct (notifySubscribers_spec raises ts s2) as [Hc _].
    rewrite Hc, calls_to_app, calls_to_once by assumption. lia. }
  split.
  { intros u. unfold Simulator.subscribe, Simulator.invoke. simpl.
    destruct (raises cb (Simulator.data s)); simpl; congruence. }
  split; [intros n; apply unsubscribe_iter|].
  split.
  { unfold Simulator.unsubscribe. simpl. rewrite set_delete_In. tauto. }
  split; [|reflexivity].
  intros cb' Hne. unfold Simulator.unsubscribe. simpl.
  rewrite set_delete_In. intuition congruence.
Qed.

Lemma C10_subscriber_set_witness :
  Simulator.subscribers
    (fst (Simulator.subscribe quiet 7%nat
            (fst (Simulator.subscribe quiet 7%nat Sample.idle))))
  = Simulator.subscribers (fst (Simulator.subscribe quiet 7%nat Sample.idle)).
Proof.
  apply (C10_subscriber_set quiet 7%nat Sample.idle). simpl. constructor.
Defined.

(** ** Top sessions *)

Lemma or0_id x : JS.or0 x = x.
Proof. unfold JS.or0. destruct (Z.eqb_spec x 0); congruence. Qed.

Lemma compare_by_attendance a b :
  Qle_bool (SessionAnalytics.compare_by "attendance" a b) 0
  = (attendance_key a <=? attendance_key b).
Proof.
  unfold SessionAnalytics.compare_by, attendance_key. cbn [String.eqb].
  simpl. rewrite Qle_bool_diff, !or0_id.
  destruct (Z.leb_spec (Session.currentAttendance (JS.val b))
              (Session.currentAttendance (JS.val a))),
    (Z.leb_spec (- Session.currentAttendance (JS.val a))
       (- Session.currentAttendance (JS.val b))); try reflexivity; lia.
Qed.

Lemma slice0_firstn {A} (e : Z) (l : list A) :
  0 <= e -> JS.slice0 e l = firstn (Z.to_nat e) l.
Proof.
  intros He. unfold JS.slice0.
  destruct (Z.ltb_spec e 0); [lia|].
  destruct (Z.le_ge_cases e (Z.of_nat (length l))) as [Hle|Hge].
  - now rewrite Z.min_l.
  - rewrite Z.min_r by lia. rewrite Nat2Z.id.
    rewrite firstn_all. symmetry. apply firstn_all2. lia.
Qed.

Lemma StronglySorted_firstn {A} (R : A -> A -> Prop) n l :
  StronglySorted R l -> StronglySorted R (firstn n l).
Proof.
  intros H. revert n. induction H as [|x l Hs IH Hx]; intros [|n]; simpl;
    try constructor; auto.
  apply List.Forall_forall. intros y Hy.
  rewrite List.Forall_forall in Hx. apply Hx.
  rewrite <- (firstn_skipn n l). apply in_or_app. now left.
Qed.

Lemma StronglySorted_weaken {A} (R R' : A -> A -> Prop) l :
  (forall a b, R a b -> R' a b) -> StronglySorted R l -> StronglySorted R' l.
Proof.
  intros HR. induction 1 as [|x l Hs IH Hx]; constructor; auto.
  rewrite List.Forall_forall in *. auto.
Qed.

Lemma StronglySorted_map {A B} (R : B -> B -> Prop) (f : A -> B) l :
  StronglySorted (fun a b => R (f a) (f b)) l -> StronglySorted R (map f l).
Proof.
  induction 1 as [|x l Hs IH Hx]; simpl; constructor; auto.
  rewrite List.Forall_forall in *. intros y Hy.
  apply in_map_iff in Hy. destruct Hy as [z [<- Hz]]. auto.
Qed.

Lemma NoDup_firstn {A} n (l : list A) : List.NoDup l -> List.NoDup (firstn n l).
Proof.
  intros H. rewrite <- (firstn_skipn n l) in H.
  exact (NoDup_app_remove_r _ _ H).
Qed.

(** On an array of distinct objects [indexOf] finds an element where it is. *)
Lemma indexOf_from_nth {A} (l : list (JS.obj A)) : forall i k x,
  List.NoDup (map JS.ref l) -> nth_error l k = Some x ->
  JS.indexOf_from i l x = i + Z.of_nat k.
Proof.
  induction l as [|y l IH]; intros i k x Hnd Hk; [now destruct k|].
  inversion Hnd as [|? ? Hy Hl]; subst. destruct k as [|k]; simpl in *.
  - injection Hk as ->. unfold JS.same. rewrite Nat.eqb_refl. lia.
  - unfold JS.same. destruct (Nat.eqb_spec (JS.ref y) (JS.ref x)) as [E|_].
    + exfalso. apply Hy. rewrite E. apply in_map. eapply nth_error_In, Hk.
    + rewrite (IH (i + 1) k x Hl Hk). lia.
Qed.

(** C8: with no usable cache entry, [getTopSessions(sessions, 'attendance',
    N)] for a limit [N >= 0] returns the first [N] elements of the stable
    descending sort of the sessions by [currentAttendance]: at most
    [min(N, sessions.length)] entries, sorted descending, sessions of equal
    attendance in their original order, no session id twice when the input
    has none twice, and each entry with its rank (its position, counted
    from 1, when the objects of the array are distinct) and percentile. *)
Theorem C8_top_sessions_by_attendance
    (data : SessionAnalytics.sessions_t) (N : Z) (t0 t0' : Z)
    (sa : SessionAnalytics.t) :
  0 <= N ->
  stale_or_absent
    (SessionAnalytics.timestamp
       <$> SessionAnalytics.cache sa !! SessionAnalytics.topSessions_key "attendance" N)
    (SessionAnalytics.cacheTimeout sa) t0 ->
  exists result sorted,
    fst (SessionAnalytics.getTopSessions data "attendance" N t0 t0' sa)
      = SessionAnalytics.TopSessions result
    /\ lengthZ result <= Z.min N (lengthZ data)
    /\ map SessionAnalytics.base result = map JS.val (firstn (Z.to_nat N) sorted)
    /\ Permutation sorted data
    /\ StronglySorted descending (map JS.val sorted)
    /\ (forall v,
          List.filter (fun o => Session.currentAttendance (JS.val o) =? v) sorted
          = List.filter (fun o => Session.currentAttendance (JS.val o) =? v) data)
    /\ StronglySorted descending (map SessionAnalytics.base result)
    /\ (List.NoDup (map (fun o => Session.id (JS.val o)) data) ->
        List.NoDup (map (fun e => Session.id (SessionAnalytics.base e)) result))
    /\ (List.NoDup (map JS.ref data) ->
        forall k e, nth_error result k = Some e ->
          SessionAnalytics.rank e = Z.of_nat k + 1
          /\ SessionAnalytics.percentile e
             = JS.round
                 (JS.mul
                    (JS.div (JS.of_Z (lengthZ data - Z.of_nat k))
                       (JS.of_Z (lengthZ data)))
                    (JS.of_Z 100))).
Proof.
  intros HN Hc.
  set (sorted := JS.sort_by (SessionAnalytics.compare_by "attendance") data).
  exists (SessionAnalytics.topSessions "attendance" N data), sorted.
  assert (Hperm : Permutation sorted data) by apply sort_by_perm.
  assert (Hsorted : StronglySorted descending (map JS.val sorted)).
  { apply StronglySorted_map.
    pose proof (sort_by_sorted _ attendance_key compare_by_attendance data) as H.
    fold sorted in H. eapply StronglySorted_weaken; [|exact H].
    unfold descending, attendance_key. simpl. intros; lia. }
  assert (Hbase : map SessionAnalytics.base
                    (SessionAnalytics.topSessions "attendance" N data)
                  = map JS.val (firstn (Z.to_nat N) sorted)).
  { unfold SessionAnalytics.topSessions.
    destruct data as [|o data']; [now destruct (Z.to_nat N)|].
    cbn [length Nat.eqb]. fold sorted. rewrite slice0_firstn by exact HN.
    rewrite map_map. reflexivity. }
  split; [now rewrite getTopSessions_first_call|].
  split.
  { unfold lengthZ. rewrite <- (length_map SessionAnalytics.base), Hbase.
    rewrite length_map, length_firstn, (Permutation_length Hperm). lia. }
  split; [exact Hbase|]. split; [exact Hperm|]. split; [exact Hsorted|].
  split.
  { intros v.
    pose proof (sort_by_stable _ attendance_key compare_by_attendance (- v) data)
      as H. fold sorted in H.
    assert (Hext : forall l : SessionAnalytics.sessions_t,
              List.filter (fun o => Session.currentAttendance (JS.val o) =? v) l
              = List.filter (fun a => attendance_key a =? - v) l).
    { intros l. apply List.filter_ext. intros o. unfold attendance_key.
      destruct (Z.eqb_spec (Session.currentAttendance (JS.val o)) v),
        (Z.eqb_spec (- Session.currentAttendance (JS.val o)) (- v));
        try reflexivity; lia. }
    now rewrite !Hext. }
  split.
  { rewrite Hbase, <- firstn_map. now apply StronglySorted_firstn. }
  split.
  { intros Hnd.
    rewrite <- (map_map SessionAnalytics.base Session.id), Hbase, map_map.
    rewrite <- firstn_map. apply NoDup_firstn.
    eapply Permutation_NoDup; [|exact Hnd].
    apply Permutation_map. now symmetry. }
  intros Hnd k e Hk.
  assert (Hnds : List.NoDup (map JS.ref sorted)).
  { eapply Permutation_NoDup; [|exact Hnd]. apply Permutation_map. now symmetry. }
  unfold SessionAnalytics.topSessions in Hk.
  destruct data as [|o data']; [now destruct k|].
  cbn [length Nat.eqb] in Hk. fold sorted in Hk.
  rewrite slice0_firstn in Hk by exact HN.
  rewrite nth_error_map in Hk.
  destruct (nth_error (firstn (Z.to_nat N) sorted) k) as [x|] eqn:Hx;
    [|discriminate].
  injection Hk as <-. cbn [SessionAnalytics.rank SessionAnalytics.percentile].
  rewrite nth_error_firstn in Hx. destruct (k <? Z.to_nat N)%nat; [|discriminate].
  unfold JS.indexOf. rewrite (indexOf_from_nth sorted 0 k x Hnds Hx).
  split; [lia|]. repeat f_equal.
Qed.

Lemma C8_top_sessions_by_attendance_witness :
  exists result,
    fst (SessionAnalytics.getTopSessions Sample.three_rooms "attendance" 2 0 0
           SessionAnalytics.constructor)
      = SessionAnalytics.TopSessions result
    /\ map (fun e => Session.id (SessionAnalytics.base e)) result
       = ["session-2"; "session-1"]%string.
Proof.
  destruct (C8_top_sessions_by_attendance Sample.three_rooms 2 0 0
              SessionAnalytics.constructor ltac:(lia) I)
    as [result [sorted [H _]]].
  exists result. split; [exact H|].
  rewrite getTopSessions_first_call in H by exact I.
  injection H as <-. reflexivity.
Defined.

(** ** Draws leave the oracle in place *)

Create HintDb keeps.

Lemma keeps_ret {A} (a : A) : keeps_oracle (Rand.ret a).
Proof. intros g. reflexivity. Qed.

Lemma keeps_random : keeps_oracle Rand.random.
Proof. intros g. reflexivity. Qed.

Lemma keeps_bind {A B} (c : Rand.M A) (k : A -> Rand.M B) :
  keeps_oracle c -> (forall a, keeps_oracle (k a)) -> keeps_oracle (Rand.bind c k).
Proof.
  intros Hc Hk g. unfold Rand.bind. specialize (Hc g).
  destruct (c g) as [a g']. simpl in Hc. rewrite <- Hc. apply Hk.
Qed.

Lemma keeps_mapM {A B} (f : A -> Rand.M B) l :
  (forall a, keeps_oracle (f a)) -> keeps_oracle (Rand.mapM f l).
Proof.
  intros Hf. induction l as [|a l IH]; simpl.
  - apply keeps_ret.
  - apply keeps_bind; [apply Hf|]. intros b.
    apply keeps_bind; [exact IH|]. intros bs. apply keeps_ret.
Qed.

Lemma keeps_foldM {A S} (f : S -> A -> Rand.M S) l :
  (forall s a, keeps_oracle (f s a)) -> forall s, keeps_oracle (Rand.foldM f l s).
Proof.
  intros Hf. induction l as [|a l IH]; intros s; simpl.
  - apply keeps_ret.
  - apply keeps_bind; [apply Hf | exact IH].
Qed.

Ltac keeps :=
  repeat
    match goal with
    | |- keeps_oracle (Rand.ret _) => apply keeps_ret
    | |- keeps_oracle Rand.random => apply keeps_random
    | |- keeps_oracle (Rand.bind _ _) => apply keeps_bind; [|intros]
    | |- keeps_oracle (Rand.mapM _ _) => apply keeps_mapM; intros
    | |- keeps_oracle (Rand.foldM _ _ _) => apply keeps_foldM; intros
    | |- keeps_oracle (if ?b then _ else _) => destruct b
    | |- keeps_oracle (match ?x with _ => _ end) => destruct x
    | |- keeps_oracle (let _ := _ in _) => progress cbv zeta
    | |- keeps_oracle _ => solve [auto with keeps]
    end.

Lemma keeps_pick l : keeps_oracle (Generator.pick l).
Proof. unfold Generator.pick. keeps. Qed.
#[export] Hint Resolve keeps_pick : keeps.

Lemma keeps_sub_rating : keeps_oracle Generator.sub_rating.
Proof. unfold Generator.sub_rating. keeps. Qed.
#[export] Hint Resolve keeps_sub_rating : keeps.

Lemma keeps_generateSession id index :
  keeps_oracle (Generator.generateSession id index).
Proof. unfold Generator.generateSession. keeps. Qed.
#[export] Hint Resolve keeps_generateSession : keeps.

Lemma keeps_generateSpeaker id name :
  keeps_oracle (Generator.generateSpeaker id name).
Proof. unfold Generator.generateSpeaker. keeps. Qed.
#[export] Hint Resolve keeps_generateSpeaker : keeps.

Lemma keeps_generateAttendee now id :
  keeps_oracle (Generator.generateAttendee now id).
Proof. unfold Generator.generateAttendee. keeps. Qed.
#[export] Hint Resolve keeps_generateAttendee : keeps.

Lemma keeps_generateFeedback now a b c :
  keeps_oracle (Generator.generateFeedback now a b c).
Proof. unfold Generator.generateFeedback. keeps. Qed.
#[export] Hint Resolve keeps_generateFeedback : keeps.

Lemma keeps_register_one now sessions a b st j :
  keeps_oracle (Generator.register_one now sessions a b st j).
Proof. unfold Generator.register_one. keeps. Qed.
#[export] Hint Resolve keeps_register_one : keeps.

Lemma keeps_generate_registered_attendee now sessions acc i :
  keeps_oracle (Generator.generate_registered_attendee now sessions acc i).
Proof. unfold Generator.generate_registered_attendee. keeps. Qed.
#[export] Hint Resolve keeps_generate_registered_attendee : keeps.

Lemma keeps_generateInitialData now :
  keeps_oracle (Generator.generateInitialData now).
Proof. unfold Generator.generateInitialData. keeps. Qed.
#[export] Hint Resolve keeps_generateInitialData : keeps.

Lemma keeps_attendance_step s : keeps_oracle (Simulator.attendance_step s).
Proof. unfold Simulator.attendance_step. keeps. Qed.
#[export] Hint Resolve keeps_attendance_step : keeps.

Lemma keeps_engagement_step s : keeps_oracle (Simulator.engagement_step s).
Proof. unfold Simulator.engagement_step. keeps. Qed.
#[export] Hint Resolve keeps_engagement_step : keeps.

Lemma keeps_simulateAttendanceChange d :
  keeps_oracle (Simulator.simulateAttendanceChange d).
Proof. unfold Simulator.simulateAttendanceChange. keeps. Qed.
#[export] Hint Resolve keeps_simulateAttendanceChange : keeps.

Lemma keeps_simulateEngagementFluctuation d :
  keeps_oracle (Simulator.simulateEngagementFluctuation d).
Proof. unfold Simulator.simulateEngagementFluctuation. keeps. Qed.
#[export] Hint Resolve keeps_simulateEngagementFluctuation : keeps.

Lemma keeps_simulateNewFeedback now d :
  keeps_oracle (Simulator.simulateNewFeedback now d).
Proof. unfold Simulator.simulateNewFeedback. keeps. Qed.
#[export] Hint Resolve keeps_simulateNewFeedback : keeps.

Lemma keeps_simulateNewAttendee now d :
  keeps_oracle (Simulator.simulateNewAttendee now d).
Proof. unfold Simulator.simulateNewAttendee. keeps. Qed.
#[export] Hint Resolve keeps_simulateNewAttendee : keeps.

Lemma keeps_mutate c d : keeps_oracle (Simulator.mutate c d).
Proof. unfold Simulator.mutate. keeps. Qed.
#[export] Hint Resolve keeps_mutate : keeps.

Lemma keeps_step raises o s : keeps_oracle (Simulator.step raises o s).
Proof.
  unfold Simulator.step, Simulator.reset, Simulator.fresh_data,
    Simulator.performUpdate.
  keeps.
Qed.
#[export] Hint Resolve keeps_step : keeps.

Lemma keeps_run_ops raises ops s : keeps_oracle (Simulator.run_ops raises ops s).
Proof. unfold Simulator.run_ops. keeps. Qed.
#[export] Hint Resolve keeps_run_ops : keeps.

Lemma keeps_constructor t : keeps_oracle (Simulator.constructor t).
Proof. unfold Simulator.constructor. keeps. Qed.
#[export] Hint Resolve keeps_constructor : keeps.

Lemma in_range_after {A} (c : Rand.M A) g :
  keeps_oracle c -> Rand.in_range g -> Rand.in_range (snd (c g)).
Proof. intros Hc. apply in_range_oracle, Hc. Qed.

(** ** Loops that draw *)

Section Loops.
Context {A B S : Type}.

(** A property of the oracle state that the loop bodies maintain. *)
Variable G : Rand.rng -> Prop.

Lemma mapM_Forall2 (f : A -> Rand.M B) (R : A -> B -> Prop) l :
  (forall a g, G g -> G (snd (f a g))) ->
  (forall a g, G g -> R a (fst (f a g))) ->
  forall g, G g -> Forall2 R l (fst (Rand.mapM f l g)).
Proof.
  intros Hk Hf. induction l as [|a l IH]; intros g Hg; [constructor|].
  cbn [Rand.mapM]. unfold Rand.bind at 1.
  pose proof (Hf a g Hg) as Ha. pose proof (Hk a g Hg) as Hg'.
  destruct (f a g) as [b g']. cbn [fst snd] in *.
  unfold Rand.bind. specialize (IH g' Hg').
  destruct (Rand.mapM f l g') as [bs g'']. cbn [fst] in *.
  now constructor.
Qed.

Lemma mapM_all (f : A -> Rand.M B) (P : B -> Prop) l :
  (forall a g, G g -> G (snd (f a g))) ->
  (forall a g, G g -> P (fst (f a g))) ->
  forall g, G g -> Forall P (fst (Rand.mapM f l g)).
Proof.
  intros Hk Hf g Hg.
  pose proof (mapM_Forall2 f (fun _ b => P b) l Hk Hf g Hg) as H2.
  induction H2; constructor; auto.
Qed.

Lemma foldM_invariant (f : S -> A -> Rand.M S) (I : S -> Prop)
    (Q : A -> Prop) l :
  (forall s a g, G g -> G (snd (f s a g))) ->
  (forall s a g, Q a -> G g -> I s -> I (fst (f s a g))) ->
  Forall Q l ->
  forall s g, G g -> I s -> I (fst (Rand.foldM f l s g)).
Proof.
  intros Hk Hf HQ. induction HQ as [|a l Ha _ IH]; intros s g Hg Hs; [exact Hs|].
  cbn [Rand.foldM]. unfold Rand.bind.
  pose proof (Hf s a g Ha Hg Hs) as Hs'. pose proof (Hk s a g Hg) as Hg'.
  destruct (f s a g) as [s' g']. now apply IH.
Qed.

End Loops.

(** ** Attendance stays within capacity *)

Lemma Qfloor_nonneg q : (0 <= q)%Q -> 0 <= Qfloor q.
Proof. intros H. apply (Qfloor_resp_le 0 q) in H. exact H. Qed.

Lemma Qfloor_le_Z q z : (q <= inject_Z z)%Q -> Qfloor q <= z.
Proof.
  intros H. apply Qfloor_resp_le in H. now rewrite Qfloor_Z in H.
Qed.

Lemma inject_Z_nonneg z : 0 <= z -> (0 <= inject_Z z)%Q.
Proof. intros H. change 0%Q with (inject_Z 0). now rewrite <- Zle_Qle. Qed.

Lemma floor_scaled_nonneg r n : (0 <= r)%Q -> 0 <= n -> 0 <= JS.floor_scaled r n.
Proof.
  intros Hr Hn. apply Qfloor_nonneg, Qmult_le_0_compat;
    [exact Hr | now apply inject_Z_nonneg].
Qed.

(** [Math.floor(capacity * f)] for a fraction [f] of the capacity. *)
Lemma floor_fraction cap f :
  0 <= cap -> (0 <= f)%Q -> (f <= 1)%Q ->
  0 <= Qfloor (inject_Z cap * f) <= cap.
Proof.
  intros Hc H0 H1. pose proof (inject_Z_nonneg cap Hc) as Hq. split.
  - apply Qfloor_nonneg. now apply Qmult_le_0_compat.
  - apply Qfloor_le_Z.
    apply Qle_trans with (1 * inject_Z cap)%Q; [|rewrite Qmult_1_l; apply Qle_refl].
    rewrite (Qmult_comm (inject_Z cap) f).
    now apply Qmult_le_compat_r.
Qed.

Lemma generateSession_attendance id index g :
  Rand.in_range g ->
  attendance_ok (fst (Generator.generateSession id index g)).
Proof.
  intros Hg. unfold attendance_ok, Generator.generateSession, Generator.pick,
    Rand.bind, Rand.random, Rand.ret.
  cbn [fst snd Session.currentAttendance Session.capacity Rand.oracle Rand.drawn].
  destruct (Hg (Rand.drawn g)) as [Ha _].
  destruct (Hg (S (Rand.drawn g))) as [Hb Hb'].
  pose proof (floor_scaled_nonneg _ 150 Ha ltac:(lia)).
  apply floor_fraction; [lia | lra | lra].
Qed.

Lemma generator_attendance now g :
  Rand.in_range g ->
  Forall attendance_ok (Dataset.sessions (fst (Generator.generateInitialData now g))).
Proof.
  intros Hg. unfold Generator.generateInitialData.
  unfold Rand.bind at 1.
  pose proof (mapM_all Rand.in_range
                (fun i => Generator.generateSession (Z.of_nat i + 1) (Z.of_nat i))
                attendance_ok (seq 0 15)
                (fun i g => in_range_after _ g (keeps_generateSession _ _))
                (fun i g Hg => generateSession_attendance _ _ g Hg) g Hg) as H.
  destruct (Rand.mapM _ (seq 0 15) g) as [sessions g1]. cbn [fst] in H.
  unfold Rand.bind at 1. destruct (Rand.mapM _ _ g1) as [speakers g2].
  unfold Rand.bind. destruct (Rand.foldM _ _ _ g2) as [[attendees feedback] g3].
  cbn [fst Rand.ret Dataset.sessions].
  apply Forall_map. eapply Forall_impl; [exact H|].
  intros s Hs. exact Hs.
Qed.

(** ** What a tick does to the sessions *)

Lemma Forall2_same {A} (R : A -> A -> Prop) l :
  (forall a, R a a) -> Forall2 R l l.
Proof. intros H. induction l; constructor; auto. Qed.

Lemma Forall2_compose {A} (R : A -> A -> Prop) l1 l2 l3 :
  (forall a b c, R a b -> R b c -> R a c) ->
  Forall2 R l1 l2 -> Forall2 R l2 l3 -> Forall2 R l1 l3.
Proof.
  intros HR H12. revert l3. induction H12 as [|a b l1 l2 Hab _ IH];
    intros l3 H23; inversion H23; subst; constructor; eauto.
Qed.

Lemma update_kth_Forall2 {A} (R : A -> A -> Prop) p f (l : list A) :
  (forall a, R a a) -> (forall a, R a (f a)) ->
  forall k, Forall2 R l (Simulator.update_kth p k f l).
Proof.
  intros Hr Hf. induction l as [|x l IH]; intros k; simpl; [constructor|].
  destruct (p x); [destruct k|]; constructor; auto using Forall2_same.
Qed.

Section Evolution.

(** A relation between a session before and after, and a property of the
    oracle, such that every single mutation of the passes respects the
    relation. *)
Variable R : Session.t -> Session.t -> Prop.
Variable G : Rand.rng -> Prop.
Hypothesis G_oracle : forall g g', Rand.oracle g' = Rand.oracle g -> G g -> G g'.
Hypothesis R_refl : forall s, R s s.
Hypothesis R_trans : forall a b c, R a b -> R b c -> R a c.
Hypothesis R_attendance :
  forall s g, G g -> R s (fst (Simulator.attendance_step s g)).
Hypothesis R_engagement : forall s v, R s (Session.set_engagement v s).
Hypothesis R_feedback : forall s v, R s (Session.set_feedback v s).
Hypothesis R_status : forall h m s, R s (Simulator.status_step h m s).

Let G_after {A} (c : Rand.M A) g : keeps_oracle c -> G g -> G (snd (c g)).
Proof. intros Hc. apply G_oracle, Hc. Qed.

Lemma attendance_pass_evolves d g :
  G g ->
  Forall2 R (Dataset.sessions d)
    (Dataset.sessions (fst (Simulator.simulateAttendanceChange d g))).
Proof.
  intros Hg. unfold Simulator.simulateAttendanceChange, Rand.bind.
  match goal with
  | |- context [Rand.mapM ?f ?l g] =>
      assert (H : Forall2 R l (fst (Rand.mapM f l g)));
        [apply (mapM_Forall2 G); [| |exact Hg] | destruct (Rand.mapM f l g)]
  end.
  - intros a g0 Hg0. apply G_after; [|exact Hg0].
    destruct (Session.has_status active a); keeps.
  - intros a g0 Hg0. destruct (Session.has_status active a); auto.
  - exact H.
Qed.

Lemma engagement_pass_evolves d g :
  G g ->
  Forall2 R (Dataset.sessions d)
    (Dataset.sessions (fst (Simulator.simulateEngagementFluctuation d g))).
Proof.
  intros Hg. unfold Simulator.simulateEngagementFluctuation, Rand.bind.
  match goal with
  | |- context [Rand.mapM ?f ?l g] =>
      assert (H : Forall2 R l (fst (Rand.mapM f l g)));
        [apply (mapM_Forall2 G); [| |exact Hg] | destruct (Rand.mapM f l g)]
  end.
  - intros a g0 Hg0. apply G_after; [keeps|exact Hg0].
  - intros a g0 Hg0. unfold Simulator.engagement_step.
    destruct (Session.has_status active a); [|apply R_refl].
    unfold Rand.bind, Rand.random, Rand.ret. cbn [fst]. apply R_engagement.
  - exact H.
Qed.

Lemma feedback_pass_evolves now d g :
  Forall2 R (Dataset.sessions d)
    (Dataset.sessions (fst (Simulator.simulateNewFeedback now d g))).
Proof.
  unfold Simulator.simulateNewFeedback, Generator.sub_rating, Generator.pick,
    Rand.bind, Rand.random, Rand.ret.
  cbn [fst snd Rand.oracle Rand.drawn].
  repeat match goal with
         | |- context [if ?b then _ else _] => destruct b
         | |- context [match ?x with Some _ => _ | None => _ end] => destruct x
         end;
    cbn [fst Dataset.sessions];
    try apply Forall2_same; auto.
  apply update_kth_Forall2; auto.
Qed.

Lemma status_pass_evolves c d :
  Forall2 R (Dataset.sessions d)
    (Dataset.sessions (Simulator.simulateSessionStatusChange c d)).
Proof.
  unfold Simulator.simulateSessionStatusChange. cbn [Dataset.sessions
    Simulator.with_metrics Simulator.with_sessions].
  induction (Dataset.sessions d); simpl; constructor; auto.
Qed.

Lemma attendee_pass_sessions now d g :
  Dataset.sessions (fst (Simulator.simulateNewAttendee now d g))
  = Dataset.sessions d.
Proof.
  unfold Simulator.simulateNewAttendee, Rand.bind, Rand.random, Rand.ret.
  cbn [fst snd Rand.oracle Rand.drawn].
  repeat match goal with
         | |- context [if ?b then _ else _] => destruct b
         | |- context [match ?x with Some _ => _ | None => _ end] => destruct x
         end; reflexivity.
Qed.

Lemma mutate_evolves c d g :
  G g ->
  Forall2 R (Dataset.sessions d) (Dataset.sessions (fst (Simulator.mutate c d g))).
Proof.
  intros Hg. unfold Simulator.mutate.
  unfold Rand.bind at 1.
  pose proof (attendance_pass_evolves d g Hg) as H1.
  pose proof (G_after _ g (keeps_simulateAttendanceChange d) Hg) as Hg1.
  destruct (Simulator.simulateAttendanceChange d g) as [d1 g1]. cbn [fst snd] in *.
  unfold Rand.bind at 1.
  pose proof (engagement_pass_evolves d1 g1 Hg1) as H2.
  destruct (Simulator.simulateEngagementFluctuation d1 g1) as [d2 g2].
  cbn [fst snd] in *. unfold Rand.bind.
  pose proof (feedback_pass_evolves (Simulator.now c) d2 g2) as H3.
  destruct (Simulator.simulateNewFeedback (Simulator.now c) d2 g2) as [d3 g3].
  cbn [fst] in *. rewrite attendee_pass_sessions.
  pose proof (status_pass_evolves c d3) as H4.
  eauto using Forall2_compose.
Qed.

Lemma step_evolves raises o s g :
  is_reset o = false -> G g ->
  Forall2 R (Dataset.sessions (Simulator.content s))
    (Dataset.sessions (Simulator.content (fst (Simulator.step raises o s g)))).
Proof.
  intros Ho Hg. destruct o as [cb|cb|ms| |c|c]; try discriminate;
    cbn [Simulator.step Rand.ret fst].
  - unfold Simulator.subscribe, Simulator.invoke. cbn.
    destruct (raises cb (Simulator.data s)); apply Forall2_same, R_refl.
  - apply Forall2_same, R_refl.
  - unfold Simulator.start. destruct (Simulator.isRunning s);
      apply Forall2_same, R_refl.
  - unfold Simulator.stop. destruct (negb (Simulator.isRunning s));
      apply Forall2_same, R_refl.
  - destruct (Simulator.updateInterval s); [|apply Forall2_same, R_refl].
    destruct (performUpdate_spec raises c s g) as [_ [Hk _]].
    unfold core in Hk. injection Hk as _ Hc _ _ _ _. rewrite Hc.
    now apply mutate_evolves.
Qed.

End Evolution.

(** *** Two instances: status order, attendance bounds *)

Lemma forward_refl s : forward s s.
Proof. split; [reflexivity | lia]. Qed.

Lemma forward_same a b :
  Session.id b = Session.id a -> Session.status_ b = Session.status_ a ->
  forward a b.
Proof. intros Hi Hs. split; [exact Hi | rewrite Hs; lia]. Qed.

Lemma forward_trans a b c : forward a b -> forward b c -> forward a c.
Proof. intros [H1 H2] [H3 H4]. split; [congruence | lia]. Qed.

Lemma attendance_step_fields s g :
  let s' := fst (Simulator.attendance_step s g) in
  Session.id s' = Session.id s
  /\ Session.status_ s' = Session.status_ s
  /\ Session.capacity s' = Session.capacity s
  /\ (Rand.in_range g -> attendance_ok s -> attendance_ok s').
Proof.
  unfold Simulator.attendance_step, Rand.bind, Rand.random, Rand.ret, attendance_ok.
  cbn [fst snd Rand.oracle Rand.drawn].
  destruct (Qltb _ (3 # 5)); [|destruct (Qltb _ (4 # 5))];
    cbn [fst snd Session.id Session.status_ Session.capacity
         Session.currentAttendance Session.set_attendanceRate
         Session.set_currentAttendance Session.assign Rand.oracle Rand.drawn];
    (split; [reflexivity|]); (split; [reflexivity|]); (split; [reflexivity|]);
    intros Hg Hs; try exact Hs;
    destruct (Hg (S (Rand.drawn g))) as [Hr _].
  - pose proof (floor_scaled_nonneg _
                  (Z.min 5 (Session.capacity s - Session.currentAttendance s))
                  Hr ltac:(lia)).
    lia.
  - pose proof (floor_scaled_nonneg _ (Z.min 3 (Session.currentAttendance s))
                  Hr ltac:(lia)).
    lia.
Qed.

Lemma status_step_forward h m s : forward s (Simulator.status_step h m s).
Proof.
  unfold Simulator.status_step, forward.
  destruct (Session.status_ s) eqn:E;
    [destruct (Qle_bool _ _) | destruct (Qle_bool _ _) |];
    simpl; rewrite ?E; simpl; split; reflexivity || lia.
Qed.

Lemma status_step_attendance h m s :
  attendance_ok s -> attendance_ok (Simulator.status_step h m s).
Proof.
  unfold Simulator.status_step, attendance_ok. intros Hs.
  destruct (Session.status_ s);
    [destruct (Qle_bool _ _) | destruct (Qle_bool _ _) |];
    cbn [Session.currentAttendance Session.capacity Session.set_attendanceRate
         Session.set_currentAttendance Session.set_status Session.assign];
    try exact Hs.
  apply floor_fraction; [lia | discriminate | discriminate].
Qed.

Lemma mutate_forward c d g :
  Forall2 forward (Dataset.sessions d)
    (Dataset.sessions (fst (Simulator.mutate c d g))).
Proof.
  apply (mutate_evolves forward (fun _ => True)); auto using forward_refl.
  - exact forward_trans.
  - intros s g0 _. destruct (attendance_step_fields s g0) as [Hi [Hs _]].
    split; [exact Hi | rewrite Hs; lia].
  - intros s v. now apply forward_same.
  - intros s v. now apply forward_same.
  - exact status_step_forward.
Qed.

Lemma step_forward raises o s g :
  is_reset o = false ->
  Forall2 forward (Dataset.sessions (Simulator.content s))
    (Dataset.sessions (Simulator.content (fst (Simulator.step raises o s g)))).
Proof.
  intros Ho.
  apply (step_evolves forward (fun _ => True)); auto using forward_refl.
  - exact forward_trans.
  - intros s0 g0 _. destruct (attendance_step_fields s0 g0) as [Hi [Hs _]].
    split; [exact Hi | rewrite Hs; lia].
  - intros s0 v. now apply forward_same.
  - intros s0 v. now apply forward_same.
  - exact status_step_forward.
Qed.

Lemma step_attendance raises o s g :
  is_reset o = false -> Rand.in_range g ->
  Forall attendance_ok (Dataset.sessions (Simulator.content s)) ->
  Forall attendance_ok
    (Dataset.sessions (Simulator.content (fst (Simulator.step raises o s g)))).
Proof.
  intros Ho Hg Hs.
  assert (H2 : Forall2 (fun a b => attendance_ok a -> attendance_ok b)
                 (Dataset.sessions (Simulator.content s))
                 (Dataset.sessions
                    (Simulator.content (fst (Simulator.step raises o s g))))).
  { apply (step_evolves _ Rand.in_range); auto.
    - intros g1 g2. apply in_range_oracle.
    - intros s0 g0 Hg0. now apply attendance_step_fields.
    - intros h m s0. apply status_step_attendance. }
  induction H2 as [|a b l l' Hab _ IH]; [constructor|].
  inversion Hs; subst. constructor; auto.
Qed.

Lemma mutate_attendance c d g :
  Rand.in_range g ->
  Forall attendance_ok (Dataset.sessions d) ->
  Forall attendance_ok (Dataset.sessions (fst (Simulator.mutate c d g))).
Proof.
  intros Hg Hs.
  assert (H2 : Forall2 (fun a b => attendance_ok a -> attendance_ok b)
                 (Dataset.sessions d)
                 (Dataset.sessions (fst (Simulator.mutate c d g)))).
  { apply (mutate_evolves _ Rand.in_range); auto.
    - intros g1 g2. apply in_range_oracle.
    - intros s0 g0 Hg0. now apply attendance_step_fields.
    - intros h m s0. apply status_step_attendance. }
  induction H2 as [|a b l l' Hab _ IH]; [constructor|].
  inversion Hs; subst. constructor; auto.
Qed.

Lemma reset_content raises c s g :
  Simulator.content (fst (Simulator.reset raises c s g))
  = fst (Generator.generateInitialData (Simulator.now c) g).
Proof.
  unfold Simulator.reset, Simulator.fresh_data, Rand.bind.
  destruct (Generator.generateInitialData (Simulator.now c) g) as [d g'].
  unfold Rand.ret. cbn [fst].
  match goal with
  | |- context [Simulator.notifySubscribers raises ?t ?s1] =>
      destruct (notifySubscribers_spec raises t s1) as [_ [Hk _]]
  end.
  unfold core in Hk. injection Hk as _ Hc _ _ _ _. exact Hc.
Qed.

Lemma constructor_content t g :
  Simulator.content (fst (Simulator.constructor t g))
  = fst (Generator.generateInitialData t g).
Proof.
  unfold Simulator.constructor, Rand.bind.
  destruct (Generator.generateInitialData t g). reflexivity.
Qed.

Lemma no_reset_Forall ops :
  existsb is_reset ops = false -> Forall (fun o => is_reset o = false) ops.
Proof.
  induction ops as [|o ops IH]; simpl; [constructor|].
  intros H. apply orb_false_iff in H. destruct H. constructor; auto.
Qed.

Lemma run_bind {A B} (c : Rand.M A) (k : A -> Rand.M B) g :
  fst (Rand.bind c k g) = fst (k (fst (c g)) (snd (c g))).
Proof. unfold Rand.bind. now destruct (c g). Qed.

Lemma constructor_fst t g :
  Simulator.content (fst (Simulator.constructor t g))
  = fst (Generator.generateInitialData t g).
Proof. exact (constructor_content t g). Qed.

Lemma run_ops_attendance raises ops : forall s g,
  Rand.in_range g ->
  Forall attendance_ok (Dataset.sessions (Simulator.content s)) ->
  Forall attendance_ok
    (Dataset.sessions (Simulator.content (fst (Simulator.run_ops raises ops s g)))).
Proof.
  unfold Simulator.run_ops.
  induction ops as [|o ops IH]; intros s g Hg Hs; [exact Hs|].
  cbn [Rand.foldM]. unfold Rand.bind.
  assert (Hs' : Forall attendance_ok
                  (Dataset.sessions
                     (Simulator.content (fst (Simulator.step raises o s g))))).
  { destruct (is_reset o) eqn:Ho.
    - destruct o; try discriminate. cbn [Simulator.step].
      rewrite reset_content. exact (generator_attendance _ g Hg).
    - exact (step_attendance raises o s g Ho Hg Hs). }
  pose proof (in_range_after _ g (keeps_step raises o s) Hg) as Hg'.
  destruct (Simulator.step raises o s g) as [s' g']. now apply IH.
Qed.

(** C5: [0 <= currentAttendance <= capacity] holds of every session the
    generator returns; every tick's passes preserve it; hence it holds of
    every session of a simulator after any sequence of operations. *)
Theorem C5_attendance_within_capacity
    (raises : Simulator.callback -> Simulator.DataObj.t -> bool)
    (t : Z) (ops : list Simulator.op) (g : Rand.rng) :
  Rand.in_range g ->
  Forall attendance_ok
    (Dataset.sessions (fst (Generator.generateInitialData t g)))
  /\ (forall c d,
        Forall attendance_ok (Dataset.sessions d) ->
        Forall attendance_ok (Dataset.sessions (fst (Simulator.mutate c d g))))
  /\ Forall attendance_ok
       (Dataset.sessions
          (Simulator.content
             (fst (Rand.bind (Simulator.constructor t)
                     (Simulator.run_ops raises ops) g)))).
Proof.
  intros Hg. split; [exact (generator_attendance t g Hg)|].
  split; [intros c d; exact (mutate_attendance c d g Hg)|].
  rewrite run_bind. apply run_ops_attendance.
  - apply in_range_after; [apply keeps_constructor | exact Hg].
  - rewrite constructor_fst. exact (generator_attendance t g Hg).
Qed.

Lemma C5_attendance_within_capacity_witness :
  Forall attendance_ok
    (Dataset.sessions
       (fst (Generator.generateInitialData 0 (Sample.constant (1 # 2))))).
Proof.
  refine (proj1 (C5_attendance_within_capacity quiet 0 Sample.one_tick
                   (Sample.constant (1 # 2)) _)).
  intros n. split; [discriminate | reflexivity].
Defined.

(** ** Session status *)

Lemma run_ops_forward raises ops : forall s g,
  existsb is_reset ops = false ->
  Forall2 forward (Dataset.sessions (Simulator.content s))
    (Dataset.sessions (Simulator.content (fst (Simulator.run_ops raises ops s g)))).
Proof.
  unfold Simulator.run_ops.
  induction ops as [|o ops IH]; intros s g Hr.
  - apply Forall2_same, forward_refl.
  - cbn [existsb] in Hr. apply orb_false_iff in Hr. destruct Hr as [Ho Hr].
    cbn [Rand.foldM]. unfold Rand.bind.
    pose proof (step_forward raises o s g Ho) as H1.
    destruct (Simulator.step raises o s g) as [s' g']. cbn [fst] in H1.
    eapply Forall2_compose; [exact forward_trans | exact H1 | now apply IH].
Qed.

Lemma generateSession_status id index g :
  Session.status_ (fst (Generator.generateSession id index g))
  = Generator.status_of_index index.
Proof.
  unfold Generator.generateSession, Generator.pick, Rand.bind, Rand.random,
    Rand.ret.
  reflexivity.
Qed.

Lemma Forall2_map_eq {A B C} (p : B -> C) (h : A -> C) l l' :
  Forall2 (fun a b => p b = h a) l l' -> map p l' = map h l.
Proof. induction 1; simpl; congruence. Qed.

Lemma generator_statuses now g :
  map Session.status_
    (Dataset.sessions (fst (Generator.generateInitialData now g)))
  = map (fun i => Generator.status_of_index (Z.of_nat i)) (seq 0 15).
Proof.
  unfold Generator.generateInitialData.
  unfold Rand.bind at 1.
  pose proof (mapM_Forall2 (fun _ => True)
                (fun i => Generator.generateSession (Z.of_nat i + 1) (Z.of_nat i))
                (fun i s => Session.status_ s = Generator.status_of_index (Z.of_nat i))
                (seq 0 15) (fun _ _ _ => I)
                (fun i g _ => generateSession_status _ _ g) g I) as H.
  destruct (Rand.mapM _ (seq 0 15) g) as [sessions g1]. cbn [fst] in H.
  unfold Rand.bind at 1. destruct (Rand.mapM _ _ g1) as [speakers g2].
  unfold Rand.bind. destruct (Rand.foldM _ _ _ g2) as [[attendees feedback] g3].
  cbn [fst Rand.ret Dataset.sessions]. rewrite map_map.
  exact (Forall2_map_eq Session.status_ _ _ _ H).
Qed.

(** C6: over any sequence of operations other than [reset] - ticks,
    subscriptions, starting and stopping the timer - every session keeps its
    place and its id, and its status stays or moves forward along
    upcoming, active, completed: a completed session stays completed and
    none returns to upcoming. [reset] replaces the sessions by the
    generator's, the last seven of which are upcoming. *)
Theorem C6_status_moves_forward
    (raises : Simulator.callback -> Simulator.DataObj.t -> bool)
    (ops : list Simulator.op) (s : Simulator.t) (g : Rand.rng) :
  existsb is_reset ops = false ->
  Forall2 forward (Dataset.sessions (Simulator.content s))
    (Dataset.sessions (Simulator.content (fst (Simulator.run_ops raises ops s g))))
  /\ (forall c d,
        Forall2 forward (Dataset.sessions d)
          (Dataset.sessions (fst (Simulator.mutate c d g))))
  /\ (forall c,
        map Session.status_
          (Dataset.sessions
             (Simulator.content (fst (Simulator.reset raises c s g))))
        = [completed; completed; completed; completed;
           active; active; active; active;
           upcoming; upcoming; upcoming; upcoming; upcoming; upcoming;
           upcoming]).
Proof.
  intros Hr. split; [now apply run_ops_forward|].
  split; [intros c d; apply mutate_forward|].
  intros c. rewrite reset_content, generator_statuses. reflexivity.
Qed.

Lemma C6_status_moves_forward_witness :
  Forall2 forward (Dataset.sessions (Simulator.content Sample.idle))
    (Dataset.sessions
       (Simulator.content
          (fst (Simulator.run_ops quiet Sample.one_tick Sample.idle
                  (Sample.constant 0))))).
Proof.
  refine (proj1 (C6_status_moves_forward quiet Sample.one_tick Sample.idle
                   (Sample.constant 0) _)).
  reflexivity.
Defined.

(** ** Registrations *)

Lemma floor_scaled_lt r n :
  (0 <= r)%Q -> (r < 1)%Q -> 0 < n -> 0 <= JS.floor_scaled r n < n.
Proof.
  intros H0 H1 Hn. split; [apply floor_scaled_nonneg; [exact H0 | lia]|].
  unfold JS.floor_scaled.
  assert (Hq : (0 < inject_Z n)%Q).
  { change 0%Q with (inject_Z 0). now rewrite <- Zlt_Qlt. }
  assert (Hlt : (r * inject_Z n < inject_Z n)%Q).
  { rewrite <- (Qmult_1_l (inject_Z n)) at 2. now apply Qmult_lt_compat_r. }
  pose proof (Qfloor_le (r * inject_Z n)) as Hf.
  rewrite Zlt_Qlt. eapply Qle_lt_trans; [exact Hf | exact Hlt].
Qed.

Lemma includes_false l s : JS.includes l s = false -> ~ In s l.
Proof.
  unfold JS.includes. intros H Hin.
  assert (existsb (String.eqb s) l = true); [|congruence].
  apply existsb_exists. exists s. split; [exact Hin | apply String.eqb_refl].
Qed.

Lemma NoDup_snoc {A} (l : list A) x :
  List.NoDup l -> ~ In x l -> List.NoDup (l ++ [x]).
Proof.
  intros Hl Hx. apply List.NoDup_app; [exact Hl | repeat constructor; intros [] |].
  intros a Ha [<-|[]]. contradiction.
Qed.

Lemma register_one_spec now sessions aid an st j g :
  let st' := fst (Generator.register_one now sessions aid an st j g) in
  (Generator.registered st = Generator.selectedSessions st ->
   Generator.registered st' = Generator.selectedSessions st')
  /\ (List.NoDup (Generator.selectedSessions st) ->
      List.NoDup (Generator.selectedSessions st'))
  /\ (length (Generator.selectedSessions st)
      <= length (Generator.selectedSessions st')
      <= S (length (Generator.selectedSessions st)))%nat
  /\ (Rand.in_range g -> sessions <> [] -> Generator.selectedSessions st = [] ->
      length (Generator.selectedSessions st') = 1%nat).
Proof.
  unfold Generator.register_one, Rand.bind, Rand.random.
  cbn [fst snd Rand.oracle Rand.drawn].
  set (r := Rand.oracle g (Rand.drawn g)).
  destruct (sessions !! Z.to_nat (JS.floor_scaled r (lengthZ sessions)))
    as [session|] eqn:Hlook.
  - destruct (JS.includes (Generator.selectedSessions st) (Session.id session))
      eqn:Hinc; cbn [negb].
    + unfold Rand.ret. cbn [fst]. repeat split; auto.
      intros _ _ E. rewrite E in Hinc. discriminate.
    + assert (Hsel : forall st',
                Generator.selectedSessions st'
                  = Generator.selectedSessions st ++ [Session.id session] ->
                Generator.registered st'
                  = Generator.registered st ++ [Session.id session] ->
                (Generator.registered st = Generator.selectedSessions st ->
                 Generator.registered st' = Generator.selectedSessions st')
                /\ (List.NoDup (Generator.selectedSessions st) ->
                    List.NoDup (Generator.selectedSessions st'))
                /\ (length (Generator.selectedSessions st)
                    <= length (Generator.selectedSessions st')
                    <= S (length (Generator.selectedSessions st)))%nat
                /\ (Rand.in_range g -> sessions <> [] ->
                    Generator.selectedSessions st = [] ->
                    length (Generator.selectedSessions st') = 1%nat)).
      { intros st' E1 E2. rewrite E1, E2. split; [congruence|].
        split; [intros Hnd; apply NoDup_snoc; [exact Hnd|now apply includes_false]|].
        split; [rewrite length_app; simpl; lia|].
        intros _ _ ->. reflexivity. }
      destruct (Session.has_status completed session);
        [|now apply Hsel].
      unfold Rand.bind, Rand.random. cbn [fst snd Rand.oracle Rand.drawn].
      destruct (negb (Qle_bool _ (1 # 5))); [|now apply Hsel].
      destruct (negb (Qle_bool _ (3 # 5))); [|now apply Hsel].
      destruct (Generator.generateFeedback _ _ _ _ _) as [f g'].
      now apply Hsel.
  - unfold Rand.ret. cbn [fst]. repeat split; auto.
    intros Hg Hne _. exfalso.
    apply lookup_ge_None in Hlook.
    destruct (Hg (Rand.drawn g)) as [H0 H1]. fold r in H0, H1.
    assert (0 < lengthZ sessions).
    { unfold lengthZ. destruct sessions; [congruence|]. simpl length. lia. }
    pose proof (floor_scaled_lt r (lengthZ sessions) H0 H1 H).
    unfold lengthZ in *. lia.
Qed.

Lemma registration_loop now sessions aid an l : forall st g,
  let st' :=
    fst (Rand.foldM (Generator.register_one now sessions aid an) l st g) in
  (Generator.registered st = Generator.selectedSessions st ->
   Generator.registered st' = Generator.selectedSessions st')
  /\ (List.NoDup (Generator.selectedSessions st) ->
      List.NoDup (Generator.selectedSessions st'))
  /\ (length (Generator.selectedSessions st)
      <= length (Generator.selectedSessions st')
      <= length (Generator.selectedSessions st) + length l)%nat.
Proof.
  induction l as [|j l IH]; intros st g; cbn [Rand.foldM].
  - unfold Rand.ret. cbn [fst length]. repeat split; auto; lia.
  - unfold Rand.bind.
    destruct (register_one_spec now sessions aid an st j g) as [H1 [H2 [H3 _]]].
    destruct (Generator.register_one now sessions aid an st j g) as [st1 g1].
    cbn [fst] in *. destruct (IH st1 g1) as [K1 [K2 K3]].
    repeat split; auto; cbn [length]; lia.
Qed.

Lemma generateAttendee_fields now id g :
  Attendee.registeredSessions (fst (Generator.generateAttendee now id g)) = [].
Proof. reflexivity. Qed.

Lemma registered_attendee_ok now sessions acc i g :
  Rand.in_range g -> sessions <> [] ->
  Forall registrations_ok (fst acc) ->
  Forall registrations_ok
    (fst (fst (Generator.generate_registered_attendee now sessions acc i g))).
Proof.
  intros Hg Hne Hacc. unfold Generator.generate_registered_attendee.
  unfold Rand.bind at 1.
  pose proof (generateAttendee_fields now (Z.of_nat i + 1) g) as Hreg.
  pose proof (in_range_after _ g (keeps_generateAttendee now (Z.of_nat i + 1)) Hg)
    as Hg1.
  destruct (Generator.generateAttendee now (Z.of_nat i + 1) g) as [attendee g1].
  cbn [fst snd] in *. unfold Rand.bind at 1, Rand.random.
  cbn [fst snd Rand.oracle Rand.drawn].
  destruct (Hg1 (Rand.drawn g1)) as [Hr0 Hr1].
  set (r := Rand.oracle g1 (Rand.drawn g1)) in *.
  pose proof (floor_scaled_lt r 4 Hr0 Hr1 ltac:(lia)) as Hcount.
  set (g2 := Rand.Rng (Rand.oracle g1) (S (Rand.drawn g1))).
  assert (Hg2 : Rand.in_range g2) by exact Hg1.
  set (n := Z.to_nat (2 + JS.floor_scaled r 4)).
  assert (Hn : (2 <= n <= 5)%nat) by (unfold n; lia).
  destruct (seq 0 n) as [|j l] eqn:Hseq.
  { apply (f_equal (@length nat)) in Hseq. rewrite length_seq in Hseq.
    simpl in Hseq. lia. }
  assert (Hlen : S (length l) = n).
  { apply (f_equal (@length nat)) in Hseq. rewrite length_seq in Hseq.
    simpl in Hseq. lia. }
  rewrite Hreg. cbn [Rand.foldM]. unfold Rand.bind.
  match goal with
  | |- context [Generator.register_one ?a ?b ?c ?d ?st0 j g2] =>
      destruct (register_one_spec a b c d st0 j g2) as [H1 [H2 [H3 H4]]];
      destruct (Generator.register_one a b c d st0 j g2) as [st1 g3]
  end.
  cbn [fst Generator.selectedSessions Generator.registered] in *.
  specialize (H1 eq_refl). specialize (H2 (List.NoDup_nil _)).
  specialize (H4 Hg2 Hne eq_refl).
  match goal with
  | |- context [Rand.foldM ?f l st1 g3] =>
      destruct (registration_loop now sessions
                  (Attendee.id attendee) (Attendee.name attendee) l st1 g3)
        as [K1 [K2 K3]];
      destruct (Rand.foldM f l st1 g3) as [st2 g4]
  end.
  cbn [fst Rand.ret] in *.
  apply Forall_app. split; [exact Hacc|].
  constructor; [|constructor].
  unfold registrations_ok. cbn [Attendee.registeredSessions].
  rewrite (K1 H1). split; [lia | now apply K2].
Qed.

Lemma generator_registrations now g :
  Rand.in_range g ->
  Forall registrations_ok
    (Dataset.attendees (fst (Generator.generateInitialData now g))).
Proof.
  intros Hg. unfold Generator.generateInitialData.
  unfold Rand.bind at 1.
  pose proof (mapM_Forall2 (fun _ => True)
                (fun i => Generator.generateSession (Z.of_nat i + 1) (Z.of_nat i))
                (fun _ _ => True) (seq 0 15) (fun _ _ _ => I)
                (fun _ _ _ => I) g I) as Hlen.
  apply Forall2_length in Hlen.
  pose proof (in_range_after _ g
                (keeps_mapM _ (seq 0 15)
                   (fun i => keeps_generateSession (Z.of_nat i + 1) (Z.of_nat i)))
                Hg) as Hg1.
  destruct (Rand.mapM _ (seq 0 15) g) as [sessions g1]. cbn [fst snd] in *.
  assert (Hne : sessions <> []) by (destruct sessions; [discriminate|congruence]).
  unfold Rand.bind at 1.
  match goal with
  | |- context [Rand.mapM ?f ?l g1] =>
      pose proof (in_range_after _ g1
                    (keeps_mapM f l (fun p => keeps_generateSpeaker _ _)) Hg1)
        as Hg2;
      destruct (Rand.mapM f l g1) as [speakers g2]
  end.
  cbn [snd] in Hg2. unfold Rand.bind.
  pose proof (foldM_invariant Rand.in_range
                (Generator.generate_registered_attendee now sessions)
                (fun acc => Forall registrations_ok (fst acc))
                (fun _ => True) (seq 0 Generator.attendee_count)
                (fun s a g0 => in_range_after _ g0
                                 (keeps_generate_registered_attendee now sessions s a))
                (fun s a g0 _ Hg0 Hs =>
                   registered_attendee_ok now sessions s a g0 Hg0 Hne Hs)
                (proj2 (List.Forall_forall _ _) (fun _ _ => I))
                ([], []) g2 Hg2 (List.Forall_nil _)) as H.
  destruct (Rand.foldM _ _ _ g2) as [[attendees feedback] g3].
  exact H.
Qed.

(** C7 (amended): every attendee [generateInitialData] produces is
    registered for between 1 and 5 sessions, no session twice. *)
Theorem C7_registrations (now : Z) (g : Rand.rng) :
  Rand.in_range g ->
  Forall registrations_ok
    (Dataset.attendees (fst (Generator.generateInitialData now g))).
Proof. exact (generator_registrations now g). Qed.

Lemma C7_registrations_witness :
  Forall registrations_ok
    (Dataset.attendees
       (fst (Generator.generateInitialData 0 (Sample.constant (1 # 2))))).
Proof.
  refine (C7_registrations 0 (Sample.constant (1 # 2)) _).
  intros n. split; [discriminate | reflexivity].
Defined.

(** C7 (as stated) fails: a session drawn twice is registered once and the
    draw is not repeated, so an attendee can end up with a single
    registration; when every draw returns 0 the first attendee does. *)
Lemma C7_single_registration :
  ~ (forall now g, Rand.in_range g ->
       Forall (fun a =>
                 (2 <= length (Attendee.registeredSessions a) <= 5)%nat
                 /\ List.NoDup (Attendee.registeredSessions a))
         (Dataset.attendees (fst (Generator.generateInitialData now g)))).
Proof.
  intros H.
  assert (Hg : Rand.in_range (Sample.constant 0)).
  { intros n. split; [discriminate | reflexivity]. }
  specialize (H 0 (Sample.constant 0) Hg).
  assert (E : hd_error
                (Dataset.attendees
                   (fst (Generator.generateInitialData 0 (Sample.constant 0))))
              = Some Sample.john) by (vm_compute; reflexivity).
  destruct (Dataset.attendees
              (fst (Generator.generateInitialData 0 (Sample.constant 0))))
    as [|a l]; [discriminate|].
  injection E as ->. inversion H as [|? ? [Hlen _] _]; subst.
  simpl in Hlen. lia.
Qed.

(** ** Session ids *)

Lemma generateSession_id id index g :
  Session.id (fst (Generator.generateSession id index g))
  = "session-" +:+ pretty id.
Proof. reflexivity. Qed.

(** The sessions the generator returns have pairwise distinct ids, so the
    arrays handed to the analytics services do. *)
Lemma generator_ids_distinct now g :
  List.NoDup
    (map Session.id (Dataset.sessions (fst (Generator.generateInitialData now g)))).
Proof.
  unfold Generator.generateInitialData.
  unfold Rand.bind at 1.
  pose proof (mapM_Forall2 (fun _ => True)
                (fun i => Generator.generateSession (Z.of_nat i + 1) (Z.of_nat i))
                (fun i s => Session.id s = "session-" +:+ pretty (Z.of_nat i + 1))
                (seq 0 15) (fun _ _ _ => I)
                (fun i g _ => generateSession_id _ _ g) g I) as H.
  destruct (Rand.mapM _ (seq 0 15) g) as [sessions g1]. cbn [fst] in H.
  unfold Rand.bind at 1. destruct (Rand.mapM _ _ g1) as [speakers g2].
  unfold Rand.bind. destruct (Rand.foldM _ _ _ g2) as [[attendees feedback] g3].
  cbn [fst Rand.ret Dataset.sessions]. rewrite map_map.
  match goal with
  | |- List.NoDup (map ?f sessions) => change f with Session.id
  end.
  rewrite (Forall2_map_eq Session.id _ _ _ H).
  vm_compute.
  repeat (constructor; [simpl; intuition discriminate|]). constructor.
Qed.

(** ** The subscriber set never holds a callback twice *)

Lemma notifySubscribers_subscribers raises t s :
  Simulator.subscribers (Simulator.notifySubscribers raises t s)
  = Simulator.subscribers s.
Proof.
  destruct (notifySubscribers_spec raises t s) as [_ [Hk _]].
  unfold core in Hk. now injection Hk.
Qed.

Lemma step_subscribers_NoDup raises o s g :
  List.NoDup (Simulator.subscribers s) ->
  List.NoDup (Simulator.subscribers (fst (Simulator.step raises o s g))).
Proof.
  intros Hs. destruct o as [cb|cb|ms| |c|c]; cbn [Simulator.step Rand.ret fst].
  - rewrite subscribe_subscribers. now apply set_add_NoDup.
  - unfold Simulator.unsubscribe, Simulator.set_delete. cbn.
    now apply List.NoDup_filter.
  - unfold Simulator.start. now destruct (Simulator.isRunning s).
  - unfold Simulator.stop. now destruct (negb (Simulator.isRunning s)).
  - unfold Simulator.reset, Simulator.fresh_data, Rand.bind.
    destruct (Generator.generateInitialData (Simulator.now c) g) as [d g'].
    unfold Rand.ret. cbn [fst]. rewrite notifySubscribers_subscribers.
    cbn [Simulator.subscribers]. unfold Simulator.stop.
    now destruct (negb (Simulator.isRunning s)).
  - destruct (Simulator.updateInterval s); [|exact Hs].
    destruct (performUpdate_spec raises c s g) as [_ [Hk _]].
    unfold core in Hk. injection Hk as _ _ Hsub _ _ _. now rewrite Hsub.
Qed.

Lemma run_ops_subscribers_NoDup raises ops : forall s g,
  List.NoDup (Simulator.subscribers s) ->
  List.NoDup (Simulator.subscribers (fst (Simulator.run_ops raises ops s g))).
Proof.
  unfold Simulator.run_ops.
  induction ops as [|o ops IH]; intros s g Hs; [exact Hs|].
  cbn [Rand.foldM]. unfold Rand.bind.
  pose proof (step_subscribers_NoDup raises o s g Hs) as H1.
  destruct (Simulator.step raises o s g) as [s' g']. now apply IH.
Qed.

(** * Further properties *)

Lemma has_status_true st s :
  Session.has_status st s = true <-> Session.status_ s = st.
Proof.
  unfold Session.has_status. destruct (Session.status_ s), st; simpl;
    split; congruence.
Qed.

Lemma lookup_in_filter {A} (p : A -> bool) (l : list A) k x :
  List.filter p l !! k = Some x -> In x l /\ p x = true.
Proof.
  intros H. apply filter_In. apply list_elem_of_In.
  eapply list_elem_of_lookup_2, H.
Qed.

(** ** What each pass leaves alone *)

Lemma attendance_pass_frame d g :
  let d' := fst (Simulator.simulateAttendanceChange d g) in
  Dataset.speakers d' = Dataset.speakers d
  /\ Dataset.attendees d' = Dataset.attendees d
  /\ Dataset.feedback d' = Dataset.feedback d
  /\ Dataset.metrics d' = Dataset.metrics d.
Proof.
  unfold Simulator.simulateAttendanceChange, Rand.bind.
  destruct (Rand.mapM _ (Dataset.sessions d) g). cbn. auto.
Qed.

Lemma engagement_pass_frame d g :
  let d' := fst (Simulator.simulateEngagementFluctuation d g) in
  Dataset.speakers d' = Dataset.speakers d
  /\ Dataset.attendees d' = Dataset.attendees d
  /\ Dataset.feedback d' = Dataset.feedback d
  /\ Metrics.totalSessions (Dataset.metrics d')
     = Metrics.totalSessions (Dataset.metrics d)
  /\ Metrics.activeSessions (Dataset.metrics d')
     = Metrics.activeSessions (Dataset.metrics d)
  /\ Metrics.totalAttendees (Dataset.metrics d')
     = Metrics.totalAttendees (Dataset.metrics d)
  /\ Metrics.totalFeedback (Dataset.metrics d')
     = Metrics.totalFeedback (Dataset.metrics d)
  /\ Metrics.avgRating (Dataset.metrics d') = Metrics.avgRating (Dataset.metrics d)
  /\ Metrics.avgEngagement (Dataset.metrics d')
     = Simulator.avgEngagement_of (Dataset.sessions d').
Proof.
  unfold Simulator.simulateEngagementFluctuation, Rand.bind.
  destruct (Rand.mapM _ (Dataset.sessions d) g). cbn. repeat split.
Qed.

Lemma status_pass_frame c d :
  let d' := Simulator.simulateSessionStatusChange c d in
  Dataset.speakers d' = Dataset.speakers d
  /\ Dataset.attendees d' = Dataset.attendees d
  /\ Dataset.feedback d' = Dataset.feedback d
  /\ Metrics.totalSessions (Dataset.metrics d')
     = Metrics.totalSessions (Dataset.metrics d)
  /\ Metrics.activeSessions (Dataset.metrics d')
     = count_status active (Dataset.sessions d')
  /\ Metrics.totalAttendees (Dataset.metrics d')
     = Metrics.totalAttendees (Dataset.metrics d)
  /\ Metrics.totalFeedback (Dataset.metrics d')
     = Metrics.totalFeedback (Dataset.metrics d)
  /\ Metrics.avgRating (Dataset.metrics d') = Metrics.avgRating (Dataset.metrics d)
  /\ Metrics.avgEngagement (Dataset.metrics d')
     = Metrics.avgEngagement (Dataset.metrics d).
Proof. cbn. repeat split. Qed.

(** The feedback the injection pass builds from the draws after [g], for
    the session with id [sid]. *)
Lemma feedback_pass_spec now d g :
  let d' := fst (Simulator.simulateNewFeedback now d g) in
  Dataset.speakers d' = Dataset.speakers d
  /\ Dataset.attendees d' = Dataset.attendees d
  /\ Metrics.totalSessions (Dataset.metrics d')
     = Metrics.totalSessions (Dataset.metrics d)
  /\ Metrics.activeSessions (Dataset.metrics d')
     = Metrics.activeSessions (Dataset.metrics d)
  /\ Metrics.totalAttendees (Dataset.metrics d')
     = Metrics.totalAttendees (Dataset.metrics d)
  /\ Metrics.avgEngagement (Dataset.metrics d')
     = Metrics.avgEngagement (Dataset.metrics d)
  /\ (d' = d
      \/ exists k session f,
           List.filter (Session.has_status completed) (Dataset.sessions d) !! k
             = Some session
           /\ Feedback.sessionId f = Session.id session
           /\ Feedback.timestamp f = now
           /\ Feedback.verified f = true
           /\ (Rand.in_range g -> ratings_ok f)
           /\ Dataset.feedback d' = Dataset.feedback d ++ [f]
           /\ Dataset.sessions d'
              = Simulator.update_kth (Session.has_status completed) k
                  (fun s =>
                     Session.set_feedback
                       (JS.slice0 5 (f :: Session.feedback s)) s)
                  (Dataset.sessions d)
           /\ Metrics.totalFeedback (Dataset.metrics d')
              = lengthZ (Dataset.feedback d')
           /\ Metrics.avgRating (Dataset.metrics d')
              = avgRating_of (Dataset.feedback d')).
Proof.
  unfold Simulator.simulateNewFeedback, Generator.sub_rating, Generator.pick,
    Rand.bind, Rand.random, Rand.ret.
  cbn [fst snd Rand.oracle Rand.drawn].
  destruct (Qltb _ (3 # 10)); [|cbn [fst]; repeat split; auto].
  destruct (0 <? _); [|cbn [fst]; repeat split; auto].
  match goal with
  | |- context [?l !! ?k] => destruct (l !! k) as [session|] eqn:Hk
  end; [|cbn [fst]; repeat split; auto].
  cbn [fst Dataset.speakers Dataset.attendees Dataset.metrics Dataset.feedback
       Dataset.sessions Metrics.totalSessions Metrics.activeSessions
       Metrics.totalAttendees Metrics.avgEngagement Metrics.totalFeedback
       Metrics.avgRating].
  repeat (split; [reflexivity|]). right.
  match goal with
  | |- context [Dataset.feedback d ++ [?f]] =>
      match type of Hk with
      | _ !! ?k = _ => exists k, session, f
      end
  end.
  split; [exact Hk|].
  cbn [Feedback.sessionId Feedback.timestamp Feedback.verified].
  do 3 (split; [reflexivity|]).
  split; [|repeat split; reflexivity].
  intros Hg. unfold ratings_ok, sub_rating_ok.
  cbn [Rand.oracle Rand.drawn].
  cbn [Feedback.ratings Feedback.content Feedback.presentation
       Feedback.relevance Feedback.overall].
  repeat split;
    match goal with
    | |- context [JS.floor_scaled (Rand.oracle g ?n) 3] =>
        destruct (Hg n) as [H0 H1];
        pose proof (floor_scaled_lt _ 3 H0 H1 ltac:(lia)); lia
    end.
Qed.

Lemma attendee_pass_spec now d g :
  let d' := fst (Simulator.simulateNewAttendee now d g) in
  Dataset.sessions d' = Dataset.sessions d
  /\ Dataset.speakers d' = Dataset.speakers d
  /\ Dataset.feedback d' = Dataset.feedback d
  /\ Metrics.totalSessions (Dataset.metrics d')
     = Metrics.totalSessions (Dataset.metrics d)
  /\ Metrics.activeSessions (Dataset.metrics d')
     = Metrics.activeSessions (Dataset.metrics d)
  /\ Metrics.totalFeedback (Dataset.metrics d')
     = Metrics.totalFeedback (Dataset.metrics d)
  /\ Metrics.avgEngagement (Dataset.metrics d')
     = Metrics.avgEngagement (Dataset.metrics d)
  /\ Metrics.avgRating (Dataset.metrics d') = Metrics.avgRating (Dataset.metrics d)
  /\ (d' = d
      \/ exists a,
           Dataset.attendees d' = Dataset.attendees d ++ [a]
           /\ Attendee.attendedSessions a = []
           /\ Attendee.joinedAt a = now
           /\ (Attendee.registeredSessions a = []
               \/ exists s, In s (Dataset.sessions d)
                            /\ Session.status_ s = upcoming
                            /\ Attendee.registeredSessions a = [Session.id s])
           /\ Metrics.totalAttendees (Dataset.metrics d')
              = lengthZ (Dataset.attendees d')).
Proof.
  unfold Simulator.simulateNewAttendee, Rand.bind, Rand.random, Rand.ret.
  cbn [fst snd Rand.oracle Rand.drawn].
  destruct (Qltb _ (1 # 10)); [|cbn [fst]; repeat split; auto].
  destruct (0 <? _).
  - cbn [fst snd Rand.oracle Rand.drawn].
    match goal with
    | |- context [?l !! ?k] => destruct (l !! k) as [s|] eqn:Hk
    end; cbn; repeat (split; [reflexivity|]); right; eexists;
      (split; [reflexivity|]); cbn; repeat (split; [reflexivity|]);
      (split; [|reflexivity]).
    + right. exists s. apply lookup_in_filter in Hk. destruct Hk as [Hin Hst].
      apply has_status_true in Hst. auto.
    + now left.
  - cbn. repeat (split; [reflexivity|]). right. eexists.
    split; [reflexivity|]. cbn. repeat (split; [reflexivity|]).
    split; [now left | reflexivity].
Qed.

(** ** Invariants of the dataset: one tick, then every reachable state *)

Lemma mutate_unfold c d g :
  let r1 := Simulator.simulateAttendanceChange d g in
  let r2 := Simulator.simulateEngagementFluctuation (fst r1) (snd r1) in
  let r3 := Simulator.simulateNewFeedback (Simulator.now c) (fst r2) (snd r2) in
  fst (Simulator.mutate c d g)
  = fst (Simulator.simulateNewAttendee (Simulator.now c)
           (Simulator.simulateSessionStatusChange c (fst r3)) (snd r3)).
Proof.
  unfold Simulator.mutate, Rand.bind.
  destruct (Simulator.simulateAttendanceChange d g) as [d1 g1].
  cbn [fst snd].
  destruct (Simulator.simulateEngagementFluctuation d1 g1) as [d2 g2].
  cbn [fst snd].
  now destruct (Simulator.simulateNewFeedback (Simulator.now c) d2 g2).
Qed.

Section TickInvariant.

Variable G : Rand.rng -> Prop.
Hypothesis G_oracle : forall g g', Rand.oracle g' = Rand.oracle g -> G g -> G g'.

(** A property of the dataset that each of the five passes maintains. *)
Variable I : Dataset.t -> Prop.
Hypothesis I_attendance :
  forall d g, G g -> I d -> I (fst (Simulator.simulateAttendanceChange d g)).
Hypothesis I_engagement :
  forall d g, G g -> I d -> I (fst (Simulator.simulateEngagementFluctuation d g)).
Hypothesis I_feedback :
  forall now d g, G g -> I d -> I (fst (Simulator.simulateNewFeedback now d g)).
Hypothesis I_status :
  forall c d, I d -> I (Simulator.simulateSessionStatusChange c d).
Hypothesis I_attendee :
  forall now d g, G g -> I d -> I (fst (Simulator.simulateNewAttendee now d g)).

Lemma mutate_invariant c d g : G g -> I d -> I (fst (Simulator.mutate c d g)).
Proof.
  intros Hg Hd. rewrite mutate_unfold. cbv zeta.
  assert (G1 : G (snd (Simulator.simulateAttendanceChange d g))).
  { eapply G_oracle; [apply keeps_simulateAttendanceChange | exact Hg]. }
  assert (G2 : G (snd (Simulator.simulateEngagementFluctuation
                         (fst (Simulator.simulateAttendanceChange d g))
                         (snd (Simulator.simulateAttendanceChange d g))))).
  { eapply G_oracle; [apply keeps_simulateEngagementFluctuation | exact G1]. }
  apply I_attendee.
  - eapply G_oracle; [apply keeps_simulateNewFeedback | exact G2].
  - apply I_status, I_feedback; [exact G2|].
    apply I_engagement; [exact G1|]. now apply I_attendance.
Qed.

(** If moreover the generator establishes it, it holds after any sequence
    of operations on a new simulator. *)
Hypothesis I_generator :
  forall now g, G g -> I (fst (Generator.generateInitialData now g)).

Lemma step_invariant raises o s g :
  G g -> I (Simulator.content s) ->
  I (Simulator.content (fst (Simulator.step raises o s g))).
Proof.
  intros Hg Hs. destruct o as [cb|cb|ms| |c|c]; cbn [Simulator.step Rand.ret fst].
  - unfold Simulator.subscribe, Simulator.invoke. cbn.
    now destruct (raises cb (Simulator.data s)).
  - exact Hs.
  - unfold Simulator.start. now destruct (Simulator.isRunning s).
  - unfold Simulator.stop. now destruct (negb (Simulator.isRunning s)).
  - rewrite reset_content. now apply I_generator.
  - destruct (Simulator.updateInterval s); [|exact Hs].
    destruct (performUpdate_spec raises c s g) as [_ [Hk _]].
    unfold core in Hk. injection Hk as _ Hc _ _ _ _. rewrite Hc.
    now apply mutate_invariant.
Qed.

Lemma run_ops_invariant raises ops : forall s g,
  G g -> I (Simulator.content s) ->
  I (Simulator.content (fst (Simulator.run_ops raises ops s g))).
Proof.
  unfold Simulator.run_ops.
  induction ops as [|o ops IH]; intros s g Hg Hs; [exact Hs|].
  cbn [Rand.foldM]. unfold Rand.bind.
  pose proof (step_invariant raises o s g Hg Hs) as Hs'.
  assert (Hg' : G (snd (Simulator.step raises o s g))).
  { eapply G_oracle; [apply keeps_step | exact Hg]. }
  destruct (Simulator.step raises o s g) as [s' g']. now apply IH.
Qed.

Lemma after_ops_invariant raises t ops g :
  G g -> I (Simulator.content (after_ops raises t ops g)).
Proof.
  intros Hg. unfold after_ops. rewrite run_bind. apply run_ops_invariant.
  - eapply G_oracle; [apply keeps_constructor | exact Hg].
  - rewrite constructor_content. now apply I_generator.
Qed.

End TickInvariant.

(** *** Sessions keep their status outside the status pass *)

Lemma attendance_step_keeps s g :
  let s' := fst (Simulator.attendance_step s g) in
  Session.engagement s' = Session.engagement s
  /\ Session.feedback s' = Session.feedback s
  /\ Session.startHour s' = Session.startHour s
  /\ Session.startMinute s' = Session.startMinute s.
Proof.
  unfold Simulator.attendance_step, Rand.bind, Rand.random, Rand.ret.
  cbn [fst snd Rand.oracle Rand.drawn].
  destruct (Qltb _ (3 # 5)); [|destruct (Qltb _ (4 # 5))]; cbn; auto.
Qed.

Lemma Forall2_count_status st l l' :
  Forall2 same_status l l' -> count_status st l' = count_status st l.
Proof.
  unfold count_status, lengthZ. intros H. f_equal.
  induction H as [|a b l l' Hab _ IH]; [reflexivity|].
  assert (E : Session.has_status st b = Session.has_status st a).
  { unfold Session.has_status. now rewrite Hab. }
  cbn [List.filter]. rewrite E.
  destruct (Session.has_status st a); cbn [length]; congruence.
Qed.

Lemma Forall2_lengthZ {A B} (R : A -> B -> Prop) l l' :
  Forall2 R l l' -> lengthZ l' = lengthZ l.
Proof. intros H. unfold lengthZ. apply Forall2_length in H. now rewrite H. Qed.

Lemma attendance_pass_status d g :
  Forall2 same_status (Dataset.sessions d)
    (Dataset.sessions (fst (Simulator.simulateAttendanceChange d g))).
Proof.
  apply (attendance_pass_evolves same_status (fun _ => True)); auto.
  - intros s. reflexivity.
  - intros s g0 _. now apply attendance_step_fields.
Qed.

Lemma engagement_pass_status d g :
  Forall2 same_status (Dataset.sessions d)
    (Dataset.sessions (fst (Simulator.simulateEngagementFluctuation d g))).
Proof.
  apply (engagement_pass_evolves same_status (fun _ => True)); auto;
    intros; reflexivity.
Qed.

Lemma feedback_pass_status now d g :
  Forall2 same_status (Dataset.sessions d)
    (Dataset.sessions (fst (Simulator.simulateNewFeedback now d g))).
Proof. apply feedback_pass_evolves; intros; reflexivity. Qed.

Lemma Forall2_transfer {A} (R : A -> A -> Prop) (P : A -> Prop) l l' :
  Forall2 R l l' -> (forall a b, R a b -> P a -> P b) ->
  Forall P l -> Forall P l'.
Proof.
  intros H HR. induction H as [|a b l l' Hab _ IH]; intros Hl; [constructor|].
  inversion Hl; subst. constructor; eauto.
Qed.

(** *** The counters of the metrics object *)

Lemma counters_attendance d g :
  counters_ok d -> counters_ok (fst (Simulator.simulateAttendanceChange d g)).
Proof.
  unfold counters_ok.
  destruct (attendance_pass_frame d g) as [_ [Ha [Hf Hm]]].
  pose proof (attendance_pass_status d g) as Hs.
  rewrite Hm, Ha, Hf, (Forall2_count_status _ _ _ Hs), (Forall2_lengthZ _ _ _ Hs).
  auto.
Qed.

Lemma counters_engagement d g :
  counters_ok d ->
  counters_ok (fst (Simulator.simulateEngagementFluctuation d g)).
Proof.
  unfold counters_ok.
  destruct (engagement_pass_frame d g) as [_ [Ha [Hf [M1 [M2 [M3 [M4 _]]]]]]].
  pose proof (engagement_pass_status d g) as Hs.
  rewrite M1, M2, M3, M4, Ha, Hf, (Forall2_count_status _ _ _ Hs),
    (Forall2_lengthZ _ _ _ Hs).
  auto.
Qed.

Lemma counters_feedback now d g :
  counters_ok d -> counters_ok (fst (Simulator.simulateNewFeedback now d g)).
Proof.
  unfold counters_ok.
  destruct (feedback_pass_spec now d g) as [_ [Ha [M1 [M2 [M3 [_ Hcase]]]]]].
  pose proof (feedback_pass_status now d g) as Hs.
  rewrite M1, M2, M3, Ha, (Forall2_count_status _ _ _ Hs),
    (Forall2_lengthZ _ _ _ Hs).
  intros [H1 [H2 [H3 H4]]]. repeat (split; [assumption|]).
  destruct Hcase as [->|[k [session [f [_ [_ [_ [_ [_ [_ [_ [Ht _]]]]]]]]]]]];
    assumption.
Qed.

Lemma counters_status c d :
  counters_ok d -> counters_ok (Simulator.simulateSessionStatusChange c d).
Proof.
  unfold counters_ok.
  destruct (status_pass_frame c d) as [_ [Ha [Hf [M1 [M2 [M3 [M4 _]]]]]]].
  rewrite M1, M2, M3, M4, Ha, Hf.
  intros [H1 [_ [H3 H4]]]. repeat split; try assumption.
  rewrite H1. symmetry. eapply Forall2_lengthZ.
  apply (status_pass_evolves (fun _ _ => True)). auto.
Qed.

Lemma counters_attendee now d g :
  counters_ok d -> counters_ok (fst (Simulator.simulateNewAttendee now d g)).
Proof.
  unfold counters_ok.
  destruct (attendee_pass_spec now d g)
    as [Hs [_ [Hf [M1 [M2 [M4 [_ [_ Hcase]]]]]]]].
  rewrite M1, M2, M4, Hs, Hf.
  intros [H1 [H2 [H3 H4]]]. repeat split; try assumption.
  destruct Hcase as [->|[a [_ [_ [_ [_ Ht]]]]]]; assumption.
Qed.

Lemma counters_generator now g :
  counters_ok (fst (Generator.generateInitialData now g)).
Proof.
  unfold Generator.generateInitialData, Rand.bind.
  destruct (Rand.mapM _ (seq 0 15) g) as [sessions g1].
  destruct (Rand.mapM _ _ g1) as [speakers g2].
  destruct (Rand.foldM _ _ _ g2) as [[attendees feedback] g3].
  cbn. repeat split.
Qed.

Lemma counters_reachable raises t ops g :
  counters_ok (Simulator.content (after_ops raises t ops g)).
Proof.
  apply (after_ops_invariant (fun _ => True)); auto using counters_attendance,
    counters_engagement, counters_feedback, counters_status, counters_attendee,
    counters_generator.
Qed.

(** *** Engagement stays a percentage *)

Lemma Qround_clamp x : 0 <= JS.Qround (Qmax 0 (Qmin 100 x)) <= 100.
Proof.
  unfold JS.Qround.
  assert (H0 : (0 <= Qmax 0 (Qmin 100 x))%Q) by apply Q.le_max_l.
  assert (H1 : (Qmax 0 (Qmin 100 x) <= 100)%Q).
  { apply Q.max_lub; [discriminate | apply Q.le_min_l]. }
  split.
  - apply Qfloor_nonneg. lra.
  - change 100 with (Qfloor (100 + (1 # 2))) at 2.
    apply Qfloor_resp_le. lra.
Qed.

Lemma engagement_step_ok s g :
  engagement_ok s -> engagement_ok (fst (Simulator.engagement_step s g)).
Proof.
  unfold Simulator.engagement_step, engagement_ok.
  destruct (Session.has_status active s); [|auto].
  intros _. unfold Rand.bind, Rand.random, Rand.ret. cbn. apply Qround_clamp.
Qed.

Lemma status_step_keeps h m s :
  let s' := Simulator.status_step h m s in
  Session.id s' = Session.id s
  /\ Session.engagement s' = Session.engagement s
  /\ Session.feedback s' = Session.feedback s
  /\ Session.capacity s' = Session.capacity s.
Proof.
  unfold Simulator.status_step.
  destruct (Session.status_ s);
    [destruct (Qle_bool _ _) | destruct (Qle_bool _ _) |]; cbn; auto.
Qed.

Lemma engagement_ok_attendance d g :
  Forall engagement_ok (Dataset.sessions d) ->
  Forall engagement_ok
    (Dataset.sessions (fst (Simulator.simulateAttendanceChange d g))).
Proof.
  apply (Forall2_transfer
           (fun a b => Session.engagement b = Session.engagement a)).
  - apply (attendance_pass_evolves _ (fun _ => True)); auto.
    intros s g0 _. now apply attendance_step_keeps.
  - unfold engagement_ok. intros a b ->. auto.
Qed.

Lemma engagement_ok_engagement d g :
  Forall engagement_ok (Dataset.sessions d) ->
  Forall engagement_ok
    (Dataset.sessions (fst (Simulator.simulateEngagementFluctuation d g))).
Proof.
  apply (Forall2_transfer (fun a b => engagement_ok a -> engagement_ok b));
    [|auto].
  unfold Simulator.simulateEngagementFluctuation, Rand.bind.
  pose proof (mapM_Forall2 (fun _ => True) Simulator.engagement_step
                (fun a b => engagement_ok a -> engagement_ok b)
                (Dataset.sessions d) (fun _ _ _ => I)
                (fun a g0 _ => engagement_step_ok a g0) g I) as H.
  destruct (Rand.mapM Simulator.engagement_step (Dataset.sessions d) g).
  exact H.
Qed.

Lemma engagement_ok_feedback now d g :
  Forall engagement_ok (Dataset.sessions d) ->
  Forall engagement_ok
    (Dataset.sessions (fst (Simulator.simulateNewFeedback now d g))).
Proof.
  apply (Forall2_transfer
           (fun a b => Session.engagement b = Session.engagement a)).
  - apply feedback_pass_evolves; intros; reflexivity.
  - unfold engagement_ok. intros a b ->. auto.
Qed.

Lemma engagement_ok_status c d :
  Forall engagement_ok (Dataset.sessions d) ->
  Forall engagement_ok
    (Dataset.sessions (Simulator.simulateSessionStatusChange c d)).
Proof.
  apply (Forall2_transfer
           (fun a b => Session.engagement b = Session.engagement a)).
  - apply status_pass_evolves. intros h m s. now apply status_step_keeps.
  - unfold engagement_ok. intros a b ->. auto.
Qed.

Lemma generateSession_ranges id index g :
  Rand.in_range g ->
  generated_ranges (fst (Generator.generateSession id index g)).
Proof.
  intros Hg. unfold generated_ranges, Generator.generateSession,
    Generator.pick, Rand.bind, Rand.random, Rand.ret.
  cbn [fst snd Session.capacity Session.engagement Session.rating Session.tags
       Session.duration Session.averageRating Rand.oracle Rand.drawn].
  repeat match goal with
         | |- context [Rand.oracle g ?n] =>
             lazymatch goal with
             | H : (0 <= Rand.oracle g n)%Q |- _ => fail
             | _ => destruct (Hg n) as [? ?]
             end
         end.
  repeat match goal with
         | |- context [JS.floor_scaled ?r ?n] =>
             lazymatch goal with
             | H : 0 <= JS.floor_scaled r n < n |- _ => fail
             | _ => pose proof (floor_scaled_lt r n ltac:(assumption)
                                  ltac:(assumption) ltac:(lia))
             end
         end.
  split; [lia|]. split; [lia|]. split; [lra|]. split; [lra|].
  split; [|auto].
  match goal with
  | H : 0 <= JS.floor_scaled ?r 2 < 2 |- _ =>
      assert (E : JS.floor_scaled r 2 = 0 \/ JS.floor_scaled r 2 = 1) by lia;
      destruct E as [-> | ->]
  end; vm_compute; lia.
Qed.

Lemma engagement_ok_generator now g :
  Rand.in_range g ->
  Forall engagement_ok (Dataset.sessions (fst (Generator.generateInitialData now g))).
Proof.
  intros Hg. unfold Generator.generateInitialData.
  unfold Rand.bind at 1.
  pose proof (mapM_all Rand.in_range
                (fun i => Generator.generateSession (Z.of_nat i + 1) (Z.of_nat i))
                generated_ranges (seq 0 15)
                (fun i g => in_range_after _ g (keeps_generateSession _ _))
                (fun i g Hg => generateSession_ranges _ _ g Hg) g Hg) as H.
  destruct (Rand.mapM _ (seq 0 15) g) as [sessions g1]. cbn [fst] in H.
  unfold Rand.bind at 1. destruct (Rand.mapM _ _ g1) as [speakers g2].
  unfold Rand.bind. destruct (Rand.foldM _ _ _ g2) as [[attendees feedback] g3].
  cbn [fst Rand.ret Dataset.sessions].
  apply Forall_map. eapply Forall_impl; [exact H|].
  intros s [_ [Hs _]]. unfold engagement_ok. cbn. lia.
Qed.

Lemma engagement_reachable raises t ops g :
  Rand.in_range g ->
  Forall engagement_ok
    (Dataset.sessions (Simulator.content (after_ops raises t ops g))).
Proof.
  apply (after_ops_invariant Rand.in_range
           (fun g1 g2 => in_range_oracle g1 g2)
           (fun d => Forall engagement_ok (Dataset.sessions d))).
  - intros d g0 _. apply engagement_ok_attendance.
  - intros d g0 _. apply engagement_ok_engagement.
  - intros now d g0 _. apply engagement_ok_feedback.
  - apply engagement_ok_status.
  - intros now d g0 _ H. now rewrite attendee_pass_sessions.
  - apply engagement_ok_generator.
Qed.

(** ** The generator's attendees and feedback *)

Lemma generateFeedback_spec now sid aid an g :
  let f := fst (Generator.generateFeedback now sid aid an g) in
  Feedback.sessionId f = sid /\ Feedback.attendeeId f = aid
  /\ Feedback.attendeeName f = an /\ Feedback.timestamp f = now
  /\ (Rand.in_range g -> ratings_ok f).
Proof.
  unfold Generator.generateFeedback, Generator.sub_rating, Generator.pick,
    Rand.bind, Rand.random, Rand.ret.
  cbn [fst snd Rand.oracle Rand.drawn Feedback.sessionId Feedback.attendeeId
       Feedback.attendeeName Feedback.timestamp].
  repeat (split; [reflexivity|]).
  intros Hg. unfold ratings_ok, sub_rating_ok.
  cbn [Feedback.ratings Feedback.content Feedback.presentation
       Feedback.relevance Feedback.overall].
  repeat split;
    match goal with
    | |- context [JS.floor_scaled (Rand.oracle g ?n) 3] =>
        destruct (Hg n) as [H0 H1];
        pose proof (floor_scaled_lt _ 3 H0 H1 ltac:(lia)); lia
    end.
Qed.

Ltac exists_feedback_state g :=
  match goal with
  | |- context [Generator.generateFeedback ?a ?b ?c ?d ?e] =>
      set (g1 := e);
      assert (Hg1 : Rand.oracle g1 = Rand.oracle g) by reflexivity;
      clearbody g1;
      set (r := Generator.generateFeedback a b c d);
      set (r1 := r g1);
      assert (Hf : r1 = Generator.generateFeedback a b c d g1)
        by reflexivity;
      clearbody r1; subst r; destruct r1 as [f g2];
      cbn; repeat (split; [reflexivity|]); right; split; [assumption|];
      split; [reflexivity|]; right; exists g1;
      split; [exact Hg1|];
      exact (f_equal (fun x => Generator.feedback_acc _ ++ [fst x]) Hf)
  end.

(** What one pass of the registration loop can do. *)
Lemma register_one_cases now sessions aid an st j g :
  let st' := fst (Generator.register_one now sessions aid an st j g) in
  st' = st
  \/ exists session,
       In session sessions
       /\ ~ In (Session.id session) (Generator.selectedSessions st)
       /\ Generator.selectedSessions st'
          = Generator.selectedSessions st ++ [Session.id session]
       /\ Generator.registered st'
          = Generator.registered st ++ [Session.id session]
       /\ ((Generator.attended st' = Generator.attended st
            /\ Generator.feedback_acc st' = Generator.feedback_acc st)
           \/ (Session.status_ session = completed
               /\ Generator.attended st'
                  = Generator.attended st ++ [Session.id session]
               /\ (Generator.feedback_acc st' = Generator.feedback_acc st
                   \/ exists g',
                        Rand.oracle g' = Rand.oracle g
                        /\ Generator.feedback_acc st'
                           = Generator.feedback_acc st
                             ++ [fst (Generator.generateFeedback now
                                        (Session.id session) aid an g')]))).
Proof.
  unfold Generator.register_one, Rand.bind, Rand.random.
  cbn [fst snd Rand.oracle Rand.drawn].
  destruct (sessions !! _) as [session|] eqn:Hlook; [|now left].
  destruct (JS.includes (Generator.selectedSessions st) (Session.id session))
    eqn:Hinc; cbn [negb]; [now left|].
  right. exists session.
  split; [apply list_elem_of_In; eapply list_elem_of_lookup_2, Hlook|].
  split; [now apply includes_false|].
  destruct (Session.has_status completed session) eqn:Hst;
    [|cbn; repeat split; auto].
  apply has_status_true in Hst.
  unfold Rand.bind, Rand.random. cbn [fst snd Rand.oracle Rand.drawn].
  destruct (negb (Qle_bool _ (1 # 5))); [|cbn; repeat split; auto].
  destruct (negb (Qle_bool _ (3 # 5))); [|cbn; repeat split; auto 6].
  cbn [Rand.oracle Rand.drawn].
  exists_feedback_state g.
Qed.

Lemma registration_loop_attended now sessions aid an l : forall st g,
  incl (Generator.attended st) (Generator.registered st) ->
  Forall (completed_id sessions) (Generator.attended st) ->
  let st' :=
    fst (Rand.foldM (Generator.register_one now sessions aid an) l st g) in
  incl (Generator.attended st') (Generator.registered st')
  /\ Forall (completed_id sessions) (Generator.attended st').
Proof.
  intros st g H1 H2.
  apply (foldM_invariant (fun _ => True)
           (Generator.register_one now sessions aid an)
           (fun st => incl (Generator.attended st) (Generator.registered st)
                      /\ Forall (completed_id sessions) (Generator.attended st))
           (fun _ => True)); auto.
  - clear. intros st j g _ _ [H1 H2].
    destruct (register_one_cases now sessions aid an st j g)
      as [->|[s [Hin [_ [_ [Hr [[Ha _]|[Hst [Ha _]]]]]]]]]; [auto| |];
      rewrite Ha, Hr.
    + split; [|exact H2]. intros x Hx. apply in_or_app. left. now apply H1.
    + split.
      * intros x Hx. apply in_app_or in Hx. apply in_or_app.
        destruct Hx; [left; now apply H1 | now right].
      * apply Forall_app. split; [exact H2|].
        constructor; [|constructor]. now exists s.
  - apply List.Forall_forall. auto.
Qed.

Lemma registration_loop_feedback now sessions aid an l : forall st g base,
  Rand.in_range g ->
  (exists more,
     Generator.feedback_acc st = base ++ more
     /\ Forall (fun f => Feedback.attendeeId f = aid
                         /\ In (Feedback.sessionId f) (Generator.attended st)
                         /\ ratings_ok f) more) ->
  let st' :=
    fst (Rand.foldM (Generator.register_one now sessions aid an) l st g) in
  exists more,
    Generator.feedback_acc st' = base ++ more
    /\ Forall (fun f => Feedback.attendeeId f = aid
                        /\ In (Feedback.sessionId f) (Generator.attended st')
                        /\ ratings_ok f) more.
Proof.
  intros st g base Hg H.
  apply (foldM_invariant Rand.in_range
           (Generator.register_one now sessions aid an)
           (fun st =>
              exists more,
                Generator.feedback_acc st = base ++ more
                /\ Forall (fun f => Feedback.attendeeId f = aid
                                    /\ In (Feedback.sessionId f)
                                         (Generator.attended st)
                                    /\ ratings_ok f) more)
           (fun _ => True)); auto.
  - intros s0 j g0. apply in_range_after, keeps_register_one.
  - clear. intros st j g _ Hg [more [Hm Hf]].
    destruct (register_one_cases now sessions aid an st j g)
      as [->|[s [Hin [_ [_ [Hr [[Ha Hfb]|[Hst [Ha Hfb]]]]]]]]].
    + now exists more.
    + exists more. rewrite Ha, Hfb. auto.
    + assert (Hf' : Forall (fun f => Feedback.attendeeId f = aid
                              /\ In (Feedback.sessionId f)
                                   (Generator.attended st ++ [Session.id s])
                              /\ ratings_ok f) more).
      { eapply Forall_impl; [exact Hf|]. intros f [F1 [F2 F3]].
        split; [exact F1|split; [|exact F3]]. apply in_or_app. now left. }
      destruct Hfb as [Hfb|[g' [Hg' Hfb]]]; rewrite Ha, Hfb.
      * now exists more.
      * exists (more ++ [fst (Generator.generateFeedback now (Session.id s)
                                aid an g')]).
        rewrite Hm, app_assoc. split; [reflexivity|].
        apply Forall_app. split; [exact Hf'|].
        constructor; [|constructor].
        destruct (generateFeedback_spec now (Session.id s) aid an g')
          as [E1 [E2 [_ [_ E5]]]].
        rewrite E1, E2. split; [reflexivity|split].
        -- apply in_or_app. right. now left.
        -- apply E5. eapply in_range_oracle; eauto.
  - apply List.Forall_forall. auto.
Qed.

(** The attendee loop of [generateInitialData], one pass. *)
Lemma registered_attendee_unfold now sessions acc i g :
  let a0 := fst (Generator.generateAttendee now (Z.of_nat i + 1) g) in
  let g1 := snd (Generator.generateAttendee now (Z.of_nat i + 1) g) in
  let g2 := Rand.Rng (Rand.oracle g1) (S (Rand.drawn g1)) in
  let n := Z.to_nat (2 + JS.floor_scaled (Rand.oracle g1 (Rand.drawn g1)) 4) in
  let st :=
    fst (Rand.foldM
           (Generator.register_one now sessions (Attendee.id a0)
              (Attendee.name a0))
           (seq 0 n) (Generator.RegState [] [] [] (snd acc)) g2) in
  fst (Generator.generate_registered_attendee now sessions acc i g)
  = (fst acc
       ++ [ {| Attendee.id := Attendee.id a0;
               Attendee.name := Attendee.name a0;
               Attendee.company := Attendee.company a0;
               Attendee.role := Attendee.role a0;
               Attendee.registeredSessions := Generator.registered st;
               Attendee.attendedSessions := Generator.attended st;
               Attendee.engagementScore := Attendee.engagementScore a0;
               Attendee.joinedAt := Attendee.joinedAt a0 |} ],
     Generator.feedback_acc st).
Proof.
  intros a0 g1 g2 n st. subst st n g2 g1 a0.
  unfold Generator.generate_registered_attendee.
  unfold Rand.bind at 1.
  pose proof (generateAttendee_fields now (Z.of_nat i + 1) g) as Hreg.
  assert (Hatt : Attendee.attendedSessions
                   (fst (Generator.generateAttendee now (Z.of_nat i + 1) g))
                 = []) by reflexivity.
  destruct (Generator.generateAttendee now (Z.of_nat i + 1) g) as [a0 g1].
  cbn [fst snd] in *. rewrite Hreg, Hatt.
  unfold Rand.bind, Rand.random, Rand.ret. cbn [fst snd].
  destruct (Rand.foldM _ _ _ _) as [st g3]. reflexivity.
Qed.

Lemma registered_attendee_attended now sessions acc i g :
  Forall (fun a => attended_ok a
                   /\ Forall (completed_id sessions)
                        (Attendee.attendedSessions a)) (fst acc) ->
  Forall (fun a => attended_ok a
                   /\ Forall (completed_id sessions)
                        (Attendee.attendedSessions a))
    (fst (fst (Generator.generate_registered_attendee now sessions acc i g))).
Proof.
  intros Hacc. rewrite registered_attendee_unfold. cbn [fst].
  apply Forall_app. split; [exact Hacc|].
  constructor; [|constructor].
  unfold attended_ok.
  cbn [Attendee.attendedSessions Attendee.registeredSessions].
  apply registration_loop_attended.
  - intros x [].
  - constructor.
Qed.

Lemma keeps_generateAttendee_snd now id g :
  Rand.oracle (snd (Generator.generateAttendee now id g)) = Rand.oracle g.
Proof. reflexivity. Qed.

Lemma registered_attendee_feedback now sessions acc i g :
  Rand.in_range g ->
  Forall (fun f => ratings_ok f
                   /\ exists a, In a (fst acc)
                        /\ Attendee.id a = Feedback.attendeeId f
                        /\ In (Feedback.sessionId f)
                             (Attendee.attendedSessions a)) (snd acc) ->
  let acc' :=
    fst (Generator.generate_registered_attendee now sessions acc i g) in
  Forall (fun f => ratings_ok f
                   /\ exists a, In a (fst acc')
                        /\ Attendee.id a = Feedback.attendeeId f
                        /\ In (Feedback.sessionId f)
                             (Attendee.attendedSessions a)) (snd acc').
Proof.
  intros Hg Hacc acc'. subst acc'. rewrite registered_attendee_unfold.
  cbn [fst snd].
  set (a0 := fst (Generator.generateAttendee now (Z.of_nat i + 1) g)).
  set (g1 := snd (Generator.generateAttendee now (Z.of_nat i + 1) g)).
  set (g2 := Rand.Rng _ _).
  assert (Hg2 : Rand.in_range g2).
  { apply (in_range_oracle g); [reflexivity|exact Hg]. }
  clearbody g2. clearbody a0.
  match goal with
  | |- context [Rand.foldM ?f ?l ?st0 g2] =>
      destruct (registration_loop_feedback now sessions (Attendee.id a0)
                  (Attendee.name a0) l st0 g2 (snd acc) Hg2)
        as [more [Hm Hf]];
      [exists []; split; [cbn; now rewrite app_nil_r|constructor]|];
      set (st := fst (Rand.foldM f l st0 g2)) in *; clearbody st
  end.
  rewrite Hm. apply Forall_app. split.
  - eapply Forall_impl; [exact Hacc|].
    intros f [F1 [a [F2 [F3 F4]]]]. split; [exact F1|].
    exists a. split; [apply in_or_app; now left|auto].
  - eapply Forall_impl; [exact Hf|].
    intros f [F1 [F2 F3]]. split; [exact F3|].
    eexists. split; [apply in_or_app; right; left; reflexivity|].
    cbn [Attendee.id Attendee.attendedSessions]. auto.
Qed.

(** The data set in terms of its three loops. *)
Lemma generateInitialData_shape now g :
  exists sessions0 attendees feedback g2,
    let d := fst (Generator.generateInitialData now g) in
    sessions0
    = fst (Rand.mapM
             (fun i => Generator.generateSession (Z.of_nat i + 1) (Z.of_nat i))
             (seq 0 15) g)
    /\ Rand.oracle g2 = Rand.oracle g
    /\ fst (Rand.foldM (Generator.generate_registered_attendee now sessions0)
              (seq 0 Generator.attendee_count) ([], []) g2)
       = (attendees, feedback)
    /\ Dataset.attendees d = attendees
    /\ Dataset.feedback d = feedback
    /\ Dataset.sessions d
       = map (fun session =>
                Session.set_feedback
                  (JS.slice0 5
                     (List.filter
                        (fun f => String.eqb (Feedback.sessionId f)
                                    (Session.id session))
                        feedback))
                  session)
           sessions0
    /\ length (Dataset.speakers d) = length Generator.SPEAKER_NAMES.
Proof.
  unfold Generator.generateInitialData, Rand.bind.
  pose proof (keeps_mapM _ (seq 0 15)
                (fun i => keeps_generateSession (Z.of_nat i + 1) (Z.of_nat i)) g)
    as Hg1.
  destruct (Rand.mapM _ (seq 0 15) g) as [sessions g1]. cbn [fst snd] in *.
  match goal with
  | |- context [Rand.mapM ?f ?l g1] =>
      pose proof (keeps_mapM f l (fun p => keeps_generateSpeaker _ _) g1)
        as Hg2;
      pose proof (mapM_Forall2 (fun _ => True) f (fun _ _ => True) l
                    (fun _ _ _ => I) (fun _ _ _ => I) g1 I) as Hlen;
      destruct (Rand.mapM f l g1) as [speakers g2]
  end.
  cbn [fst snd] in *. apply Forall2_length in Hlen.
  rewrite length_imap in Hlen.
  exists sessions.
  destruct (Rand.foldM _ _ _ g2) as [[attendees feedback] g3] eqn:Hfold.
  exists attendees, feedback, g2.
  cbn [fst snd Rand.ret Dataset.attendees Dataset.feedback Dataset.sessions
       Dataset.speakers].
  repeat split; try congruence.
  exact (f_equal fst Hfold).
Qed.

Lemma foldM_length {A B T} (f : T -> A -> Rand.M T) (view : T -> list B)
    (l : list A) : forall s g,
  (forall s a g, length (view (fst (f s a g))) = S (length (view s))) ->
  length (view (fst (Rand.foldM f l s g))) = (length (view s) + length l)%nat.
Proof.
  induction l as [|a l IH]; intros s g Hf.
  - cbn. lia.
  - cbn [Rand.foldM]. unfold Rand.bind.
    pose proof (Hf s a g) as H1.
    destruct (f s a g) as [s1 g1]. cbn [fst] in H1.
    rewrite IH by exact Hf. rewrite H1. cbn [length]. lia.
Qed.

Lemma backfill_statuses (fb : Session.t -> list Feedback.t) l :
  Forall2 (fun a b => Session.id b = Session.id a
                      /\ Session.status_ b = Session.status_ a) l
    (map (fun s => Session.set_feedback (fb s) s) l).
Proof. induction l; constructor; auto. Qed.

Lemma completed_id_transfer l l' x :
  Forall2 forward l l' -> completed_id l x -> completed_id l' x.
Proof.
  intros H [s [Hin [Hid Hst]]].
  induction H as [|a b l l' [Hab1 Hab2] H IH]; [destruct Hin|].
  destruct Hin as [->|Hin].
  - exists b. split; [now left|]. split; [congruence|].
    rewrite Hst in Hab2. destruct (Session.status_ b); simpl in Hab2;
      reflexivity || lia.
  - destruct (IH Hin) as [s' [H1 H2]]. exists s'. split; [now right|exact H2].
Qed.

Lemma generator_attended now g :
  let d := fst (Generator.generateInitialData now g) in
  Forall (fun a => attended_ok a
                   /\ Forall (completed_id (Dataset.sessions d))
                        (Attendee.attendedSessions a))
    (Dataset.attendees d).
Proof.
  intros d. subst d.
  destruct (generateInitialData_shape now g)
    as [sessions0 [attendees [feedback [g2 [_ [_ [Hf [Ha [_ [Hs _]]]]]]]]]].
  rewrite Ha, Hs.
  pose proof (foldM_invariant (fun _ => True)
                (Generator.generate_registered_attendee now sessions0)
                (fun acc =>
                   Forall (fun a => attended_ok a
                                    /\ Forall (completed_id sessions0)
                                         (Attendee.attendedSessions a))
                     (fst acc))
                (fun _ => True) (seq 0 Generator.attendee_count)
                (fun _ _ _ _ => I)
                (fun s a g0 _ _ Hs =>
                   registered_attendee_attended now sessions0 s a g0 Hs)
                (proj2 (List.Forall_forall _ _) (fun _ _ => I))
                ([], []) g2 I (List.Forall_nil _)) as H.
  rewrite Hf in H. cbn [fst] in H.
  eapply Forall_impl; [exact H|].
  intros a [H1 H2]. split; [exact H1|].
  eapply Forall_impl; [exact H2|].
  intros x. apply completed_id_transfer.
  eapply Forall2_impl; [apply backfill_statuses|].
  intros a0 b [E1 E2]. split; [exact E1|rewrite E2; lia].
Qed.

Lemma generator_feedback now g :
  Rand.in_range g ->
  let d := fst (Generator.generateInitialData now g) in
  Forall (fun f => ratings_ok f
                   /\ exists a, In a (Dataset.attendees d)
                        /\ Attendee.id a = Feedback.attendeeId f
                        /\ In (Feedback.sessionId f)
                             (Attendee.attendedSessions a))
    (Dataset.feedback d).
Proof.
  intros Hg d. subst d.
  destruct (generateInitialData_shape now g)
    as [sessions0 [attendees [feedback [g2 [_ [Hg2 [Hf [Ha [Hfb _]]]]]]]]].
  rewrite Ha, Hfb.
  pose proof (foldM_invariant Rand.in_range
                (Generator.generate_registered_attendee now sessions0)
                (fun acc =>
                   Forall (fun f => ratings_ok f
                                    /\ exists a, In a (fst acc)
                                         /\ Attendee.id a = Feedback.attendeeId f
                                         /\ In (Feedback.sessionId f)
                                              (Attendee.attendedSessions a))
                     (snd acc))
                (fun _ => True) (seq 0 Generator.attendee_count)
                (fun s a g0 => in_range_after _ g0
                                 (keeps_generate_registered_attendee now sessions0 s a))
                (fun s a g0 _ Hg0 Hs =>
                   registered_attendee_feedback now sessions0 s a g0 Hg0 Hs)
                (proj2 (List.Forall_forall _ _) (fun _ _ => I))
                ([], []) g2 (in_range_oracle g g2 Hg2 Hg) (List.Forall_nil _))
    as H.
  rewrite Hf in H. exact H.
Qed.

Lemma generator_attendee_count now g :
  length (Dataset.attendees (fst (Generator.generateInitialData now g)))
  = Generator.attendee_count.
Proof.
  destruct (generateInitialData_shape now g)
    as [sessions0 [attendees [feedback [g2 [_ [_ [Hf [Ha _]]]]]]]].
  rewrite Ha.
  pose proof (foldM_length
                (Generator.generate_registered_attendee now sessions0) fst
                (seq 0 Generator.attendee_count) ([], []) g2) as H.
  rewrite Hf in H. cbn [fst] in H. rewrite H.
  - rewrite length_seq. reflexivity.
  - intros s a g0. rewrite registered_attendee_unfold. cbn [fst].
    rewrite length_app. cbn [length]. lia.
Qed.

(** *** Attended sessions are registered sessions *)

Lemma attended_reachable_pass now d g :
  Forall attended_ok (Dataset.attendees d) ->
  Forall attended_ok
    (Dataset.attendees (fst (Simulator.simulateNewAttendee now d g))).
Proof.
  intros H.
  destruct (attendee_pass_spec now d g)
    as [_ [_ [_ [_ [_ [_ [_ [_ [->|[a [Ha [Hn _]]]]]]]]]]]]; [exact H|].
  rewrite Ha. apply Forall_app. split; [exact H|].
  constructor; [|constructor]. unfold attended_ok. rewrite Hn. intros x [].
Qed.

Lemma attended_reachable raises t ops g :
  Forall attended_ok
    (Dataset.attendees (Simulator.content (after_ops raises t ops g))).
Proof.
  apply (after_ops_invariant (fun _ => True) (fun _ _ _ _ => I)
           (fun d => Forall attended_ok (Dataset.attendees d))).
  - intros d g0 _ H.
    destruct (attendance_pass_frame d g0) as [_ [-> _]]. exact H.
  - intros d g0 _ H.
    destruct (engagement_pass_frame d g0) as [_ [-> _]]. exact H.
  - intros now d g0 _ H.
    destruct (feedback_pass_spec now d g0) as [_ [-> _]]. exact H.
  - intros c d H.
    destruct (status_pass_frame c d) as [_ [-> _]]. exact H.
  - intros now d g0 _. apply attended_reachable_pass.
  - intros now g0 _.
    eapply Forall_impl; [apply generator_attended|]. now intros a [H _].
  - exact I.
Qed.

(** *** Feedback is rated 3 to 5 and is about a session that is over *)

Lemma on_completed_transfer l l' f :
  Forall2 forward l l' -> on_completed l f -> on_completed l' f.
Proof. apply completed_id_transfer. Qed.

Lemma pass_forward_attendance d g :
  Forall2 forward (Dataset.sessions d)
    (Dataset.sessions (fst (Simulator.simulateAttendanceChange d g))).
Proof.
  apply (attendance_pass_evolves forward (fun _ => True)); auto using forward_refl.
  intros s g0 _. destruct (attendance_step_fields s g0) as [Hi [Hs _]].
  split; [exact Hi | rewrite Hs; lia].
Qed.

Lemma pass_forward_engagement d g :
  Forall2 forward (Dataset.sessions d)
    (Dataset.sessions (fst (Simulator.simulateEngagementFluctuation d g))).
Proof.
  apply (engagement_pass_evolves forward (fun _ => True)); auto using forward_refl.
  intros s v. now apply forward_same.
Qed.

Lemma pass_forward_feedback now d g :
  Forall2 forward (Dataset.sessions d)
    (Dataset.sessions (fst (Simulator.simulateNewFeedback now d g))).
Proof.
  apply (feedback_pass_evolves forward); auto using forward_refl.
  intros s v. now apply forward_same.
Qed.

Lemma pass_forward_status c d :
  Forall2 forward (Dataset.sessions d)
    (Dataset.sessions (Simulator.simulateSessionStatusChange c d)).
Proof. apply (status_pass_evolves forward), status_step_forward. Qed.

Lemma feedback_sound_transfer d d' :
  Forall2 forward (Dataset.sessions d) (Dataset.sessions d') ->
  Dataset.feedback d' = Dataset.feedback d ->
  feedback_sound d -> feedback_sound d'.
Proof.
  unfold feedback_sound. intros Hs -> H.
  eapply Forall_impl; [exact H|].
  intros f [H1 H2]. split; [exact H1|].
  eapply on_completed_transfer; eauto.
Qed.

Lemma feedback_sound_feedback now d g :
  Rand.in_range g -> feedback_sound d ->
  feedback_sound (fst (Simulator.simulateNewFeedback now d g)).
Proof.
  intros Hg H.
  pose proof (pass_forward_feedback now d g) as Hfw.
  destruct (feedback_pass_spec now d g)
    as [_ [_ [_ [_ [_ [_ [E|[k [s [f [Hk [Hid [_ [_ [Hr [Hfb _]]]]]]]]]]]]]]]].
  { rewrite E. exact H. }
  unfold feedback_sound. rewrite Hfb. apply Forall_app. split.
  - eapply Forall_impl; [exact H|].
    intros f0 [H1 H2]. split; [exact H1|].
    eapply on_completed_transfer; eauto.
  - constructor; [|constructor]. split; [auto|].
    apply (on_completed_transfer _ _ _ Hfw).
    apply lookup_in_filter in Hk. destruct Hk as [Hin Hst].
    apply has_status_true in Hst. exists s. auto.
Qed.

Lemma feedback_sound_generator now g :
  Rand.in_range g ->
  feedback_sound (fst (Generator.generateInitialData now g)).
Proof.
  intros Hg. unfold feedback_sound.
  pose proof (generator_feedback now g Hg) as Hf.
  pose proof (generator_attended now g) as Ha.
  cbv zeta in Hf, Ha.
  eapply Forall_impl; [exact Hf|].
  intros f [H1 [a [Hin [_ Hs]]]]. split; [exact H1|].
  rewrite List.Forall_forall in Ha. destruct (Ha a Hin) as [_ Hc].
  rewrite List.Forall_forall in Hc. exact (Hc _ Hs).
Qed.

Lemma feedback_reachable raises t ops g :
  Rand.in_range g ->
  feedback_sound (Simulator.content (after_ops raises t ops g)).
Proof.
  apply (after_ops_invariant Rand.in_range
           (fun g1 g2 => in_range_oracle g1 g2) feedback_sound).
  - intros d g0 _. apply feedback_sound_transfer.
    + apply pass_forward_attendance.
    + now destruct (attendance_pass_frame d g0) as [_ [_ [-> _]]].
  - intros d g0 _. apply feedback_sound_transfer.
    + apply pass_forward_engagement.
    + now destruct (engagement_pass_frame d g0) as [_ [_ [-> _]]].
  - intros now d g0. apply feedback_sound_feedback.
  - intros c d. apply feedback_sound_transfer.
    + apply pass_forward_status.
    + now destruct (status_pass_frame c d) as [_ [_ [-> _]]].
  - intros now d g0 _. apply feedback_sound_transfer.
    + rewrite attendee_pass_sessions. apply Forall2_same, forward_refl.
    + now destruct (attendee_pass_spec now d g0) as [_ [_ [-> _]]].
  - intros now g0. apply feedback_sound_generator.
Qed.

(** *** The feedback a session keeps *)

Lemma update_kth_spec {A} (p : A -> bool) (f : A -> A) l : forall k,
  Forall2 (fun a b => b = a \/ (List.filter p l !! k = Some a /\ b = f a))
    l (Simulator.update_kth p k f l).
Proof.
  induction l as [|x rest IH]; intros k; cbn [Simulator.update_kth].
  - constructor.
  - cbn [List.filter]. destruct (p x) eqn:Hp.
    + destruct k as [|k'].
      * constructor; [right; split; reflexivity|].
        apply Forall2_same. now left.
      * constructor; [now left|].
        eapply Forall2_impl; [apply IH|].
        intros a b [->|[H1 H2]]; [now left|right; auto].
    + constructor; [now left|]. apply IH.
Qed.

Lemma firstn_length_le' {A} n (l : list A) : (length (firstn n l) <= n)%nat.
Proof. rewrite length_firstn. lia. Qed.

Lemma In_firstn {A} n (l : list A) x : In x (firstn n l) -> In x l.
Proof.
  revert l. induction n as [|n IH]; intros [|y l]; cbn; try tauto.
  intros [->|H]; auto.
Qed.

Lemma cache_ok_same all a b :
  same_cache a b -> cache_ok all a -> cache_ok all b.
Proof. unfold cache_ok. intros [-> ->]. auto. Qed.

Lemma caches_ok_transfer d d' :
  Forall2 same_cache (Dataset.sessions d) (Dataset.sessions d') ->
  Dataset.feedback d' = Dataset.feedback d ->
  caches_ok d -> caches_ok d'.
Proof.
  unfold caches_ok. intros Hs -> H.
  eapply Forall2_transfer; [exact Hs| |exact H].
  intros a b. apply cache_ok_same.
Qed.

Lemma same_cache_refl s : same_cache s s.
Proof. split; reflexivity. Qed.

Lemma caches_ok_feedback now d g :
  caches_ok d -> caches_ok (fst (Simulator.simulateNewFeedback now d g)).
Proof.
  intros H.
  destruct (feedback_pass_spec now d g)
    as [_ [_ [_ [_ [_ [_ [E|[k [s [f [Hk [Hid [_ [_ [_ [Hfb [Hs _]]]]]]]]]]]]]]]]].
  { rewrite E. exact H. }
  unfold caches_ok. rewrite Hfb, Hs.
  assert (H' : Forall (cache_ok (Dataset.feedback d ++ [f]))
                 (Dataset.sessions d)).
  { eapply Forall_impl; [exact H|]. intros a [Hlen Hin].
    split; [exact Hlen|]. intros x Hx. destruct (Hin x Hx).
    split; [auto|apply in_or_app; now left]. }
  eapply Forall2_transfer; [apply update_kth_spec| |exact H'].
  intros a b [->|[Ha ->]] [Hlen Hin]; [now split|].
  rewrite Hk in Ha. injection Ha as <-.
  cbn [Session.feedback Session.id Session.set_feedback Session.assign].
  rewrite slice0_firstn by lia. split; [apply firstn_length_le'|].
  intros x Hx. apply In_firstn in Hx. destruct Hx as [<-|Hx].
  - split; [exact Hid|apply in_or_app; right; now left].
  - exact (Hin x Hx).
Qed.

Lemma caches_ok_generator now g :
  caches_ok (fst (Generator.generateInitialData now g)).
Proof.
  unfold caches_ok.
  destruct (generateInitialData_shape now g)
    as [sessions0 [attendees [feedback [g2 [_ [_ [_ [_ [Hfb [Hs _]]]]]]]]]].
  rewrite Hfb, Hs. apply Forall_map. apply List.Forall_forall. intros s _.
  unfold cache_ok.
  cbn [Session.feedback Session.id Session.set_feedback Session.assign].
  rewrite slice0_firstn by lia. split; [apply firstn_length_le'|].
  intros x Hx. apply In_firstn in Hx. apply filter_In in Hx.
  destruct Hx as [Hin Heq]. apply String.eqb_eq in Heq. auto.
Qed.

Lemma caches_reachable raises t ops g :
  caches_ok (Simulator.content (after_ops raises t ops g)).
Proof.
  apply (after_ops_invariant (fun _ => True) (fun _ _ _ _ => I) caches_ok).
  - intros d g0 _. apply caches_ok_transfer.
    + apply (attendance_pass_evolves same_cache (fun _ => True));
        auto using same_cache_refl.
      intros s g1 _. destruct (attendance_step_fields s g1) as [Hi _].
      destruct (attendance_step_keeps s g1) as [_ [Hf _]]. now split.
    + now destruct (attendance_pass_frame d g0) as [_ [_ [-> _]]].
  - intros d g0 _. apply caches_ok_transfer.
    + apply (engagement_pass_evolves same_cache (fun _ => True));
        auto using same_cache_refl.
      intros s v. split; reflexivity.
    + now destruct (engagement_pass_frame d g0) as [_ [_ [-> _]]].
  - intros now d g0 _. apply caches_ok_feedback.
  - intros c d. apply caches_ok_transfer.
    + apply (status_pass_evolves same_cache). intros h m s.
      destruct (status_step_keeps h m s) as [Hi [_ [Hf _]]]. now split.
    + now destruct (status_pass_frame c d) as [_ [_ [-> _]]].
  - intros now d g0 _. apply caches_ok_transfer.
    + rewrite attendee_pass_sessions. apply Forall2_same, same_cache_refl.
    + now destruct (attendee_pass_spec now d g0) as [_ [_ [-> _]]].
  - intros now g0 _. apply caches_ok_generator.
  - exact I.
Qed.

(** ** The simulator's own state *)

Lemma subscribe_spec raises cb s :
  let s' := fst (Simulator.subscribe raises cb s) in
  Simulator.calls s' = Simulator.calls s ++ [(cb, Simulator.data s)]
  /\ core s'
     = (Simulator.data s, Simulator.content s,
        Simulator.set_add cb (Simulator.subscribers s),
        Simulator.updateInterval s, Simulator.isRunning s,
        Simulator.updateCount s)
  /\ Simulator.next_ref s' = Simulator.next_ref s.
Proof.
  unfold Simulator.subscribe, Simulator.invoke. cbn.
  destruct (raises cb (Simulator.data s)); cbn; auto.
Qed.

Lemma stop_spec s :
  let s' := Simulator.stop s in
  Simulator.calls s' = Simulator.calls s
  /\ Simulator.data s' = Simulator.data s
  /\ Simulator.content s' = Simulator.content s
  /\ Simulator.subscribers s' = Simulator.subscribers s
  /\ Simulator.updateCount s' = Simulator.updateCount s
  /\ Simulator.next_ref s' = Simulator.next_ref s
  /\ Simulator.isRunning s' = false
  /\ (timer_ok s -> Simulator.updateInterval s' = None).
Proof.
  unfold Simulator.stop, timer_ok.
  destruct (Simulator.isRunning s) eqn:E; cbn; rewrite ?E; repeat split; auto.
  intros [_ H]. destruct (Simulator.updateInterval s); [|reflexivity].
  discriminate H. discriminate.
Qed.

Lemma reset_spec raises c s g :
  let s' := fst (Simulator.reset raises c s g) in
  let fresh :=
    {| Simulator.DataObj.oid := Simulator.next_ref s;
       Simulator.DataObj.body := S (Simulator.next_ref s);
       Simulator.DataObj.lastUpdated := Simulator.now c;
       Simulator.DataObj.updateCount := None |} in
  let x :=
    {| Simulator.DataObj.oid := S (S (Simulator.next_ref s));
       Simulator.DataObj.body := S (Simulator.next_ref s);
       Simulator.DataObj.lastUpdated := Simulator.now c;
       Simulator.DataObj.updateCount := Some 0 |} in
  Simulator.calls s'
  = Simulator.calls s ++ map (fun cb => (cb, x)) (Simulator.subscribers s)
  /\ Simulator.data s' = fresh
  /\ Simulator.subscribers s' = Simulator.subscribers s
  /\ Simulator.updateCount s' = 0
  /\ Simulator.isRunning s' = false
  /\ Simulator.updateInterval s' = Simulator.updateInterval (Simulator.stop s)
  /\ Simulator.next_ref s' = S (S (S (Simulator.next_ref s))).
Proof.
  intros s' fresh x. subst s' fresh x.
  unfold Simulator.reset, Simulator.fresh_data, Rand.bind.
  destruct (Generator.generateInitialData (Simulator.now c) g) as [d g'].
  unfold Rand.ret. cbn [fst].
  destruct (stop_spec s) as [S1 [S2 [S3 [S4 [S5 [S6 [S7 _]]]]]]].
  cbv zeta in *.
  match goal with
  | |- context [Simulator.notifySubscribers raises ?ts ?s3] =>
      set (s4 := s3);
      destruct (notifySubscribers_spec raises ts s4) as [Hc [Hk Hn]];
      cbv zeta in Hc, Hk, Hn; unfold core in Hk;
      injection Hk as K1 K2 K3 K4 K5 K6;
      rewrite Hc, K1, K3, K4, K5, K6, Hn; subst s4
  end.
  unfold Simulator.dataWithTimestamp.
  cbn [Simulator.calls Simulator.data Simulator.subscribers
       Simulator.updateCount Simulator.isRunning Simulator.updateInterval
       Simulator.next_ref Simulator.DataObj.body].
  rewrite S1, S4, S6, S7. repeat split.
Qed.

Lemma step_timer raises o s g :
  timer_ok s -> timer_ok (fst (Simulator.step raises o s g)).
Proof.
  intros Hs. destruct o as [cb|cb|ms| |c|c]; cbn [Simulator.step Rand.ret fst].
  - destruct (subscribe_spec raises cb s) as [_ [Hk _]]. cbv zeta in Hk.
    unfold core in Hk. injection Hk as _ _ _ K4 K5 _.
    unfold timer_ok. now rewrite K4, K5.
  - exact Hs.
  - unfold Simulator.start, timer_ok in *.
    destruct (Simulator.isRunning s) eqn:E; cbn; rewrite ?E; [exact Hs|].
    split; [intros _; discriminate|reflexivity].
  - destruct (stop_spec s) as [_ [_ [_ [_ [_ [_ [H1 H2]]]]]]].
    unfold timer_ok. rewrite H1, (H2 Hs). split; [discriminate|congruence].
  - destruct (reset_spec raises c s g) as [_ [_ [_ [_ [H1 [H2 _]]]]]].
    destruct (stop_spec s) as [_ [_ [_ [_ [_ [_ [_ H3]]]]]]].
    unfold timer_ok. rewrite H1, H2, (H3 Hs). split; [discriminate|congruence].
  - destruct (Simulator.updateInterval s) eqn:E; [|exact Hs].
    destruct (performUpdate_spec raises c s g) as [_ [Hk _]].
    unfold core in Hk. injection Hk as _ _ _ K4 K5 _.
    unfold timer_ok in *. rewrite K4, K5. exact Hs.
Qed.

Lemma Forall_lt_weaken {A} (h : A -> nat) l n m :
  (n <= m)%nat -> Forall (fun c => (h c < n)%nat) l ->
  Forall (fun c => (h c < m)%nat) l.
Proof.
  intros Hnm H. eapply Forall_impl; [exact H|]. cbn. intros. lia.
Qed.

Lemma step_refs raises o s g :
  refs_ok s -> refs_ok (fst (Simulator.step raises o s g)).
Proof.
  intros [H1 H2]. unfold refs_ok.
  destruct o as [cb|cb|ms| |c|c]; cbn [Simulator.step Rand.ret fst].
  - destruct (subscribe_spec raises cb s) as [Hc [Hk Hn]]. cbv zeta in *.
    unfold core in Hk. injection Hk as K1 _ _ _ _ _.
    rewrite Hc, K1, Hn. split; [exact H1|].
    apply Forall_app. split; [exact H2|]. constructor; [exact H1|constructor].
  - split; assumption.
  - unfold Simulator.start. destruct (Simulator.isRunning s); now split.
  - unfold Simulator.stop. destruct (negb (Simulator.isRunning s)); now split.
  - destruct (reset_spec raises c s g) as [Hc [Hd [_ [_ [_ [_ Hn]]]]]].
    cbv zeta in *. rewrite Hc, Hd, Hn. cbn [Simulator.DataObj.oid].
    split; [lia|]. apply Forall_app. split.
    + eapply Forall_lt_weaken; [|exact H2]. lia.
    + apply Forall_map. apply List.Forall_forall. intros cb _. cbn. lia.
  - destruct (Simulator.updateInterval s); [|now split].
    destruct (performUpdate_spec raises c s g) as [Hc [Hk [Hn _]]].
    cbv zeta in *. unfold core in Hk. injection Hk as K1 _ _ _ _ _.
    rewrite Hc, K1, Hn. split; [lia|]. apply Forall_app. split.
    + eapply Forall_lt_weaken; [|exact H2]. lia.
    + apply Forall_map. apply List.Forall_forall. intros cb _. cbn. lia.
Qed.

Lemma after_ops_state (P : Simulator.t -> Prop) raises t ops g :
  (forall g0, P (fst (Simulator.constructor t g0))) ->
  (forall o s g0, P s -> P (fst (Simulator.step raises o s g0))) ->
  P (after_ops raises t ops g).
Proof.
  intros H0 Hstep. unfold after_ops. rewrite run_bind.
  generalize (H0 g).
  generalize (snd (Simulator.constructor t g)).
  generalize (fst (Simulator.constructor t g)).
  unfold Simulator.run_ops.
  induction ops as [|o ops IH]; intros s g0 Hs; [exact Hs|].
  cbn [Rand.foldM]. unfold Rand.bind.
  pose proof (Hstep o s g0 Hs) as H1.
  destruct (Simulator.step raises o s g0) as [s' g']. now apply IH.
Qed.

Lemma timer_reachable raises t ops g : timer_ok (after_ops raises t ops g).
Proof.
  apply after_ops_state.
  - intros g0. unfold Simulator.constructor, Rand.bind, timer_ok.
    destruct (Generator.generateInitialData t g0). cbn.
    split; [discriminate|congruence].
  - intros o s g0. apply step_timer.
Qed.

Lemma refs_reachable raises t ops g : refs_ok (after_ops raises t ops g).
Proof.
  apply after_ops_state.
  - intros g0. destruct (constructor_data t g0) as [Hd [Hc [_ [Hn _]]]].
    unfold refs_ok. rewrite Hd, Hc, Hn. cbn. split; [lia|constructor].
  - intros o s g0. apply step_refs.
Qed.

Lemma subscribers_reachable raises t ops g :
  List.NoDup (Simulator.subscribers (after_ops raises t ops g)).
Proof.
  apply (after_ops_state (fun s => List.NoDup (Simulator.subscribers s))).
  - intros g0. destruct (constructor_data t g0) as [_ [_ [Hs _]]].
    rewrite Hs. constructor.
  - intros o s g0. apply step_subscribers_NoDup.
Qed.

(** ** Arithmetic of the analytics *)

Lemma fold_sum_shift {A} (f : A -> Z) l : forall z,
  fold_left (fun sum a => sum + f a) l z = z + sumZ f l.
Proof.
  unfold sumZ. induction l as [|x l IH]; intros z; cbn [fold_left]; [lia|].
  rewrite (IH (z + f x)), (IH (0 + f x)). lia.
Qed.

Lemma sumZ_cons {A} (f : A -> Z) x l : sumZ f (x :: l) = f x + sumZ f l.
Proof. unfold sumZ at 1. cbn [fold_left]. now rewrite fold_sum_shift. Qed.

Lemma sumZ_bounds {A} (f : A -> Z) (lo hi : Z) l :
  Forall (fun a => lo <= f a <= hi) l ->
  lo * lengthZ l <= sumZ f l <= hi * lengthZ l.
Proof.
  unfold lengthZ. induction 1 as [|x l Hx _ IH].
  - cbn. lia.
  - rewrite sumZ_cons. cbn [length]. lia.
Qed.

Lemma lengthZ_cons {A} (x : A) l : lengthZ (x :: l) = 1 + lengthZ l.
Proof. unfold lengthZ. cbn [length]. lia. Qed.

Lemma lengthZ_nonneg {A} (l : list A) : 0 <= lengthZ l.
Proof. unfold lengthZ. lia. Qed.

Lemma count_status_cons st x l :
  count_status st (x :: l)
  = (if Session.has_status st x then 1 else 0) + count_status st l.
Proof.
  unfold count_status. cbn [List.filter].
  destruct (Session.has_status st x); [apply lengthZ_cons|lia].
Qed.

Lemma count_status_total l :
  count_status active l + count_status upcoming l + count_status completed l
  = lengthZ l.
Proof.
  induction l as [|x l IH]; [reflexivity|].
  rewrite !count_status_cons, lengthZ_cons. unfold Session.has_status.
  destruct (Session.status_ x); cbn; lia.
Qed.

Lemma Qround_between (a b : Z) (q : Q) :
  (inject_Z a <= q)%Q -> (q <= inject_Z b)%Q -> a <= JS.Qround q <= b.
Proof.
  intros Ha Hb. unfold JS.Qround. split.
  - rewrite <- (Qfloor_Z a). apply Qfloor_resp_le. lra.
  - assert (H : (inject_Z (Qfloor (q + (1 # 2))) < inject_Z (b + 1))%Q).
    { eapply Qle_lt_trans; [apply Qfloor_le|].
      rewrite inject_Z_plus. change (inject_Z 1) with 1%Q. lra. }
    rewrite <- Zlt_Qlt in H. lia.
Qed.

Lemma Qround_Z (z : Z) : JS.Qround (inject_Z z) = z.
Proof.
  pose proof (Qround_between z z (inject_Z z) (Qle_refl _) (Qle_refl _)). lia.
Qed.

Lemma div_fin (n t : Z) :
  t <> 0 -> JS.div (JS.of_Z n) (JS.of_Z t) = JS.Fin (inject_Z n / inject_Z t).
Proof.
  intros Ht. unfold JS.div, JS.of_Z, JS.Qis0.
  destruct (Qeq_bool (inject_Z t) 0) eqn:E; [|reflexivity].
  apply Qeq_bool_iff in E. unfold Qeq in E. cbn in E. lia.
Qed.

Lemma inject_Z_pos t : 0 < t -> (0 < inject_Z t)%Q.
Proof. intros H. change 0%Q with (inject_Z 0). rewrite <- Zlt_Qlt. exact H. Qed.

Lemma fraction_bounds (n t : Z) :
  0 <= n <= t -> 0 < t ->
  (0 <= inject_Z n / inject_Z t)%Q /\ (inject_Z n / inject_Z t <= 1)%Q.
Proof.
  intros Hn Ht.
  assert (Hq : (0 < inject_Z t)%Q) by (apply inject_Z_pos; lia).
  assert (Hn0 : (0 <= inject_Z n)%Q) by (apply inject_Z_nonneg; lia).
  assert (Hnt : (inject_Z n <= inject_Z t)%Q) by (rewrite <- Zle_Qle; lia).
  split.
  - apply Qle_shift_div_l; [exact Hq|]. lra.
  - apply Qle_shift_div_r; [exact Hq|]. lra.
Qed.

(** [Math.round((n / t) * 100)] for a count [n] out of [t]. *)
Lemma percent_fin (n t : Z) :
  t <> 0 ->
  JS.round (JS.mul (JS.div (JS.of_Z n) (JS.of_Z t)) (JS.of_Z 100))
  = JS.of_Z (JS.Qround (inject_Z n / inject_Z t * 100)).
Proof. intros Ht. now rewrite div_fin. Qed.

Lemma percent_bounds (n t : Z) :
  0 <= n <= t -> 0 < t ->
  0 <= JS.Qround (inject_Z n / inject_Z t * 100) <= 100.
Proof.
  intros Hn Ht. destruct (fraction_bounds n t Hn Ht) as [H0 H1].
  apply Qround_between; change (inject_Z 0) with 0%Q;
    change (inject_Z 100) with 100%Q; lra.
Qed.

Lemma percent_complement (p n t : Z) :
  0 <= p -> 0 <= n -> p + n = t -> 0 < t ->
  100 <= JS.Qround (inject_Z p / inject_Z t * 100)
         + JS.Qround (inject_Z n / inject_Z t * 100) <= 101.
Proof.
  intros Hp Hn Hsum Ht.
  assert (Hq : (0 < inject_Z t)%Q) by (apply inject_Z_pos; lia).
  set (x := (inject_Z p / inject_Z t * 100)%Q).
  set (y := (inject_Z n / inject_Z t * 100)%Q).
  assert (Hxy : (x + y == 100)%Q).
  { unfold x, y. subst t. rewrite inject_Z_plus in *. field.
    intros E. rewrite E in Hq. now apply Qlt_irrefl in Hq. }
  unfold JS.Qround.
  pose proof (Qfloor_le (x + (1 # 2))) as X1.
  pose proof (Qlt_floor (x + (1 # 2))) as X2.
  pose proof (Qfloor_le (y + (1 # 2))) as Y1.
  pose proof (Qlt_floor (y + (1 # 2))) as Y2.
  set (a := Qfloor (x + (1 # 2))) in *. set (b := Qfloor (y + (1 # 2))) in *.
  rewrite inject_Z_plus in X2, Y2. change (inject_Z 1) with 1%Q in *.
  assert (L : (inject_Z (a + b) <= 101)%Q) by (rewrite inject_Z_plus; lra).
  assert (U : (99 < inject_Z (a + b))%Q) by (rewrite inject_Z_plus; lra).
  change 101%Q with (inject_Z 101) in L. change 99%Q with (inject_Z 99) in U.
  rewrite <- Zle_Qle in L. rewrite <- Zlt_Qlt in U. lia.
Qed.

(** ** calculateSessionStats *)

Lemma stats_fold data : forall acc,
  fold_left SessionAnalytics.stats_step data acc
  = {| SessionAnalytics.acc_total :=
         SessionAnalytics.acc_total acc + lengthZ data;
       SessionAnalytics.acc_active :=
         SessionAnalytics.acc_active acc + count_status active data;
       SessionAnalytics.acc_upcoming :=
         SessionAnalytics.acc_upcoming acc + count_status upcoming data;
       SessionAnalytics.acc_completed :=
         SessionAnalytics.acc_completed acc + count_status completed data;
       SessionAnalytics.acc_totalCapacity :=
         SessionAnalytics.acc_totalCapacity acc + sumZ Session.capacity data;
       SessionAnalytics.acc_totalAttendees :=
         SessionAnalytics.acc_totalAttendees acc
         + sumZ Session.currentAttendance data;
       SessionAnalytics.acc_totalEngagement :=
         SessionAnalytics.acc_totalEngagement acc
         + sumZ Session.engagement data |}.
Proof.
  induction data as [|x l IH]; intros acc.
  - destruct acc. unfold count_status, sumZ, lengthZ. simpl.
    rewrite !Z.add_0_r. reflexivity.
  - cbn [fold_left]. rewrite IH. unfold SessionAnalytics.stats_step.
    cbn [SessionAnalytics.acc_total SessionAnalytics.acc_active
         SessionAnalytics.acc_upcoming SessionAnalytics.acc_completed
         SessionAnalytics.acc_totalCapacity SessionAnalytics.acc_totalAttendees
         SessionAnalytics.acc_totalEngagement].
    rewrite !or0_id, !count_status_cons, !sumZ_cons, lengthZ_cons.
    f_equal; try lia;
      match goal with
      | |- context [Session.has_status ?st x] =>
          destruct (Session.has_status st x); lia
      end.
Qed.

Lemma sessionStats_counts data :
  let st := SessionAnalytics.sessionStats data in
  SessionAnalytics.total st = lengthZ data
  /\ SessionAnalytics.active_ st = count_status active data
  /\ SessionAnalytics.upcoming_ st = count_status upcoming data
  /\ SessionAnalytics.completed_ st = count_status completed data
  /\ SessionAnalytics.totalCapacity st = sumZ Session.capacity data
  /\ SessionAnalytics.totalAttendees st = sumZ Session.currentAttendance data.
Proof.
  unfold SessionAnalytics.sessionStats.
  destruct data as [|x l]; [cbn; repeat split|].
  cbn [length Nat.eqb]. rewrite stats_fold. cbn. repeat split.
Qed.

(** ** Properties of each session in every reachable state *)

Lemma reachable_sessions (P : Session.t -> Prop) :
  (forall s g, Rand.in_range g -> P s ->
               P (fst (Simulator.attendance_step s g))) ->
  (forall s v, P s -> P (Session.set_engagement v s)) ->
  (forall s v, P s -> P (Session.set_feedback v s)) ->
  (forall h m s, P s -> P (Simulator.status_step h m s)) ->
  (forall id index g, Rand.in_range g ->
                      P (fst (Generator.generateSession id index g))) ->
  forall raises t ops g,
    Rand.in_range g ->
    Forall P (Dataset.sessions (Simulator.content (after_ops raises t ops g))).
Proof.
  intros Hatt Heng Hfb Hst Hgen raises t ops g.
  apply (after_ops_invariant Rand.in_range
           (fun g1 g2 => in_range_oracle g1 g2)
           (fun d => Forall P (Dataset.sessions d))).
  - intros d g0 Hg0 H.
    eapply (Forall2_transfer (fun a b => P a -> P b)); [|auto|exact H].
    apply (attendance_pass_evolves _ Rand.in_range); auto.
    intros g1 g2. apply in_range_oracle.
  - intros d g0 Hg0 H.
    eapply (Forall2_transfer (fun a b => P a -> P b)); [|auto|exact H].
    apply (engagement_pass_evolves _ Rand.in_range); auto.
    intros g1 g2. apply in_range_oracle.
  - intros now d g0 Hg0 H.
    eapply (Forall2_transfer (fun a b => P a -> P b)); [|auto|exact H].
    apply feedback_pass_evolves; auto.
  - intros c d H.
    eapply (Forall2_transfer (fun a b => P a -> P b)); [|auto|exact H].
    apply status_pass_evolves; auto.
  - intros now d g0 _ H. now rewrite attendee_pass_sessions.
  - intros now g0 Hg0.
    destruct (generateInitialData_shape now g0)
      as [sessions0 [attendees [feedback [g2 [Hs0 [_ [_ [_ [_ [Hs _]]]]]]]]]].
    cbv zeta in Hs. rewrite Hs. apply Forall_map.
    pose proof (mapM_all Rand.in_range
                  (fun i => Generator.generateSession (Z.of_nat i + 1) (Z.of_nat i))
                  P (seq 0 15)
                  (fun i g => in_range_after _ g (keeps_generateSession _ _))
                  (fun i g Hg => Hgen _ _ g Hg) g0 Hg0) as H.
    rewrite <- Hs0 in H.
    eapply Forall_impl; [exact H|]. intros s. apply Hfb.
Qed.

Lemma attendance_step_static s g :
  let s' := fst (Simulator.attendance_step s g) in
  Session.rating s' = Session.rating s
  /\ Session.tags s' = Session.tags s
  /\ Session.duration s' = Session.duration s
  /\ Session.averageRating s' = Session.averageRating s
  /\ Session.title s' = Session.title s
  /\ Session.speaker s' = Session.speaker s.
Proof.
  unfold Simulator.attendance_step, Rand.bind, Rand.random, Rand.ret.
  cbn [fst snd Rand.oracle Rand.drawn].
  destruct (Qltb _ (3 # 5)); [|destruct (Qltb _ (4 # 5))]; cbn; auto 7.
Qed.

Lemma status_step_static h m s :
  let s' := Simulator.status_step h m s in
  Session.rating s' = Session.rating s
  /\ Session.tags s' = Session.tags s
  /\ Session.duration s' = Session.duration s
  /\ Session.averageRating s' = Session.averageRating s
  /\ Session.title s' = Session.title s
  /\ Session.speaker s' = Session.speaker s.
Proof.
  unfold Simulator.status_step.
  destruct (Session.status_ s);
    [destruct (Qle_bool _ _) | destruct (Qle_bool _ _) |]; cbn; auto 7.
Qed.

Lemma session_ok_reachable raises t ops g :
  Rand.in_range g ->
  Forall session_ok
    (Dataset.sessions (Simulator.content (after_ops raises t ops g))).
Proof.
  apply reachable_sessions.
  - intros s g0 Hg0 [H1 [H2 H3]].
    destruct (attendance_step_fields s g0) as [_ [_ [F1 F]]].
    destruct (attendance_step_static s g0) as [F3 [F4 [F5 [F6 _]]]].
    pose proof (F Hg0 H2) as F2. unfold attendance_ok in F2.
    unfold session_ok. rewrite F1, F3, F4, F5, F6 in *. tauto.
  - intros s v H. exact H.
  - intros s v H. exact H.
  - intros h m s [H1 [H2 H3]].
    pose proof (status_step_attendance h m s H2) as F2.
    destruct (status_step_keeps h m s) as [_ [_ [_ F1]]].
    destruct (status_step_static h m s) as [F3 [F4 [F5 [F6 _]]]].
    unfold attendance_ok in F2.
    unfold session_ok. rewrite F1, F3, F4, F5, F6 in *. tauto.
  - intros id index g0 Hg0.
    destruct (generateSession_ranges id index g0 Hg0)
      as [R1 [_ [R3 [R4 [R5 [R6 R7]]]]]].
    pose proof (generateSession_attendance id index g0 Hg0) as R2.
    unfold attendance_ok in R2. unfold session_ok. tauto.
Qed.

(** ** Sizes of the arrays *)

Lemma generator_sizes now g :
  let d := fst (Generator.generateInitialData now g) in
  length (Dataset.sessions d) = 15%nat
  /\ length (Dataset.speakers d) = 15%nat
  /\ length (Dataset.attendees d) = 847%nat.
Proof.
  intros d. subst d. split; [|split].
  - pose proof (generator_statuses now g) as H.
    apply (f_equal (@length status)) in H.
    now rewrite !length_map, length_seq in H.
  - destruct (generateInitialData_shape now g)
      as [sessions0 [attendees [feedback [g2 [_ [_ [_ [_ [_ [_ H]]]]]]]]]].
    exact H.
  - apply generator_attendee_count.
Qed.

Lemma sizes_reachable raises t ops g :
  sizes_ok (Simulator.content (after_ops raises t ops g)).
Proof.
  apply (after_ops_invariant (fun _ => True) (fun _ _ _ _ => I) sizes_ok);
    unfold sizes_ok.
  - intros d g0 _ [H1 [H2 H3]].
    destruct (attendance_pass_frame d g0) as [-> [-> _]].
    pose proof (attendance_pass_status d g0) as H. apply Forall2_length in H.
    repeat split; congruence.
  - intros d g0 _ [H1 [H2 H3]].
    destruct (engagement_pass_frame d g0) as [-> [-> _]].
    pose proof (engagement_pass_status d g0) as H. apply Forall2_length in H.
    repeat split; congruence.
  - intros now d g0 _ [H1 [H2 H3]].
    destruct (feedback_pass_spec now d g0) as [-> [-> _]].
    pose proof (feedback_pass_status now d g0) as H. apply Forall2_length in H.
    repeat split; congruence.
  - intros c d [H1 [H2 H3]].
    destruct (status_pass_frame c d) as [-> [-> _]].
    pose proof (pass_forward_status c d) as H. apply Forall2_length in H.
    repeat split; congruence.
  - intros now d g0 _ [H1 [H2 H3]].
    destruct (attendee_pass_spec now d g0)
      as [-> [-> [_ [_ [_ [_ [_ [_ [->|[a [Ha _]]]]]]]]]]]; [auto|].
    rewrite Ha, length_app. cbn [length]. repeat split; auto. lia.
  - intros now g0 _. destruct (generator_sizes now g0) as [H1 [H2 H3]].
    cbv zeta in *. rewrite H1, H2, H3. repeat split. lia.
  - exact I.
Qed.

(** ** The rating metric *)

Lemma avgRating_reachable raises t ops g :
  let d := Simulator.content (after_ops raises t ops g) in
  Metrics.avgRating (Dataset.metrics d) = avgRating_of (Dataset.feedback d).
Proof.
  apply (after_ops_invariant (fun _ => True) (fun _ _ _ _ => I)
           (fun d => Metrics.avgRating (Dataset.metrics d)
                     = avgRating_of (Dataset.feedback d))).
  - intros d g0 _ H.
    destruct (attendance_pass_frame d g0) as [_ [_ [-> ->]]]. exact H.
  - intros d g0 _ H.
    destruct (engagement_pass_frame d g0)
      as [_ [_ [-> [_ [_ [_ [_ [-> _]]]]]]]]. exact H.
  - intros now d g0 _ H.
    destruct (feedback_pass_spec now d g0)
      as [_ [_ [_ [_ [_ [_ [->|[k [s [f [_ [_ [_ [_ [_ [_ [_ [_ E]]]]]]]]]]]]]]]]]];
      [exact H|exact E].
  - intros c d H.
    destruct (status_pass_frame c d) as [_ [_ [-> [_ [_ [_ [_ [-> _]]]]]]]].
    exact H.
  - intros now d g0 _ H.
    destruct (attendee_pass_spec now d g0)
      as [_ [_ [-> [_ [_ [_ [_ [-> _]]]]]]]]. exact H.
  - intros now g0 _.
    unfold Generator.generateInitialData, Rand.bind.
    destruct (Rand.mapM _ (seq 0 15) g0) as [sessions g1].
    destruct (Rand.mapM _ _ g1) as [speakers g2].
    destruct (Rand.foldM _ _ _ g2) as [[attendees feedback] g3].
    reflexivity.
  - exact I.
Qed.

(** ** analyzeSentiment and calculateAverageRatings *)

Lemma lengthZ_filter_le {A} (p : A -> bool) l :
  0 <= lengthZ (List.filter p l) <= lengthZ l.
Proof.
  unfold lengthZ. pose proof (List.filter_length_le p l). lia.
Qed.

Lemma sentiment_counts fb :
  Forall ratings_ok fb ->
  lengthZ (List.filter (fun f => 4 <=? DataTransformers.overall_of f) fb)
  + lengthZ (List.filter (fun f => DataTransformers.overall_of f =? 3) fb)
  = lengthZ fb
  /\ lengthZ (List.filter (fun f => DataTransformers.overall_of f <=? 2) fb) = 0.
Proof.
  induction 1 as [|f l Hf _ [IH1 IH2]]; [split; reflexivity|].
  destruct Hf as [_ [_ [_ Ho]]]. unfold sub_rating_ok in Ho.
  fold (DataTransformers.overall_of f) in Ho.
  cbn [List.filter].
  destruct (4 <=? DataTransformers.overall_of f) eqn:E4;
    destruct (DataTransformers.overall_of f =? 3) eqn:E3;
    destruct (DataTransformers.overall_of f <=? 2) eqn:E2;
    rewrite ?lengthZ_cons; split; lia.
Qed.

Lemma sentiment_fin fb :
  let t := if lengthZ fb =? 0 then 1 else lengthZ fb in
  let pct (p : Feedback.t -> bool) :=
    JS.Qround (inject_Z (lengthZ (List.filter p fb)) / inject_Z t * 100) in
  AnalyticsService.analyzeSentiment fb
  = {| AnalyticsService.positive :=
         JS.of_Z (pct (fun f => 4 <=? DataTransformers.overall_of f));
       AnalyticsService.neutral :=
         JS.of_Z (pct (fun f => DataTransformers.overall_of f =? 3));
       AnalyticsService.negative :=
         JS.of_Z (pct (fun f => DataTransformers.overall_of f <=? 2)) |}.
Proof.
  intros t pct. unfold AnalyticsService.analyzeSentiment. fold t.
  assert (Ht : t <> 0).
  { unfold t. pose proof (lengthZ_nonneg fb).
    destruct (lengthZ fb =? 0) eqn:E; lia. }
  now rewrite !percent_fin by exact Ht.
Qed.

Lemma sentiment_total_pos {A} (fb : list A) :
  let t := if lengthZ fb =? 0 then 1 else lengthZ fb in
  0 < t /\ lengthZ fb <= t.
Proof.
  cbv zeta. pose proof (lengthZ_nonneg fb).
  destruct (lengthZ fb =? 0) eqn:E; lia.
Qed.

Lemma totals_fold l : forall acc,
  fold_left
    (fun acc item =>
       {| Feedback.content :=
            Feedback.content acc + Feedback.content (Feedback.ratings item);
          Feedback.presentation :=
            Feedback.presentation acc
            + Feedback.presentation (Feedback.ratings item);
          Feedback.relevance :=
            Feedback.relevance acc + Feedback.relevance (Feedback.ratings item);
          Feedback.overall :=
            Feedback.overall acc + Feedback.overall (Feedback.ratings item) |})
    l acc
  = {| Feedback.content :=
         Feedback.content acc
         + sumZ (fun f => Feedback.content (Feedback.ratings f)) l;
       Feedback.presentation :=
         Feedback.presentation acc
         + sumZ (fun f => Feedback.presentation (Feedback.ratings f)) l;
       Feedback.relevance :=
         Feedback.relevance acc
         + sumZ (fun f => Feedback.relevance (Feedback.ratings f)) l;
       Feedback.overall :=
         Feedback.overall acc
         + sumZ (fun f => Feedback.overall (Feedback.ratings f)) l |}.
Proof.
  induction l as [|x l IH]; intros acc.
  - destruct acc. unfold sumZ. cbn. now rewrite !Z.add_0_r.
  - cbn [fold_left]. rewrite IH. cbn [Feedback.content Feedback.presentation
      Feedback.relevance Feedback.overall]. rewrite !sumZ_cons.
    f_equal; lia.
Qed.

Lemma averages_unfold fb :
  lengthZ fb <> 0 ->
  AnalyticsService.calculateAverageRatings fb
  = {| AnalyticsService.avg_content :=
         AnalyticsService.round1
           (sumZ (fun f => Feedback.content (Feedback.ratings f)) fb)
           (lengthZ fb);
       AnalyticsService.avg_presentation :=
         AnalyticsService.round1
           (sumZ (fun f => Feedback.presentation (Feedback.ratings f)) fb)
           (lengthZ fb);
       AnalyticsService.avg_relevance :=
         AnalyticsService.round1
           (sumZ (fun f => Feedback.relevance (Feedback.ratings f)) fb)
           (lengthZ fb);
       AnalyticsService.avg_overall :=
         AnalyticsService.round1
           (sumZ (fun f => Feedback.overall (Feedback.ratings f)) fb)
           (lengthZ fb) |}.
Proof.
  intros Hn. unfold AnalyticsService.calculateAverageRatings.
  apply Z.eqb_neq in Hn. rewrite Hn. rewrite totals_fold. reflexivity.
Qed.

(** An average of ratings between 3 and 5, rounded to one decimal. *)
Lemma round1_bounds (total len : Z) :
  0 < len -> 3 * len <= total <= 5 * len ->
  exists q, AnalyticsService.round1 total len = JS.Fin q
            /\ (3 <= q)%Q /\ (q <= 5)%Q.
Proof.
  intros Hlen Ht. unfold AnalyticsService.round1.
  rewrite div_fin by lia.
  cbn [JS.mul JS.of_Z JS.round].
  set (x := (inject_Z total / inject_Z len * inject_Z 10)%Q).
  assert (Hx : 30 <= JS.Qround x <= 50).
  { pose proof (inject_Z_pos len Hlen) as Hq.
    assert (L : (3 * inject_Z len <= inject_Z total)%Q).
    { change 3%Q with (inject_Z 3). rewrite <- inject_Z_mult, <- Zle_Qle. lia. }
    assert (U : (inject_Z total <= 5 * inject_Z len)%Q).
    { change 5%Q with (inject_Z 5). rewrite <- inject_Z_mult, <- Zle_Qle. lia. }
    assert (L' : (3 <= inject_Z total / inject_Z len)%Q)
      by (apply Qle_shift_div_l; [exact Hq|exact L]).
    assert (U' : (inject_Z total / inject_Z len <= 5)%Q)
      by (apply Qle_shift_div_r; [exact Hq|exact U]).
    apply Qround_between; unfold x; change (inject_Z 10) with 10%Q;
      change (inject_Z 30) with 30%Q; change (inject_Z 50) with 50%Q; lra. }
  unfold JS.div, JS.of_Z.
  change (JS.Qis0 (inject_Z 10)) with false. cbv iota.
  eexists. split; [reflexivity|].
  destruct Hx as [X1 X2]. rewrite Zle_Qle in X1, X2.
  change (inject_Z 30) with 30%Q in X1. change (inject_Z 50) with 50%Q in X2.
  change (inject_Z 10) with 10%Q. split.
  - apply Qle_shift_div_l; [reflexivity|lra].
  - apply Qle_shift_div_r; [reflexivity|lra].
Qed.

(** ** predictAttendance *)

Lemma rates_fold l : forall q,
  Forall (fun s => 0 <= Session.currentAttendance s <= Session.capacity s
                   /\ 0 < Session.capacity s) l ->
  exists r,
    fold_left
      (fun sum s =>
         JS.add sum
           (JS.div (JS.of_Z (Session.currentAttendance s))
              (JS.of_Z (Session.capacity s))))
      l (JS.Fin q)
    = JS.Fin r
    /\ (q <= r)%Q /\ (r <= q + inject_Z (lengthZ l))%Q.
Proof.
  induction l as [|x l IH]; intros q H.
  - exists q. split; [reflexivity|].
    change (inject_Z (lengthZ (@nil Session.t))) with 0%Q. split; lra.
  - inversion H as [|? ? [Hx Hc] Hl]; subst.
    cbn [fold_left]. rewrite div_fin by lia. cbn [JS.add].
    destruct (IH (q + inject_Z (Session.currentAttendance x)
                     / inject_Z (Session.capacity x))%Q Hl)
      as [r [E [R0 R1]]].
    destruct (fraction_bounds _ _ Hx Hc) as [F0 F1].
    exists r. split; [exact E|].
    rewrite lengthZ_cons, inject_Z_plus. change (inject_Z 1) with 1%Q.
    split; lra.
Qed.

Lemma predictAttendance_bounds session historicalData :
  0 <= Session.capacity session ->
  Forall (fun s => 0 <= Session.currentAttendance s <= Session.capacity s
                   /\ 0 < Session.capacity s) historicalData ->
  exists z,
    AnalyticsService.predictAttendance session historicalData = JS.of_Z z
    /\ 0 <= z <= Session.capacity session.
Proof.
  intros Hc Hh. unfold AnalyticsService.predictAttendance.
  set (sim := List.filter (AnalyticsService.similar session) historicalData).
  assert (Hsim : Forall (fun s => 0 <= Session.currentAttendance s
                                       <= Session.capacity s
                                  /\ 0 < Session.capacity s) sim).
  { rewrite List.Forall_forall in *. intros x Hx.
    apply filter_In in Hx. now apply Hh. }
  clearbody sim.
  pose proof (inject_Z_nonneg _ Hc) as Hq.
  destruct (lengthZ sim =? 0) eqn:E.
  - cbn [JS.mul JS.of_Z JS.round]. eexists. split; [reflexivity|].
    apply Qround_between; [change (inject_Z 0) with 0%Q|]; nra.
  - apply Z.eqb_neq in E. pose proof (lengthZ_nonneg sim) as Hn.
    destruct (rates_fold sim 0 Hsim) as [r [Er [R0 R1]]].
    change (JS.of_Z 0) with (JS.Fin 0). rewrite Er.
    unfold JS.div, JS.of_Z, JS.Qis0.
    destruct (Qeq_bool (inject_Z (lengthZ sim)) 0) eqn:E0.
    { apply Qeq_bool_iff in E0. unfold Qeq in E0. cbn in E0. lia. }
    cbn [JS.mul JS.round]. eexists. split; [reflexivity|].
    assert (Hl : (0 < inject_Z (lengthZ sim))%Q) by (apply inject_Z_pos; lia).
    assert (A0 : (0 <= r / inject_Z (lengthZ sim))%Q)
      by (apply Qle_shift_div_l; [exact Hl|lra]).
    assert (A1 : (r / inject_Z (lengthZ sim) <= 1)%Q)
      by (apply Qle_shift_div_r; [exact Hl|lra]).
    apply Qround_between; [change (inject_Z 0) with 0%Q|]; nra.
Qed.

(** ** calculatePerformanceScore *)

Lemma performance_score_bounds (engagement rating attendance : Q) :
  (0 <= engagement)%Q -> (engagement <= 100)%Q ->
  (0 <= rating)%Q -> (rating <= 5)%Q -> (0 <= attendance)%Q ->
  0 <= DataTransformers.calculatePerformanceScore engagement rating attendance
    <= 100.
Proof.
  intros E0 E1 R0 R1 A0. unfold DataTransformers.calculatePerformanceScore.
  assert (M0 : (0 <= Qmin (attendance / 500) 1)%Q).
  { apply Q.min_glb; [|discriminate].
    apply Qle_shift_div_l; [reflexivity|lra]. }
  assert (M1 : (Qmin (attendance / 500) 1 <= 1)%Q) by apply Q.le_min_r.
  assert (N0 : (0 <= engagement / 100)%Q)
    by (apply Qle_shift_div_l; [reflexivity|lra]).
  assert (N1 : (engagement / 100 <= 1)%Q)
    by (apply Qle_shift_div_r; [reflexivity|lra]).
  assert (P0 : (0 <= rating / 5)%Q)
    by (apply Qle_shift_div_l; [reflexivity|lra]).
  assert (P1 : (rating / 5 <= 1)%Q)
    by (apply Qle_shift_div_r; [reflexivity|lra]).
  set (m := Qmin (attendance / 500) 1) in *.
  set (e := (engagement / 100)%Q) in *. set (r := (rating / 5)%Q) in *.
  apply Qround_between; [change (inject_Z 0) with 0%Q
                        |change (inject_Z 100) with 100%Q]; lra.
Qed.

(** ** getSessionsByTimeSlot *)

Lemma timeSlots_fold l : forall acc,
  fold_left
    (fun slots session =>
       if Session.startHour session <? 12 then
         DataTransformers.TimeSlots
           (DataTransformers.morning slots ++ [session])
           (DataTransformers.afternoon slots) (DataTransformers.evening slots)
       else if Session.startHour session <? 17 then
         DataTransformers.TimeSlots (DataTransformers.morning slots)
           (DataTransformers.afternoon slots ++ [session])
           (DataTransformers.evening slots)
       else
         DataTransformers.TimeSlots (DataTransformers.morning slots)
           (DataTransformers.afternoon slots)
           (DataTransformers.evening slots ++ [session]))
    l acc
  = DataTransformers.TimeSlots
      (DataTransformers.morning acc
       ++ List.filter (fun s => Session.startHour s <? 12) l)
      (DataTransformers.afternoon acc
       ++ List.filter (fun s => (12 <=? Session.startHour s)
                                && (Session.startHour s <? 17)) l)
      (DataTransformers.evening acc
       ++ List.filter (fun s => 17 <=? Session.startHour s) l).
Proof.
  induction l as [|x l IH]; intros acc.
  - destruct acc. cbn. now rewrite !app_nil_r.
  - cbn [fold_left List.filter]. rewrite IH.
    destruct (Session.startHour x <? 12) eqn:E1;
      destruct (Session.startHour x <? 17) eqn:E2;
      destruct (12 <=? Session.startHour x) eqn:E3;
      destruct (17 <=? Session.startHour x) eqn:E4; try lia;
      cbn [andb DataTransformers.morning DataTransformers.afternoon
           DataTransformers.evening]; rewrite <- ?app_assoc; reflexivity.
Qed.

Lemma filter3_perm {A} (p q r : A -> bool) l :
  (forall x, (p x = true /\ q x = false /\ r x = false)
             \/ (p x = false /\ q x = true /\ r x = false)
             \/ (p x = false /\ q x = false /\ r x = true)) ->
  Permutation (List.filter p l ++ List.filter q l ++ List.filter r l) l.
Proof.
  intros H. induction l as [|x l IH]; [reflexivity|].
  cbn [List.filter].
  destruct (H x) as [[-> [-> ->]]|[[-> [-> ->]]|[-> [-> ->]]]]; cbv iota.
  - cbn [app]. now constructor.
  - cbn [app]. rewrite <- Permutation_middle. now constructor.
  - rewrite app_assoc, <- Permutation_middle, <- app_assoc. now constructor.
Qed.

(** ** The two rankings by attendance *)

Lemma insert_by_map {A B} (h : A -> B) cmp cmp' x l :
  (forall a b, cmp a b = cmp' (h a) (h b)) ->
  map h (JS.insert_by cmp x l) = JS.insert_by cmp' (h x) (map h l).
Proof.
  intros H. induction l as [|y l IH]; [reflexivity|].
  cbn [JS.insert_by map]. rewrite <- H.
  destruct (Qle_bool (cmp x y) 0); cbn [map]; [reflexivity|now rewrite IH].
Qed.

Lemma sort_by_map {A B} (h : A -> B) cmp cmp' l :
  (forall a b, cmp a b = cmp' (h a) (h b)) ->
  map h (JS.sort_by cmp l) = JS.sort_by cmp' (map h l).
Proof.
  intros H. induction l as [|x l IH]; [reflexivity|].
  cbn [JS.sort_by map]. rewrite <- IH. now apply insert_by_map.
Qed.

Lemma slice0_map {A B} (h : A -> B) e l :
  JS.slice0 e (map h l) = map h (JS.slice0 e l).
Proof.
  unfold JS.slice0. rewrite length_map.
  apply firstn_map.
Qed.

Lemma top_sessions_agree limit data :
  map SessionAnalytics.base
    (SessionAnalytics.topSessions "attendance" limit data)
  = Generator.getTopSessions (map JS.val data) limit.
Proof.
  unfold SessionAnalytics.topSessions, Generator.getTopSessions.
  destruct data as [|x l]; [unfold JS.slice0; cbn; now rewrite firstn_nil|].
  cbn [length Nat.eqb]. rewrite map_map. cbn [SessionAnalytics.base].
  rewrite <- slice0_map. f_equal.
  apply sort_by_map. intros a b. unfold SessionAnalytics.compare_by.
  cbn. now rewrite !or0_id.
Qed.

(** ** One tick *)


Lemma Forall2_chain {A} (R T : A -> A -> Prop) l1 l2 l3 :
  Forall2 R l1 l2 -> Forall2 T l2 l3 ->
  Forall2 (fun a c => exists b, R a b /\ T b c) l1 l3.
Proof.
  intros H. revert l3. induction H as [|a b l1 l2 Hab _ IH]; intros l3 H3.
  - inversion H3. constructor.
  - inversion H3 as [|? c ? l3' Hbc H3']; subst. constructor; eauto.
Qed.

Lemma status_step_moves h m s :
  status_moves s (Simulator.status_step h m s).
Proof.
  unfold status_moves, Simulator.status_step.
  destruct (Session.status_ s) eqn:E;
    [destruct (Qle_bool _ _) | destruct (Qle_bool _ _) |]; cbn; rewrite ?E;
    auto.
Qed.

Lemma mutate_status_moves c d g :
  Forall2 status_moves (Dataset.sessions d)
    (Dataset.sessions (fst (Simulator.mutate c d g))).
Proof.
  rewrite mutate_unfold. cbv zeta. rewrite attendee_pass_sessions.
  set (r1 := Simulator.simulateAttendanceChange d g).
  set (r2 := Simulator.simulateEngagementFluctuation (fst r1) (snd r1)).
  set (r3 := Simulator.simulateNewFeedback (Simulator.now c) (fst r2) (snd r2)).
  set (R := fun a b : Session.t =>
              Session.status_ b = Session.status_ a
              /\ Session.capacity b = Session.capacity a).
  assert (Rrefl : forall s, R s s) by (intros s; split; reflexivity).
  assert (Rtrans : forall a b c0, R a b -> R b c0 -> R a c0)
    by (unfold R; intros a b c0 [H1 H2] [H3 H4]; split; congruence).
  assert (H1 : Forall2 R (Dataset.sessions d) (Dataset.sessions (fst r1))).
  { apply (attendance_pass_evolves R (fun _ => True)); auto.
    intros s g0 _. destruct (attendance_step_fields s g0) as [_ [Hs [Hc _]]].
    now split. }
  assert (H2 : Forall2 R (Dataset.sessions (fst r1)) (Dataset.sessions (fst r2))).
  { apply (engagement_pass_evolves R (fun _ => True)); auto.
    intros s v. split; reflexivity. }
  assert (H3 : Forall2 R (Dataset.sessions (fst r2)) (Dataset.sessions (fst r3))).
  { apply (feedback_pass_evolves R); auto. intros s v. split; reflexivity. }
  pose proof (Forall2_compose R _ _ _ Rtrans
                (Forall2_compose R _ _ _ Rtrans H1 H2) H3) as H123.
  pose proof (status_pass_evolves status_moves status_step_moves c (fst r3))
    as H4.
  eapply Forall2_impl; [exact (Forall2_chain _ _ _ _ _ H123 H4)|].
  intros a b [x [[E1 E2] Hm]]. unfold status_moves in *.
  rewrite <- E1, <- E2. exact Hm.
Qed.

(** ** aggregateMetrics and the problems reported, on the simulator's data *)

Lemma sumZ_le {A} (f h : A -> Z) l :
  Forall (fun a => f a <= h a) l -> sumZ f l <= sumZ h l.
Proof.
  induction 1 as [|x l Hx _ IH]; [reflexivity|]. rewrite !sumZ_cons. lia.
Qed.

Lemma aggregate_consistent d :
  counters_ok d -> Forall session_ok (Dataset.sessions d) -> sizes_ok d ->
  aggregate_agrees d.
Proof.
  intros [C1 [C2 [C3 C4]]] Hs [Hn _].
  unfold aggregate_agrees, DataTransformers.aggregateMetrics.
  cbn [DataTransformers.totalSessions DataTransformers.activeSessions
       DataTransformers.totalAttendees DataTransformers.totalFeedback
       DataTransformers.overallAttendanceRate].
  unfold count_status in C2.
  repeat (split; [congruence|]).
  assert (Hcap : 50 * lengthZ (Dataset.sessions d)
                 <= sumZ Session.capacity (Dataset.sessions d)
                 <= 199 * lengthZ (Dataset.sessions d)).
  { apply sumZ_bounds. eapply Forall_impl; [exact Hs|].
    intros s [H _]. cbn. lia. }
  assert (Hatt : 0 * lengthZ (Dataset.sessions d)
                 <= sumZ Session.currentAttendance (Dataset.sessions d)
                 <= 199 * lengthZ (Dataset.sessions d)).
  { apply sumZ_bounds. eapply Forall_impl; [exact Hs|].
    intros s [H1 [H2 _]]. cbn. lia. }
  assert (Hle : sumZ Session.currentAttendance (Dataset.sessions d)
                <= sumZ Session.capacity (Dataset.sessions d)).
  { apply sumZ_le. eapply Forall_impl; [exact Hs|].
    intros s [_ [H2 _]]. cbn. lia. }
  assert (Hl : lengthZ (Dataset.sessions d) = 15)
    by (unfold lengthZ; rewrite Hn; reflexivity).
  rewrite Hl in Hcap, Hatt. clear Hl Hn Hs C1 C2 C3 C4.
  set (x := sumZ Session.currentAttendance (Dataset.sessions d)) in *.
  set (y := sumZ Session.capacity (Dataset.sessions d)) in *.
  clearbody x y.
  assert (Hy : 0 < y) by lia. assert (Hx : 0 <= x <= y) by lia.
  rewrite percent_fin by lia.
  exists (JS.Qround (inject_Z x / inject_Z y * 100)).
  split; [reflexivity|]. now apply percent_bounds.
Qed.

Lemma aggregate_reachable raises t ops g :
  Rand.in_range g ->
  aggregate_agrees (Simulator.content (after_ops raises t ops g)).
Proof.
  intros Hg. apply aggregate_consistent.
  - apply counters_reachable.
  - now apply session_ok_reachable.
  - apply sizes_reachable.
Qed.

Lemma no_low_rating s :
  Session.averageRating s = None ->
  Forall (fun p => SessionAnalytics.type p <> SessionAnalytics.low_rating)
    (SessionAnalytics.problems_of s).
Proof.
  intros H. unfold SessionAnalytics.problems_of. rewrite H.
  rewrite app_nil_r. apply Forall_app. split.
  - destruct (JS.lt _ (JS.of_Z 30)); [|destruct (JS.lt _ (JS.of_Z 50))];
      repeat constructor; discriminate.
  - destruct (Session.engagement s <? 40); [|destruct (Session.engagement s <? 60)];
      repeat constructor; discriminate.
Qed.

Lemma fresh_problems id index g :
  Rand.in_range g ->
  Forall (fun p => SessionAnalytics.type p = SessionAnalytics.low_attendance)
    (SessionAnalytics.problems_of (fst (Generator.generateSession id index g))).
Proof.
  intros Hg.
  destruct (generateSession_ranges id index g Hg)
    as [_ [R2 [_ [_ [_ [_ R7]]]]]].
  unfold SessionAnalytics.problems_of. rewrite R7, app_nil_r.
  apply Forall_app. split.
  - destruct (JS.lt _ (JS.of_Z 30)); [|destruct (JS.lt _ (JS.of_Z 50))];
      repeat constructor.
  - destruct (Session.engagement _ <? 40) eqn:E1; [lia|].
    destruct (Session.engagement _ <? 60) eqn:E2; [lia|]. constructor.
Qed.

(** ** The remaining steps towards the statements *)

Lemma count_status_map st l :
  count_status st l
  = lengthZ (List.filter (fun x => status_eqb x st) (map Session.status_ l)).
Proof.
  unfold count_status, lengthZ. f_equal.
  induction l as [|x l IH]; [reflexivity|].
  cbn [List.filter map]. unfold Session.has_status at 1.
  destruct (status_eqb (Session.status_ x) st); cbn [length]; now rewrite IH.
Qed.

Lemma generator_counts now g :
  generated_sizes (fst (Generator.generateInitialData now g)).
Proof.
  pose proof (generator_sizes now g) as Hn. cbv zeta in Hn.
  pose proof (generator_statuses now g) as Hs.
  pose proof (counters_generator now g) as Hc.
  set (d := fst (Generator.generateInitialData now g)) in *. clearbody d.
  destruct Hn as [N1 [N2 N3]]. destruct Hc as [C1 [C2 [C3 _]]].
  assert (K : forall st,
             count_status st (Dataset.sessions d)
             = lengthZ (List.filter (fun x => status_eqb x st)
                          (map (fun i => Generator.status_of_index (Z.of_nat i))
                             (seq 0 15)))).
  { intros st. now rewrite count_status_map, Hs. }
  unfold generated_sizes. rewrite C1, C2, C3, !K.
  unfold lengthZ. rewrite N1, N3.
  repeat split; try assumption; reflexivity.
Qed.

Lemma problems_of_ranges s :
  generated_ranges s -> only_attendance_problems s.
Proof.
  intros [_ [R2 [_ [_ [_ [_ R7]]]]]].
  unfold only_attendance_problems, SessionAnalytics.problems_of.
  rewrite R7, app_nil_r. apply Forall_app. split.
  - destruct (JS.lt _ (JS.of_Z 30)); [|destruct (JS.lt _ (JS.of_Z 50))];
      repeat constructor.
  - destruct (Session.engagement s <? 40) eqn:E1; [lia|].
    destruct (Session.engagement s <? 60) eqn:E2; [lia|]. constructor.
Qed.

Lemma generator_ranges now g :
  Rand.in_range g ->
  Forall (fun s => generated_ranges s /\ only_attendance_problems s)
    (Dataset.sessions (fst (Generator.generateInitialData now g))).
Proof.
  intros Hg.
  destruct (generateInitialData_shape now g)
    as [sessions0 [attendees [feedback [g2 [Hs0 [_ [_ [_ [_ [Hs _]]]]]]]]]].
  cbv zeta in Hs. rewrite Hs. apply Forall_map.
  pose proof (mapM_all Rand.in_range
                (fun i => Generator.generateSession (Z.of_nat i + 1) (Z.of_nat i))
                generated_ranges (seq 0 15)
                (fun i g => in_range_after _ g (keeps_generateSession _ _))
                (fun i g Hg => generateSession_ranges _ _ g Hg) g Hg) as H.
  rewrite <- Hs0 in H.
  eapply Forall_impl; [exact H|]. intros s Hr.
  assert (Hr' : generated_ranges (Session.set_feedback
                  (JS.slice0 5
                     (List.filter
                        (fun f => String.eqb (Feedback.sessionId f) (Session.id s))
                        feedback)) s)) by exact Hr.
  split; [exact Hr'|]. now apply problems_of_ranges.
Qed.

Lemma reset_effect_of raises c s g :
  timer_ok s -> refs_ok s -> List.NoDup (Simulator.subscribers s) ->
  reset_effect s (fst (Simulator.reset raises c s g)).
Proof.
  intros Ht [Hr1 Hr2] Hnd.
  destruct (reset_spec raises c s g) as [Hc [Hd [Hs [Hu [Hi [Hv Hn]]]]]].
  destruct (stop_spec s) as [_ [_ [_ [_ [_ [_ [_ Hstop]]]]]]].
  cbv zeta in *.
  set (s' := fst (Simulator.reset raises c s g)) in *. clearbody s'.
  unfold reset_effect. rewrite Hd, Hi, Hv, Hu, Hs, (Hstop Ht), Hc.
  cbn [Simulator.DataObj.oid Simulator.DataObj.updateCount
       Simulator.DataObj.body].
  repeat (split; [reflexivity || lia|]).
  split.
  - eexists. split; [reflexivity|].
    cbn [Simulator.DataObj.oid Simulator.DataObj.updateCount
         Simulator.DataObj.body].
    repeat split; lia.
  - intros cb Hin. rewrite calls_to_app, calls_to_once by assumption. lia.
Qed.

Lemma snapshot_fresh_of ts s :
  refs_ok s -> snapshot_fresh s (Simulator.dataWithTimestamp ts s).
Proof.
  intros [H1 H2]. unfold snapshot_fresh, Simulator.dataWithTimestamp.
  cbn [Simulator.DataObj.oid Simulator.DataObj.body].
  split; [lia|]. split; [reflexivity|].
  eapply Forall_impl; [exact H2|]. cbn. intros. lia.
Qed.

Lemma session_static_of s : session_ok s -> session_static s.
Proof. unfold session_ok, session_static. tauto. Qed.

(** ** Sessions that never start *)

Lemma after_ops_clocked (P : Dataset.t -> Prop) raises t ops g :
  (forall now g0, P (fst (Generator.generateInitialData now g0))) ->
  (forall c d g0, clock_ok c -> P d -> P (fst (Simulator.mutate c d g0))) ->
  Forall op_clock_ok ops ->
  P (Simulator.content (after_ops raises t ops g)).
Proof.
  intros Hgen Hmut Hops. unfold after_ops. rewrite run_bind.
  assert (H0 : P (Simulator.content (fst (Simulator.constructor t g))))
    by (rewrite constructor_content; apply Hgen).
  revert H0.
  generalize (snd (Simulator.constructor t g)).
  generalize (fst (Simulator.constructor t g)).
  unfold Simulator.run_ops.
  induction Hops as [|o ops Ho _ IH]; intros s g0 Hs; [exact Hs|].
  cbn [Rand.foldM]. unfold Rand.bind.
  assert (Hs' : P (Simulator.content (fst (Simulator.step raises o s g0)))).
  { destruct o as [cb|cb|ms| |c|c]; cbn [Simulator.step Rand.ret fst].
    - unfold Simulator.subscribe, Simulator.invoke. cbn.
      now destruct (raises cb (Simulator.data s)).
    - exact Hs.
    - unfold Simulator.start. now destruct (Simulator.isRunning s).
    - unfold Simulator.stop. now destruct (negb (Simulator.isRunning s)).
    - rewrite reset_content. apply Hgen.
    - destruct (Simulator.updateInterval s); [|exact Hs].
      destruct (performUpdate_spec raises c s g0) as [_ [Hk _]].
      unfold core in Hk. injection Hk as _ Hc _ _ _ _. rewrite Hc.
      now apply Hmut. }
  destruct (Simulator.step raises o s g0) as [s' g']. now apply IH.
Qed.

Lemma status_step_start h m s :
  Session.startHour (Simulator.status_step h m s) = Session.startHour s
  /\ Session.startMinute (Simulator.status_step h m s) = Session.startMinute s.
Proof.
  unfold Simulator.status_step.
  destruct (Session.status_ s);
    [destruct (Qle_bool _ _) | destruct (Qle_bool _ _) |]; cbn; auto.
Qed.

Lemma status_step_late h m s :
  0 <= h <= 23 -> 0 <= m <= 59 ->
  late_ok s -> late_ok (Simulator.status_step h m s).
Proof.
  intros Hh Hm [H0 Hl].
  destruct (status_step_start h m s) as [E1 E2].
  unfold late_ok. rewrite E1, E2. split; [exact H0|].
  intros H24. specialize (Hl H24).
  unfold Simulator.status_step. rewrite Hl.
  destruct (Qle_bool _ _) eqn:E; [|exact Hl].
  exfalso. apply Qle_bool_iff in E.
  assert (A1 : (inject_Z 24 <= inject_Z (Session.startHour s))%Q)
    by (rewrite <- Zle_Qle; lia).
  assert (A2 : (0 <= inject_Z (Session.startMinute s))%Q)
    by (apply inject_Z_nonneg; lia).
  assert (A3 : (inject_Z h <= inject_Z 23)%Q) by (rewrite <- Zle_Qle; lia).
  assert (A4 : (inject_Z m <= inject_Z 59)%Q) by (rewrite <- Zle_Qle; lia).
  change (inject_Z 24) with 24%Q in A1. change (inject_Z 23) with 23%Q in A3.
  change (inject_Z 59) with 59%Q in A4.
  assert (A5 : (0 <= inject_Z (Session.startMinute s) / 60)%Q)
    by (apply Qle_shift_div_l; [reflexivity|lra]).
  assert (A6 : (inject_Z m / 60 < 1)%Q)
    by (apply Qlt_shift_div_r; [reflexivity|lra]).
  lra.
Qed.

Lemma generateSession_late id index g :
  late_ok (fst (Generator.generateSession id index g)).
Proof.
  unfold late_ok, Generator.generateSession, Generator.generateTimeSlot,
    Generator.pick, Rand.bind, Rand.random, Rand.ret.
  cbn [fst snd Session.startMinute Session.startHour Session.status_].
  split; [pose proof (Z.mod_pos_bound index 2); lia|].
  intros H.
  assert (H15 : 15 <= Qfloor (inject_Z index * (3 # 2))) by lia.
  pose proof (Qfloor_le (inject_Z index * (3 # 2))) as Hf.
  rewrite Zle_Qle in H15. change (inject_Z 15) with 15%Q in H15.
  assert (Hi : (inject_Z 10 <= inject_Z index)%Q)
    by (change (inject_Z 10) with 10%Q; lra).
  rewrite <- Zle_Qle in Hi.
  unfold Generator.status_of_index.
  destruct (index <? 4) eqn:E4; [lia|]. destruct (index <? 8) eqn:E8; [lia|].
  reflexivity.
Qed.

Lemma late_generator now g :
  Forall late_ok (Dataset.sessions (fst (Generator.generateInitialData now g))).
Proof.
  destruct (generateInitialData_shape now g)
    as [sessions0 [attendees [feedback [g2 [Hs0 [_ [_ [_ [_ [Hs _]]]]]]]]]].
  cbv zeta in Hs. rewrite Hs. apply Forall_map.
  pose proof (mapM_all (fun _ => True)
                (fun i => Generator.generateSession (Z.of_nat i + 1) (Z.of_nat i))
                late_ok (seq 0 15) (fun _ _ _ => I)
                (fun i g _ => generateSession_late _ _ g) g I) as H.
  rewrite <- Hs0 in H.
  eapply Forall_impl; [exact H|]. intros s Hl. exact Hl.
Qed.

Lemma hours_generator now g :
  map Session.startHour
    (Dataset.sessions (fst (Generator.generateInitialData now g)))
  = generated_hours.
Proof.
  destruct (generateInitialData_shape now g)
    as [sessions0 [attendees [feedback [g2 [Hs0 [_ [_ [_ [_ [Hs _]]]]]]]]]].
  cbv zeta in Hs. rewrite Hs, map_map.
  transitivity (map Session.startHour sessions0);
    [apply map_ext; intros a; reflexivity|].
  pose proof (mapM_Forall2 (fun _ => True)
                (fun i => Generator.generateSession (Z.of_nat i + 1) (Z.of_nat i))
                (fun i s => Session.startHour s
                            = fst (Generator.generateTimeSlot (Z.of_nat i)))
                (seq 0 15) (fun _ _ _ => I) (fun _ _ _ => eq_refl) g I) as H.
  rewrite <- Hs0 in H.
  rewrite (Forall2_map_eq Session.startHour _ _ _ H). reflexivity.
Qed.

Lemma mutate_late c d g :
  clock_ok c ->
  Forall late_ok (Dataset.sessions d) ->
  Forall late_ok (Dataset.sessions (fst (Simulator.mutate c d g))).
Proof.
  intros [Hh Hm] H. rewrite mutate_unfold. cbv zeta.
  rewrite attendee_pass_sessions.
  set (r1 := Simulator.simulateAttendanceChange d g).
  set (r2 := Simulator.simulateEngagementFluctuation (fst r1) (snd r1)).
  set (r3 := Simulator.simulateNewFeedback (Simulator.now c) (fst r2) (snd r2)).
  assert (H1 : Forall late_ok (Dataset.sessions (fst r1))).
  { eapply (Forall2_transfer (fun a b => late_ok a -> late_ok b));
      [|auto|exact H].
    apply (attendance_pass_evolves _ (fun _ => True)); auto.
    intros s g0 _. destruct (attendance_step_fields s g0) as [_ [Es _]].
    destruct (attendance_step_keeps s g0) as [_ [_ [Eh Em]]].
    unfold late_ok. now rewrite Es, Eh, Em. }
  assert (H2 : Forall late_ok (Dataset.sessions (fst r2))).
  { eapply (Forall2_transfer (fun a b => late_ok a -> late_ok b));
      [|auto|exact H1].
    apply (engagement_pass_evolves _ (fun _ => True)); auto. }
  assert (H3 : Forall late_ok (Dataset.sessions (fst r3))).
  { eapply (Forall2_transfer (fun a b => late_ok a -> late_ok b));
      [|auto|exact H2].
    apply feedback_pass_evolves; auto. }
  clearbody r3. unfold Simulator.simulateSessionStatusChange.
  cbn [Dataset.sessions Simulator.with_metrics Simulator.with_sessions].
  apply Forall_map. eapply Forall_impl; [exact H3|].
  intros s. now apply status_step_late.
Qed.

Lemma mutate_hours c d g :
  map Session.startHour (Dataset.sessions (fst (Simulator.mutate c d g)))
  = map Session.startHour (Dataset.sessions d).
Proof.
  apply (Forall2_map_eq Session.startHour Session.startHour).
  apply (mutate_evolves (fun a b => Session.startHour b = Session.startHour a)
           (fun _ => True)); auto.
  - intros a b c0. congruence.
  - intros s g0 _. now destruct (attendance_step_keeps s g0) as [_ [_ [Eh _]]].
  - intros h m s. now destruct (status_step_start h m s).
Qed.

Lemma late_reachable raises t ops g :
  Forall op_clock_ok ops ->
  map Session.startHour
    (Dataset.sessions (Simulator.content (after_ops raises t ops g)))
  = generated_hours
  /\ Forall late_ok
       (Dataset.sessions (Simulator.content (after_ops raises t ops g))).
Proof.
  intros Hops.
  apply (after_ops_clocked
           (fun d => map Session.startHour (Dataset.sessions d) = generated_hours
                     /\ Forall late_ok (Dataset.sessions d)));
    [| |exact Hops].
  - intros now g0. split; [apply hours_generator|apply late_generator].
  - intros c d g0 Hc [H1 H2]. split.
    + now rewrite mutate_hours.
    + now apply mutate_late.
Qed.

Lemma late_sessions_upcoming l :
  map Session.startHour l = generated_hours -> Forall late_ok l ->
  Forall (fun s => Session.status_ s = upcoming) (skipn 10 l).
Proof.
  intros Hh Hl.
  assert (H24 : Forall (fun s => 24 <= Session.startHour s) (skipn 10 l)).
  { apply (f_equal (skipn 10)) in Hh. rewrite skipn_map in Hh.
    apply Forall_map. rewrite Hh.
    unfold generated_hours. cbn [skipn]. repeat constructor; lia. }
  assert (Hl' : Forall late_ok (skipn 10 l)).
  { rewrite List.Forall_forall in *. intros x Hx. apply Hl.
    rewrite <- (firstn_skipn 10 l). apply in_or_app. now right. }
  rewrite List.Forall_forall in *. intros x Hx.
  destruct (Hl' x Hx) as [_ H]. apply H. now apply H24.
Qed.

(** ** Attendee ids *)

Lemma numbered_snoc l a :
  numbered l ->
  Attendee.id a = "attendee-" +:+ pretty (lengthZ l + 1) ->
  numbered (l ++ [a]).
Proof.
  intros Hl Ha i b Hi.
  apply lookup_app_Some in Hi. destruct Hi as [Hi|[Hlen Hi]].
  - now apply Hl.
  - destruct (i - length l)%nat as [|k] eqn:E; [|destruct k; discriminate].
    injection Hi as <-. rewrite Ha. unfold lengthZ.
    replace (Z.of_nat (length l)) with (Z.of_nat i) by lia. reflexivity.
Qed.

Lemma numbered_distinct l i j a b :
  numbered l -> l !! i = Some a -> l !! j = Some b ->
  Attendee.id a = Attendee.id b -> i = j.
Proof.
  intros Hl Hi Hj E. rewrite (Hl i a Hi), (Hl j b Hj) in E.
  cbn in E. injection E as E. apply pretty_Z_inj in E. lia.
Qed.

Lemma attendee_pass_id now d g :
  let d' := fst (Simulator.simulateNewAttendee now d g) in
  Dataset.attendees d' = Dataset.attendees d
  \/ exists a,
       Dataset.attendees d' = Dataset.attendees d ++ [a]
       /\ Attendee.id a
          = "attendee-" +:+ pretty (lengthZ (Dataset.attendees d) + 1).
Proof.
  unfold Simulator.simulateNewAttendee, Rand.bind, Rand.random, Rand.ret.
  cbn [fst snd Rand.oracle Rand.drawn].
  destruct (Qltb _ (1 # 10)); [|now left].
  right. destruct (0 <? _).
  - cbn [fst snd Rand.oracle Rand.drawn].
    match goal with
    | |- context [?l !! ?k] => destruct (l !! k) as [s|]
    end; cbn; eexists; split; reflexivity.
  - cbn. eexists; split; reflexivity.
Qed.

Lemma numbered_loop now sessions n : forall start acc g,
  length (fst acc) = start -> numbered (fst acc) ->
  numbered
    (fst (fst (Rand.foldM (Generator.generate_registered_attendee now sessions)
                 (seq start n) acc g))).
Proof.
  induction n as [|n IH]; intros start acc g Hlen Hacc; [exact Hacc|].
  cbn [seq Rand.foldM]. unfold Rand.bind.
  pose proof (registered_attendee_unfold now sessions acc start g) as U.
  cbv zeta in U.
  destruct (Generator.generate_registered_attendee now sessions acc start g)
    as [acc' g'].
  cbn [fst] in U. apply IH; rewrite U; cbn [fst].
  - rewrite length_app. cbn [length]. lia.
  - apply numbered_snoc; [exact Hacc|].
    cbn [Attendee.id]. unfold lengthZ. rewrite Hlen. reflexivity.
Qed.

Lemma numbered_generator now g :
  numbered (Dataset.attendees (fst (Generator.generateInitialData now g))).
Proof.
  destruct (generateInitialData_shape now g)
    as [sessions0 [attendees [feedback [g2 [_ [_ [Hf [Ha _]]]]]]]].
  cbv zeta in Ha. rewrite Ha.
  pose proof (numbered_loop now sessions0 Generator.attendee_count 0 ([], []) g2
                eq_refl) as H.
  rewrite Hf in H. apply H. intros i a Hi. discriminate.
Qed.

Lemma numbered_reachable raises t ops g :
  numbered (Dataset.attendees (Simulator.content (after_ops raises t ops g))).
Proof.
  apply (after_ops_invariant (fun _ => True) (fun _ _ _ _ => I)
           (fun d => numbered (Dataset.attendees d))).
  - intros d g0 _ H.
    destruct (attendance_pass_frame d g0) as [_ [-> _]]. exact H.
  - intros d g0 _ H.
    destruct (engagement_pass_frame d g0) as [_ [-> _]]. exact H.
  - intros now d g0 _ H.
    destruct (feedback_pass_spec now d g0) as [_ [-> _]]. exact H.
  - intros c d H.
    destruct (status_pass_frame c d) as [_ [-> _]]. exact H.
  - intros now d g0 _ H.
    destruct (attendee_pass_id now d g0) as [->|[a [-> Ha]]]; [exact H|].
    now apply numbered_snoc.
  - intros now g0 _. apply numbered_generator.
  - exact I.
Qed.

(** * The properties, one by one *)

(** ** The generator *)

(** X1: a fresh data set has 15 sessions, 15 speakers and 847 attendees;
    four sessions are completed, four active and seven upcoming, and the
    metrics object says so. *)
Theorem X1_generated_sizes (now : Z) (g : Rand.rng) :
  generated_sizes (fst (Generator.generateInitialData now g)).
Proof. exact (generator_counts now g). Qed.

(** X2: in a fresh data set every session has a capacity from 50 to 199, an
    engagement from 60 to 94, a rating from 3.5 to 5, one or two tags, a
    duration of 60 and no [averageRating]; hence the only problems
    [getSessionsNeedingAttention] can report for it are of attendance. *)
Theorem X2_generated_sessions (now : Z) (g : Rand.rng) :
  Rand.in_range g ->
  Forall (fun s => generated_ranges s /\ only_attendance_problems s)
    (Dataset.sessions (fst (Generator.generateInitialData now g))).
Proof. exact (generator_ranges now g). Qed.

Lemma X2_generated_sessions_witness :
  Forall (fun s => generated_ranges s /\ only_attendance_problems s)
    (Dataset.sessions
       (fst (Generator.generateInitialData 0 (Sample.constant (1 # 2))))).
Proof.
  refine (X2_generated_sessions 0 (Sample.constant (1 # 2)) _).
  intros n. split; [discriminate | reflexivity].
Defined.

(** X3: in a fresh data set every attendee attended only sessions they are
    registered for, and every attended session is a completed session of
    the data set. *)
Theorem X3_attendance_histories (now : Z) (g : Rand.rng) :
  histories_ok (fst (Generator.generateInitialData now g)).
Proof. exact (generator_attended now g). Qed.

(** X4: in a fresh data set every feedback has its four ratings between 3
    and 5 and carries the id of an attendee of the data set who attended
    the session it is about. *)
Theorem X4_feedback_provenance (now : Z) (g : Rand.rng) :
  Rand.in_range g ->
  provenance_ok (fst (Generator.generateInitialData now g)).
Proof. exact (generator_feedback now g). Qed.

Lemma X4_feedback_provenance_witness :
  provenance_ok (fst (Generator.generateInitialData 0 (Sample.constant (1 # 2)))).
Proof.
  refine (X4_feedback_provenance 0 (Sample.constant (1 # 2)) _).
  intros n. split; [discriminate | reflexivity].
Defined.

(** ** The simulator, in every state it can reach *)

(** X5: whatever was called on a simulator since it was created, its
    metrics agree with its arrays: [totalSessions], [activeSessions],
    [totalAttendees] and [totalFeedback] are the four counts, and
    [avgRating] is the rounded mean of the overall ratings of all
    feedback. *)
Theorem X5_metrics_agree
    (raises : Simulator.callback -> Simulator.DataObj.t -> bool)
    (t : Z) (ops : list Simulator.op) (g : Rand.rng) :
  counters_ok (Simulator.content (after_ops raises t ops g))
  /\ Metrics.avgRating
       (Dataset.metrics (Simulator.content (after_ops raises t ops g)))
     = avgRating_of
         (Dataset.feedback (Simulator.content (after_ops raises t ops g))).
Proof.
  split; [apply counters_reachable | exact (avgRating_reachable raises t ops g)].
Qed.

(** X6: the engagement of every session stays an integer from 0 to 100. *)
Theorem X6_engagement_percentage
    (raises : Simulator.callback -> Simulator.DataObj.t -> bool)
    (t : Z) (ops : list Simulator.op) (g : Rand.rng) :
  Rand.in_range g ->
  Forall engagement_ok
    (Dataset.sessions (Simulator.content (after_ops raises t ops g))).
Proof. exact (engagement_reachable raises t ops g). Qed.

Lemma X6_engagement_percentage_witness :
  Forall engagement_ok
    (Dataset.sessions
       (Simulator.content
          (after_ops quiet 0 Sample.one_tick (Sample.constant (1 # 2))))).
Proof.
  refine (X6_engagement_percentage quiet 0 Sample.one_tick
            (Sample.constant (1 # 2)) _).
  intros n. split; [discriminate | reflexivity].
Defined.

(** X7: every feedback in the global list, generated or added by a tick,
    has its four ratings between 3 and 5 and is about a session that is
    completed. *)
Theorem X7_feedback_sound
    (raises : Simulator.callback -> Simulator.DataObj.t -> bool)
    (t : Z) (ops : list Simulator.op) (g : Rand.rng) :
  Rand.in_range g ->
  feedback_sound (Simulator.content (after_ops raises t ops g)).
Proof. exact (feedback_reachable raises t ops g). Qed.

Lemma X7_feedback_sound_witness :
  feedback_sound
    (Simulator.content
       (after_ops quiet 0 Sample.one_tick (Sample.constant (1 # 2)))).
Proof.
  refine (X7_feedback_sound quiet 0 Sample.one_tick (Sample.constant (1 # 2)) _).
  intros n. split; [discriminate | reflexivity].
Defined.

(** X8: the feedback array a session carries never has more than five
    entries; each is about that session and is in the global list. *)
Theorem X8_session_feedback_bounded
    (raises : Simulator.callback -> Simulator.DataObj.t -> bool)
    (t : Z) (ops : list Simulator.op) (g : Rand.rng) :
  caches_ok (Simulator.content (after_ops raises t ops g)).
Proof. exact (caches_reachable raises t ops g). Qed.

(** X9: every attendee, generated or added by a tick, attended only
    sessions they are registered for. *)
Theorem X9_attended_within_registered
    (raises : Simulator.callback -> Simulator.DataObj.t -> bool)
    (t : Z) (ops : list Simulator.op) (g : Rand.rng) :
  Forall attended_ok
    (Dataset.attendees (Simulator.content (after_ops raises t ops g))).
Proof. exact (attended_reachable raises t ops g). Qed.

(** X10: there are always 15 sessions, 15 speakers and at least 847
    attendees, and no pass touches the capacity, rating, tags, duration or
    the absent [averageRating] of a session: the capacity stays from 50 to
    199, the rating from 3.5 to 5, the tags one or two, the duration 60. *)
Theorem X10_sizes_and_static_fields
    (raises : Simulator.callback -> Simulator.DataObj.t -> bool)
    (t : Z) (ops : list Simulator.op) (g : Rand.rng) :
  Rand.in_range g ->
  sizes_ok (Simulator.content (after_ops raises t ops g))
  /\ Forall session_static
       (Dataset.sessions (Simulator.content (after_ops raises t ops g))).
Proof.
  intros Hg. split; [apply sizes_reachable|].
  eapply Forall_impl; [exact (session_ok_reachable raises t ops g Hg)|].
  exact session_static_of.
Qed.

Lemma X10_sizes_and_static_fields_witness :
  sizes_ok
    (Simulator.content
       (after_ops quiet 0 Sample.one_tick (Sample.constant (1 # 2)))).
Proof.
  refine (proj1 (X10_sizes_and_static_fields quiet 0 Sample.one_tick
                   (Sample.constant (1 # 2)) _)).
  intros n. split; [discriminate | reflexivity].
Defined.

(** X11: [isRunning] is true exactly when an interval handle is stored. *)
Theorem X11_timer_flag_agrees
    (raises : Simulator.callback -> Simulator.DataObj.t -> bool)
    (t : Z) (ops : list Simulator.op) (g : Rand.rng) :
  timer_ok (after_ops raises t ops g).
Proof. exact (timer_reachable raises t ops g). Qed.

(** X12: [reset] stops the timer, sets [updateCount] to 0 and replaces
    [this.data] by a new object without [updateCount]; it keeps the
    subscribers and calls each of them once, with one snapshot whose
    [updateCount] is 0 and which shares the arrays of the new data. *)
Theorem X12_reset
    (raises : Simulator.callback -> Simulator.DataObj.t -> bool)
    (t : Z) (ops : list Simulator.op) (g : Rand.rng)
    (c : Simulator.clock) (g' : Rand.rng) :
  reset_effect (after_ops raises t ops g)
    (fst (Simulator.reset raises c (after_ops raises t ops g) g')).
Proof.
  apply reset_effect_of.
  - apply timer_reachable.
  - apply refs_reachable.
  - apply subscribers_reachable.
Qed.

(** X13: the object [notifySubscribers] passes is a new one each time: it
    is neither [this.data] nor any object a subscriber was called with
    before, it shares the arrays of [this.data], and all subscribers of one
    notification receive this same object. *)
Theorem X13_snapshot_is_fresh
    (raises : Simulator.callback -> Simulator.DataObj.t -> bool)
    (t : Z) (ops : list Simulator.op) (g : Rand.rng) (ts : Z) :
  snapshot_fresh (after_ops raises t ops g)
    (Simulator.dataWithTimestamp ts (after_ops raises t ops g))
  /\ Simulator.calls
       (Simulator.notifySubscribers raises ts (after_ops raises t ops g))
     = Simulator.calls (after_ops raises t ops g)
       ++ map (fun cb =>
                 (cb, Simulator.dataWithTimestamp ts (after_ops raises t ops g)))
            (Simulator.subscribers (after_ops raises t ops g)).
Proof.
  split.
  - apply snapshot_fresh_of, refs_reachable.
  - exact (proj1 (notifySubscribers_spec raises ts (after_ops raises t ops g))).
Qed.

(** ** One tick *)


(** X15: in one tick the status of a session stays, or goes from upcoming
    to active, or from active to completed, never from upcoming to
    completed; a session that becomes active ends the tick with three
    tenths of its capacity, rounded down, as attendance. *)
Theorem X15_tick_status_one_step
    (c : Simulator.clock) (d : Dataset.t) (g : Rand.rng) :
  Forall2 status_moves (Dataset.sessions d)
    (Dataset.sessions (fst (Simulator.mutate c d g))).
Proof. exact (mutate_status_moves c d g). Qed.

(** ** The analytics on the simulator's data *)

(** X16: on the arrays of any state the simulator can reach,
    [aggregateMetrics] returns the session, active-session, attendee and
    feedback counts that the simulator's metrics hold, and its unguarded
    [overallAttendanceRate] is an integer from 0 to 100: the total capacity
    is never 0 there. *)
Theorem X16_aggregate_on_simulator_data
    (raises : Simulator.callback -> Simulator.DataObj.t -> bool)
    (t : Z) (ops : list Simulator.op) (g : Rand.rng) :
  Rand.in_range g ->
  aggregate_agrees (Simulator.content (after_ops raises t ops g)).
Proof. exact (aggregate_reachable raises t ops g). Qed.

Lemma X16_aggregate_on_simulator_data_witness :
  aggregate_agrees
    (Simulator.content
       (after_ops quiet 0 Sample.one_tick (Sample.constant (1 # 2)))).
Proof.
  refine (X16_aggregate_on_simulator_data quiet 0 Sample.one_tick
            (Sample.constant (1 # 2)) _).
  intros n. split; [discriminate | reflexivity].
Defined.

(** X17: no session of a state the simulator can reach is ever reported
    for a low rating: no pass and no generator writes [averageRating], the
    only property the rating check reads. *)
Theorem X17_no_rating_problem
    (raises : Simulator.callback -> Simulator.DataObj.t -> bool)
    (t : Z) (ops : list Simulator.op) (g : Rand.rng) :
  Rand.in_range g ->
  Forall no_rating_problem
    (Dataset.sessions (Simulator.content (after_ops raises t ops g))).
Proof.
  intros Hg.
  eapply Forall_impl; [exact (session_ok_reachable raises t ops g Hg)|].
  intros s Hs. apply no_low_rating. unfold session_ok in Hs. tauto.
Qed.

Lemma X17_no_rating_problem_witness :
  Forall no_rating_problem
    (Dataset.sessions
       (Simulator.content
          (after_ops quiet 0 Sample.one_tick (Sample.constant (1 # 2))))).
Proof.
  refine (X17_no_rating_problem quiet 0 Sample.one_tick
            (Sample.constant (1 # 2)) _).
  intros n. split; [discriminate | reflexivity].
Defined.

(** ** The analytics on any data *)

(** X18: the counts [calculateSessionStats] accumulates in its [reduce] are
    the number of sessions and the numbers of active, upcoming and completed
    ones, which add up to the total; the two sums are those of the
    capacities and of the attendances. *)
Theorem X18_session_stats (data : list Session.t) :
  let st := SessionAnalytics.sessionStats data in
  SessionAnalytics.total st = lengthZ data
  /\ SessionAnalytics.active_ st = count_status active data
  /\ SessionAnalytics.upcoming_ st = count_status upcoming data
  /\ SessionAnalytics.completed_ st = count_status completed data
  /\ SessionAnalytics.active_ st + SessionAnalytics.upcoming_ st
     + SessionAnalytics.completed_ st = SessionAnalytics.total st
  /\ SessionAnalytics.totalCapacity st = sumZ Session.capacity data
  /\ SessionAnalytics.totalAttendees st = sumZ Session.currentAttendance data.
Proof.
  intros st. destruct (sessionStats_counts data) as [H1 [H2 [H3 [H4 [H5 H6]]]]].
  fold st in H1, H2, H3, H4, H5, H6. clearbody st.
  repeat (split; [assumption|]). split; [|split; assumption].
  rewrite H1, H2, H3, H4. apply count_status_total.
Qed.

(** X19: the three shares [analyzeSentiment] returns are integers from 0 to
    100, whatever the feedback; for no feedback all three are 0. *)
Theorem X19_sentiment_percentages (feedback : list Feedback.t) :
  integer_in 0 100
    (AnalyticsService.positive (AnalyticsService.analyzeSentiment feedback))
  /\ integer_in 0 100
       (AnalyticsService.neutral (AnalyticsService.analyzeSentiment feedback))
  /\ integer_in 0 100
       (AnalyticsService.negative (AnalyticsService.analyzeSentiment feedback))
  /\ AnalyticsService.analyzeSentiment []
     = AnalyticsService.Sentiment (JS.of_Z 0) (JS.of_Z 0) (JS.of_Z 0).
Proof.
  rewrite sentiment_fin. cbv zeta.
  destruct (sentiment_total_pos feedback) as [Ht Hl]. cbv zeta in Ht, Hl.
  set (t := if lengthZ feedback =? 0 then 1 else lengthZ feedback) in *.
  clearbody t.
  cbn [AnalyticsService.positive AnalyticsService.neutral
       AnalyticsService.negative].
  assert (K : forall p : Feedback.t -> bool,
             integer_in 0 100
               (JS.of_Z (JS.Qround (inject_Z (lengthZ (List.filter p feedback))
                                    / inject_Z t * 100)))).
  { intros p. eexists. split; [reflexivity|].
    pose proof (lengthZ_filter_le p feedback). apply percent_bounds; lia. }
  repeat (split; [apply K|]). reflexivity.
Qed.

(** X20: for feedback rated as the generator and the simulator rate it,
    overall from 3 to 5, the negative share is 0 and the positive and the
    neutral share add up to 100 or to 101. *)
Theorem X20_sentiment_of_rated_feedback (feedback : list Feedback.t) :
  Forall ratings_ok feedback -> feedback <> [] ->
  exists p n,
    AnalyticsService.analyzeSentiment feedback
    = AnalyticsService.Sentiment (JS.of_Z p) (JS.of_Z n) (JS.of_Z 0)
    /\ 100 <= p + n <= 101.
Proof.
  intros Hr Hne. rewrite sentiment_fin. cbv zeta.
  destruct (sentiment_counts feedback Hr) as [Hsum Hneg].
  assert (Hlen : 0 < lengthZ feedback).
  { destruct feedback; [congruence|]. rewrite lengthZ_cons.
    pose proof (lengthZ_nonneg feedback). lia. }
  assert (E : (lengthZ feedback =? 0) = false) by (apply Z.eqb_neq; lia).
  rewrite E, Hneg.
  assert (Z0 : JS.Qround (inject_Z 0 / inject_Z (lengthZ feedback) * 100) = 0).
  { replace 0 with (JS.Qround (inject_Z 0)) at 2 by apply Qround_Z.
    unfold JS.Qround. apply Qfloor_comp. change (inject_Z 0) with 0%Q.
    unfold Qdiv. ring. }
  rewrite Z0. eexists _, _. split; [reflexivity|].
  apply percent_complement; try exact Hsum; try exact Hlen;
    apply lengthZ_filter_le.
Qed.

Lemma X20_sentiment_of_rated_feedback_witness :
  exists p n,
    AnalyticsService.analyzeSentiment [Sample.praise; Sample.fair]
    = AnalyticsService.Sentiment (JS.of_Z p) (JS.of_Z n) (JS.of_Z 0)
    /\ 100 <= p + n <= 101.
Proof.
  apply (X20_sentiment_of_rated_feedback [Sample.praise; Sample.fair]).
  - repeat constructor; cbn; lia.
  - discriminate.
Defined.

(** X21: for feedback rated from 3 to 5, not empty, the four averages
    [calculateAverageRatings] returns are numbers from 3 to 5, and its
    [overall] is the mean of the overall ratings rounded to one decimal,
    as the generator and the simulator compute [metrics.avgRating]. *)
Theorem X21_average_ratings (feedback : list Feedback.t) :
  Forall ratings_ok feedback -> feedback <> [] ->
  let a := AnalyticsService.calculateAverageRatings feedback in
  AnalyticsService.avg_overall a = avgRating_of feedback
  /\ finite_in 3 5 (AnalyticsService.avg_content a)
  /\ finite_in 3 5 (AnalyticsService.avg_presentation a)
  /\ finite_in 3 5 (AnalyticsService.avg_relevance a)
  /\ finite_in 3 5 (AnalyticsService.avg_overall a).
Proof.
  intros Hr Hne a. subst a.
  assert (Hlen : 0 < lengthZ feedback).
  { destruct feedback; [congruence|]. rewrite lengthZ_cons.
    pose proof (lengthZ_nonneg feedback). lia. }
  rewrite averages_unfold by lia.
  cbn [AnalyticsService.avg_content AnalyticsService.avg_presentation
       AnalyticsService.avg_relevance AnalyticsService.avg_overall].
  split; [reflexivity|].
  assert (K : forall h : Feedback.t -> Z,
             Forall (fun f => 3 <= h f <= 5) feedback ->
             finite_in 3 5
               (AnalyticsService.round1 (sumZ h feedback) (lengthZ feedback))).
  { intros h Hh. apply round1_bounds; [exact Hlen|].
    now apply sumZ_bounds. }
  repeat split; apply K; (eapply Forall_impl; [exact Hr|]);
    intros f [H1 [H2 [H3 H4]]]; assumption.
Qed.

Lemma X21_average_ratings_witness :
  AnalyticsService.avg_overall
    (AnalyticsService.calculateAverageRatings [Sample.praise; Sample.fair])
  = avgRating_of [Sample.praise; Sample.fair].
Proof.
  refine (proj1 (X21_average_ratings [Sample.praise; Sample.fair] _ _)).
  - repeat constructor; cbn; lia.
  - discriminate.
Defined.

(** X22: when every past session has a positive capacity and an attendance
    within it, [predictAttendance] returns an integer from 0 to the capacity
    of the session asked about. *)
Theorem X22_predicted_attendance
    (session : Session.t) (historicalData : list Session.t) :
  0 <= Session.capacity session ->
  Forall (fun s => 0 <= Session.currentAttendance s <= Session.capacity s
                   /\ 0 < Session.capacity s) historicalData ->
  integer_in 0 (Session.capacity session)
    (AnalyticsService.predictAttendance session historicalData).
Proof. exact (predictAttendance_bounds session historicalData). Qed.

Lemma X22_predicted_attendance_witness :
  integer_in 0 (Session.capacity Sample.rated_two)
    (AnalyticsService.predictAttendance Sample.rated_two [Sample.troubled]).
Proof.
  apply (X22_predicted_attendance Sample.rated_two [Sample.troubled]).
  - cbn. lia.
  - repeat constructor; cbn; lia.
Defined.

(** X23: for an engagement from 0 to 100, a rating from 0 to 5 and an
    attendance that is not negative, [calculatePerformanceScore] is an
    integer from 0 to 100. *)
Theorem X23_performance_score (engagement rating attendance : Q) :
  (0 <= engagement)%Q -> (engagement <= 100)%Q ->
  (0 <= rating)%Q -> (rating <= 5)%Q -> (0 <= attendance)%Q ->
  0 <= DataTransformers.calculatePerformanceScore engagement rating attendance
    <= 100.
Proof. exact (performance_score_bounds engagement rating attendance). Qed.

Lemma X23_performance_score_witness :
  0 <= DataTransformers.calculatePerformanceScore 80 (9 # 2) 620 <= 100.
Proof.
  apply (X23_performance_score 80 (9 # 2) 620); discriminate.
Defined.

(** X24: [getSessionsByTimeSlot] puts every session in exactly one of its
    three lists - morning before 12, afternoon from 12 to 16, evening from
    17 - and keeps the order of the sessions in each. *)
Theorem X24_time_slots (sessions : list Session.t) :
  let slots := DataTransformers.getSessionsByTimeSlot sessions in
  DataTransformers.morning slots
  = List.filter (fun s => Session.startHour s <? 12) sessions
  /\ DataTransformers.afternoon slots
     = List.filter (fun s => (12 <=? Session.startHour s)
                             && (Session.startHour s <? 17)) sessions
  /\ DataTransformers.evening slots
     = List.filter (fun s => 17 <=? Session.startHour s) sessions
  /\ Permutation
       (DataTransformers.morning slots ++ DataTransformers.afternoon slots
        ++ DataTransformers.evening slots)
       sessions.
Proof.
  intros slots. subst slots. unfold DataTransformers.getSessionsByTimeSlot.
  rewrite timeSlots_fold.
  cbn [DataTransformers.morning DataTransformers.afternoon
       DataTransformers.evening app].
  repeat (split; [reflexivity|]).
  apply filter3_perm. intros x.
  destruct (Session.startHour x <? 12) eqn:E1;
    destruct (Session.startHour x <? 17) eqn:E2;
    destruct (12 <=? Session.startHour x) eqn:E3;
    destruct (17 <=? Session.startHour x) eqn:E4; try lia; cbn; auto.
Qed.

(** X25: ranking by attendance gives the same sessions in the same order
    from [getTopSessions] of the analytics service (metric ['attendance'])
    and from [getTopSessions] exported by the generator. *)
Theorem X25_rankings_agree (limit : Z) (data : SessionAnalytics.sessions_t) :
  map SessionAnalytics.base
    (SessionAnalytics.topSessions "attendance" limit data)
  = Generator.getTopSessions (map JS.val data) limit.
Proof. exact (top_sessions_agree limit data). Qed.

(** X26: the fifteen sessions start at hours 9, 10, 12, 13, 15, 16, 18, 19,
    21, 22, 24, 25, 27, 28 and 30, in every state a simulator reaches; as
    the hour of the clock is at most 23, the last five are upcoming in
    every such state: they never become active. *)
Theorem X26_late_sessions_never_start
    (raises : Simulator.callback -> Simulator.DataObj.t -> bool)
    (t : Z) (ops : list Simulator.op) (g : Rand.rng) :
  Forall op_clock_ok ops ->
  map Session.startHour
    (Dataset.sessions (Simulator.content (after_ops raises t ops g)))
  = generated_hours
  /\ Forall (fun s => Session.status_ s = upcoming)
       (skipn 10
          (Dataset.sessions (Simulator.content (after_ops raises t ops g)))).
Proof.
  intros Hops. destruct (late_reachable raises t ops g Hops) as [H1 H2].
  split; [exact H1|]. now apply late_sessions_upcoming.
Qed.

Lemma X26_late_sessions_never_start_witness :
  map Session.startHour
    (Dataset.sessions
       (Simulator.content
          (after_ops quiet 0 Sample.one_tick (Sample.constant (1 # 2)))))
  = generated_hours.
Proof.
  refine (proj1 (X26_late_sessions_never_start quiet 0 Sample.one_tick
                   (Sample.constant (1 # 2)) _)).
  repeat constructor; cbn; lia.
Defined.

(** X27: in every state a simulator reaches, the attendee at position [i]
    of the attendees array, counted from 0, generated or added by a tick,
    has the id [attendee-(i+1)]: no two attendees share an id. *)
Theorem X27_attendee_ids
    (raises : Simulator.callback -> Simulator.DataObj.t -> bool)
    (t : Z) (ops : list Simulator.op) (g : Rand.rng) :
  numbered (Dataset.attendees (Simulator.content (after_ops raises t ops g)))
  /\ forall i j a b,
       Dataset.attendees (Simulator.content (after_ops raises t ops g)) !! i
       = Some a ->
       Dataset.attendees (Simulator.content (after_ops raises t ops g)) !! j
       = Some b ->
       Attendee.id a = Attendee.id b -> i = j.
Proof.
  pose proof (numbered_reachable raises t ops g) as H.
  split; [exact H|]. intros i j a b. now apply numbered_distinct.
Qed.
